(** * The local minimization driver of package optimize (local.go)

    A shallow embedding of [Local], [minimize], [getStartingLocation],
    [checkConvergence], [invalidate], [evaluate], [update], [copyLocation]
    and [getDefaultMethod], followed by the properties established about
    them.

    Conventions.
    - A Go [float64] is a [spec_float] of the Standard Library (IEEE 754
      values: zeros, infinities, NaN, finite numbers), compared with
      [SFltb], [SFleb] and [SFeqb], which are false on NaN.
    - A Go [int] is a [Z] kept in the 64-bit signed range; [++] and [+]
      wrap around.
    - A slice that may be nil is an [option (list _)]; a pointer that may be
      nil is an [option _].
    - [*Location] and [*Stats] arguments are passed and returned explicitly.
    - The objective, the method, the recorder and the clock are supplied by
      the caller and may be stateful: each answer is a function of the
      history of all calls made so far, and every call is appended to that
      history. *)

From Stdlib Require Import String ZArith List Bool Lia.
From Stdlib Require Import Floats.SpecFloat.
Import ListNotations.

Set Implicit Arguments.

(** ** Go builtins used by the driver *)

Module Go.

(** [int] on a 64-bit platform. *)
Definition int := Z.

Definition wrap (z : Z) : int :=
  ((z + 2 ^ 63) mod 2 ^ 64 - 2 ^ 63)%Z.

Definition add (a b : int) : int := wrap (a + b).

(** [n++] *)
Definition incr (n : int) : int := add n 1%Z.

(** [copy(dst, src)]: the first [min (len dst) (len src)] elements of [dst]
    are overwritten; the result is the new content of [dst]. *)
Definition copy {A : Type} (dst src : list A) : list A :=
  firstn (length dst) src ++ skipn (length src) dst.

(** [len] of a slice that may be nil. *)
Definition len {A : Type} (s : option (list A)) : nat :=
  match s with
  | Some l => length l
  | None => 0%nat
  end.

End Go.

(** ** Package math on float64 *)

(** A Go [float64]. *)
Definition float64 := spec_float.

Module math.

Definition zero : float64 := S754_zero false.

Definition NaN : float64 := S754_nan.

(** [math.Inf(sign)]: positive infinity if [sign >= 0], negative otherwise. *)
Definition Inf (sign : Z) : float64 := S754_infinity (sign <? 0)%Z.

Definition IsNaN (f : float64) : bool :=
  match f with
  | S754_nan => true
  | _ => false
  end.

(** [math.IsInf(f, sign)]: [sign > 0] asks for positive infinity,
    [sign < 0] for negative infinity, [sign == 0] for either. *)
Definition IsInf (f : float64) (sign : Z) : bool :=
  match f with
  | S754_infinity s =>
      if (0 <? sign)%Z then negb s
      else if (sign <? 0)%Z then s
      else true
  | _ => false
  end.

Definition Abs (f : float64) : float64 := SFabs f.

Definition Signbit (f : float64) : bool :=
  match f with
  | S754_zero s | S754_infinity s | S754_finite s _ _ => s
  | S754_nan => false
  end.

(** [math.Max]: +Inf if either argument is +Inf, NaN if either is NaN,
    and [Max(+0, -0) = +0]. *)
Definition Max (x y : float64) : float64 :=
  if IsInf x 1 || IsInf y 1 then Inf 1
  else if IsNaN x || IsNaN y then NaN
  else if SFeqb x (S754_zero false) && SFeqb x y
       then (if Signbit x then y else x)
  else if SFltb y x then x else y.

(** The comparison operators of Go on float64. *)
Definition lt (x y : float64) : bool := SFltb x y.
Definition le (x y : float64) : bool := SFleb x y.
Definition eq (x y : float64) : bool := SFeqb x y.

End math.

(** ** Package floats (imported, not part of local.go) *)

Module floats.

(** Modelled from the spec: [floats.Equal] is imported by local.go and is
    not among the sources; the evaluator compares the candidate point with
    the location "by content, not identity": same length and element-wise
    [==] on float64. *)
Fixpoint Equal (s1 s2 : list float64) : bool :=
  match s1, s2 with
  | [], [] => true
  | v1 :: t1, v2 :: t2 => math.eq v1 v2 && Equal t1 t2
  | _, _ => false
  end.

(** Modelled from the spec: [floats.Norm] is imported by local.go and is
    not among the sources; the convergence checker calls it with
    [L = math.Inf(1)], the "infinity-norm" of the gradient: the largest
    absolute value, 0 for the empty slice. Other values of [L] are not
    used by the driver and are not modelled (they yield NaN here). *)
Definition Norm (s : list float64) (L : float64) : float64 :=
  if math.IsInf L 1
  then fold_left (fun norm val => math.Max norm (math.Abs val)) s math.zero
  else math.NaN.

End floats.

(** ** Package mat64 (imported, not part of local.go) *)

Module mat64.

(** Modelled from the spec: the Hessian is an "optional symmetric matrix,
    dimension = |X|", invalidated by writing NaN into "the first cell".
    [mat64.SymDense] is imported by local.go and is not among the sources;
    it is kept here as its rows. *)
Definition SymDense := list (list float64).

(** [mat64.NewSymDense(n, nil)]: the zero matrix of order [n]. *)
Definition NewSymDense (n : nat) : SymDense :=
  repeat (repeat math.zero n) n.

(** [s.Symmetric()]: the order of the matrix. *)
Definition Symmetric (s : SymDense) : nat := length s.

Definition set_nth {A : Type} (l : list A) (i : nat) (v : A) : list A :=
  firstn i l ++ match skipn i l with
                | [] => []
                | _ :: t => v :: t
                end.

Definition set_cell (s : SymDense) (i j : nat) (v : float64) : SymDense :=
  set_nth s i (set_nth (nth i s []) j v).

(** [s.SetSym(i, j, v)]: [None] stands for the index-out-of-range panic. *)
Definition SetSym (s : SymDense) (i j : nat) (v : float64) : option SymDense :=
  if (i <? Symmetric s)%nat && (j <? Symmetric s)%nat
  then Some (set_cell (set_cell s i j v) j i v)
  else None.

(** [dst.CopySym(src)]: copies the leading block common to both. *)
Fixpoint CopySym (dst src : SymDense) : SymDense :=
  match dst, src with
  | d :: ds, s :: ss => Go.copy d s :: CopySym ds ss
  | _, _ => dst
  end.

End mat64.

(** ** The types of package optimize used by local.go *)

(** Modelled from the spec: the declaration of [EvaluationType] is not among
    the sources; these are the constants local.go names (spec section 3).
    The type is an integer type in Go, so a value outside the named
    constants is possible: [UnknownEvaluation]. *)
Inductive EvaluationType : Type :=
| NoEvaluation
| FuncEvaluation
| GradEvaluation
| HessEvaluation
| FuncGradEvaluation
| FuncGradHessEvaluation
| UnknownEvaluation (code : Z).

(** Modelled from the spec: the declaration of [IterationType] is not among
    the sources (spec section 3). *)
Inductive IterationType : Type :=
| InitIteration
| MajorIteration
| MinorIteration
| PostIteration.

Definition IterationType_eqb (a b : IterationType) : bool :=
  match a, b with
  | InitIteration, InitIteration
  | MajorIteration, MajorIteration
  | MinorIteration, MinorIteration
  | PostIteration, PostIteration => true
  | _, _ => false
  end.

(** Modelled from the spec: the declaration of [Status] is not among the
    sources (spec section 3); the two threshold constants are spelled as
    local.go spells them. *)
Inductive Status : Type :=
| NotTerminated
| GradientThreshhold
| FunctionThreshhold
| FunctionNegativeInfinity
| FunctionEvaluationLimit
| GradientEvaluationLimit
| HessianEvaluationLimit
| RuntimeLimit
| IterationLimit
| Failure.

Definition Status_eqb (a b : Status) : bool :=
  match a, b with
  | NotTerminated, NotTerminated
  | GradientThreshhold, GradientThreshhold
  | FunctionThreshhold, FunctionThreshhold
  | FunctionNegativeInfinity, FunctionNegativeInfinity
  | FunctionEvaluationLimit, FunctionEvaluationLimit
  | GradientEvaluationLimit, GradientEvaluationLimit
  | HessianEvaluationLimit, HessianEvaluationLimit
  | RuntimeLimit, RuntimeLimit
  | IterationLimit, IterationLimit
  | Failure, Failure => true
  | _, _ => false
  end.

(** Modelled from the spec: the error values are declared outside
    local.go; they are the four sentinels [getStartingLocation] returns
    (spec section 7, "numerical sentinel conditions") and whatever a
    collaborator reports. *)
Inductive error : Type :=
| ErrNaN
| ErrInf
| ErrGradInf
| ErrGradNaN
| ErrOther (msg : string).

(** Modelled from the spec: the declaration of [Location] is not among
    the sources (spec section 3); [Gradient] and [Hessian] are nil when
    the method does not use them. *)
Record Location : Type := mkLocation {
  X : list float64;
  F : float64;
  Gradient : option (list float64);
  Hessian : option mat64.SymDense
}.

Module Stats.

(** Modelled from the spec: the declaration of [Stats] is not among the
    sources (spec section 3); these are the counters local.go updates,
    and the elapsed runtime in nanoseconds. *)
Record t : Type := mk {
  MajorIterations : Go.int;
  FuncEvaluations : Go.int;
  GradEvaluations : Go.int;
  HessEvaluations : Go.int;
  FuncGradEvaluations : Go.int;
  FuncGradHessEvaluations : Go.int;
  Runtime : Z
}.

(** [&Stats{}] *)
Definition empty : t := mk 0%Z 0%Z 0%Z 0%Z 0%Z 0%Z 0%Z.

End Stats.

(** Every call the driver makes to a collaborator, and every convergence
    check, in the order they happen. *)
Inductive Event : Type :=
| EvFunc (x : list float64)
| EvGrad (x : list float64)
| EvHess (x : list float64)
| EvFuncGrad (x : list float64)
| EvFuncGradHess (x : list float64)
| EvFunctionStatus
| EvMethodStatus
| EvMethodInit (loc : Location) (xNext : list float64)
| EvMethodIterate (loc : Location) (xNext : list float64)
| EvRecorderInit
| EvRecord (loc : Location) (evalType : EvaluationType)
    (iterType : IterationType) (stats : Stats.t)
| EvCheckConvergence (loc : Location) (iterType : IterationType)
    (stats : Stats.t)
| EvSince.

Definition History := list Event.

(** Modelled from the spec: the [Recorder] interface is declared outside
    local.go (spec section 6); its methods only read the location and the
    statistics they are handed. *)
Record Recorder : Type := mkRecorder {
  Recorder_Init : History -> option error;
  Recorder_Record :
    History -> Location -> EvaluationType -> IterationType -> Stats.t ->
    option error
}.

Module Settings.

(** Modelled from the spec: the declaration of [Settings] is not among
    the sources (spec section 3); these are the fields local.go reads. *)
Record t : Type := mk {
  UseInitialData : bool;
  InitialFunctionValue : float64;
  InitialGradient : option (list float64);
  GradientAbsTol : float64;
  FunctionAbsTol : float64;
  FuncEvaluations : Go.int;
  GradEvaluations : Go.int;
  HessEvaluations : Go.int;
  MajorIterations : Go.int;
  Runtime : Z;
  Recorder : option Recorder
}.

End Settings.

(** ** checkConvergence *)

(** The two early returns of the block guarded by
    [iterType == MajorIteration || iterType == InitIteration]. *)
Definition thresholdStatus (loc : Location) (settings : Settings.t)
    : option Status :=
  if match Gradient loc with
     | Some g =>
         let norm := floats.Norm g (math.Inf 1) in
         math.lt norm (Settings.GradientAbsTol settings)
     | None => false
     end
  then Some GradientThreshhold
  else if math.lt (F loc) (Settings.FunctionAbsTol settings)
  then Some FunctionThreshhold
  else None.

(** The checks that follow the threshold block, in source order. *)
Definition limitStatus (loc : Location) (iterType : IterationType)
    (stats : Stats.t) (settings : Settings.t) : Status :=
  (* Check every step for negative infinity. *)
  if math.IsInf (F loc) (-1) then FunctionNegativeInfinity
  else if (0 <? Settings.FuncEvaluations settings)%Z
          && (Settings.FuncEvaluations settings <=?
              Go.add (Go.add (Stats.FuncEvaluations stats)
                             (Stats.FuncGradEvaluations stats))
                     (Stats.FuncGradHessEvaluations stats))%Z
  then FunctionEvaluationLimit
  else if (0 <? Settings.GradEvaluations settings)%Z
          && (Settings.GradEvaluations settings <=?
              Go.add (Go.add (Stats.GradEvaluations stats)
                             (Stats.FuncGradEvaluations stats))
                     (Stats.FuncGradHessEvaluations stats))%Z
  then GradientEvaluationLimit
  else if (0 <? Settings.HessEvaluations settings)%Z
          && (Settings.HessEvaluations settings <=?
              Go.add (Stats.HessEvaluations stats)
                     (Stats.FuncGradHessEvaluations stats))%Z
  then HessianEvaluationLimit
  else if (0 <? Settings.Runtime settings)%Z
          && (Settings.Runtime settings <=? Stats.Runtime stats)%Z
  then RuntimeLimit
  else if IterationType_eqb iterType MajorIteration
          && (0 <? Settings.MajorIterations settings)%Z
          && (Settings.MajorIterations settings <=?
              Stats.MajorIterations stats)%Z
  then IterationLimit
  else NotTerminated.

Definition checkConvergence (loc : Location) (iterType : IterationType)
    (stats : Stats.t) (settings : Settings.t) : Status :=
  match
    if IterationType_eqb iterType MajorIteration
       || IterationType_eqb iterType InitIteration
    then thresholdStatus loc settings
    else None
  with
  | Some status => status
  | None => limitStatus loc iterType stats settings
  end.

(** ** Panics, and a state monad that can panic *)

(** The values the driver panics with. *)
Inductive PanicValue : Type :=
| PanicString (msg : string)
| PanicUnknownEvaluation (evalType : EvaluationType)
| PanicUnsupported (evalType : EvaluationType)
| PanicIndexOutOfRange.

(** A computation either returns a value or panics; both leave a state
    behind, so that what was mutated before a panic stays visible. *)
Inductive Res (S A : Type) : Type :=
| Val (a : A) (s : S)
| Panic (p : PanicValue) (s : S).

Arguments Val {S A} a s.
Arguments Panic {S A} p s.

Definition M (S A : Type) : Type := S -> Res S A.

Definition ret {S A : Type} (a : A) : M S A := fun s => Val a s.

Definition bind {S A B : Type} (m : M S A) (k : A -> M S B) : M S B :=
  fun s =>
    match m s with
    | Val a s' => k a s'
    | Panic p s' => Panic p s'
    end.

Definition panic {S A : Type} (p : PanicValue) : M S A := fun s => Panic p s.

Definition modify {S : Type} (f : S -> S) : M S unit := fun s => Val tt (f s).

Declare Scope monad_scope.
Delimit Scope monad_scope with monad.
Notation "x <- c1 ;; c2" := (bind c1 (fun x => c2))
  (at level 61, c1 at next level, right associativity) : monad_scope.
Notation "' pat <- c1 ;; c2" := (bind c1 (fun x => match x with pat => c2 end))
  (at level 61, pat pattern, c1 at next level, right associativity)
  : monad_scope.
Notation "c1 ;; c2" := (bind c1 (fun _ => c2))
  (at level 61, right associativity) : monad_scope.
Local Open Scope monad_scope.

Definition when {S : Type} (b : bool) (m : M S unit) : M S unit :=
  if b then m else ret tt.

(** ** The objective *)

(** Modelled from the spec: the declaration of [FunctionInfo] is not
    among the sources; it is the capability set of spec section 3, with
    the flags local.go reads. *)
Record FunctionInfo : Type := mkFunctionInfo {
  IsGradient : bool;
  IsHessian : bool;
  IsFunctionGradient : bool;
  IsFunctionGradientHessian : bool;
  IsStatuser : bool
}.

(** Modelled from the spec: the declaration of [functionInfo] is not
    among the sources; it holds the capability flags together with the
    objective seen through each interface (spec section 6). A method that
    fills a slice or a matrix it was handed returns the new content of
    that storage. A field is only called under the flag that guards it in
    the source. *)
Record functionInfo : Type := mkfunctionInfo {
  info :> FunctionInfo;
  function_Func : History -> list float64 -> float64;
  gradient_Grad :
    History -> list float64 -> option (list float64) -> option (list float64);
  hessian_Hess :
    History -> list float64 -> option mat64.SymDense -> option mat64.SymDense;
  functionGradient_FuncGrad :
    History -> list float64 -> option (list float64) ->
    float64 * option (list float64);
  functionGradientHessian_FuncGradHess :
    History -> list float64 -> option (list float64) ->
    option mat64.SymDense ->
    float64 * option (list float64) * option mat64.SymDense;
  statuser_Status : History -> Status * option error
}.

(** ** The state [evaluate] works on: [*loc], [*stats] and the history *)

Record Frame : Type := mkFrame {
  fr_loc : Location;
  fr_stats : Stats.t;
  fr_hist : History
}.

Definition Eval (A : Type) : Type := M Frame A.

Definition get_loc : Eval Location := fun fr => Val (fr_loc fr) fr.

Definition set_loc (f : Location -> Location) : Eval unit :=
  modify (fun fr => mkFrame (f (fr_loc fr)) (fr_stats fr) (fr_hist fr)).

Definition set_stats (f : Stats.t -> Stats.t) : Eval unit :=
  modify (fun fr => mkFrame (fr_loc fr) (f (fr_stats fr)) (fr_hist fr)).

Definition with_X (x : list float64) (l : Location) : Location :=
  mkLocation x (F l) (Gradient l) (Hessian l).

Definition with_F (f : float64) (l : Location) : Location :=
  mkLocation (X l) f (Gradient l) (Hessian l).

Definition with_Gradient (g : option (list float64)) (l : Location)
    : Location :=
  mkLocation (X l) (F l) g (Hessian l).

Definition with_Hessian (h : option mat64.SymDense) (l : Location)
    : Location :=
  mkLocation (X l) (F l) (Gradient l) h.

(** [stats.MajorIterations++] and its siblings. *)
Definition incr_MajorIterations (s : Stats.t) : Stats.t :=
  Stats.mk (Go.incr (Stats.MajorIterations s)) (Stats.FuncEvaluations s)
    (Stats.GradEvaluations s) (Stats.HessEvaluations s)
    (Stats.FuncGradEvaluations s) (Stats.FuncGradHessEvaluations s)
    (Stats.Runtime s).

Definition incr_FuncEvaluations (s : Stats.t) : Stats.t :=
  Stats.mk (Stats.MajorIterations s) (Go.incr (Stats.FuncEvaluations s))
    (Stats.GradEvaluations s) (Stats.HessEvaluations s)
    (Stats.FuncGradEvaluations s) (Stats.FuncGradHessEvaluations s)
    (Stats.Runtime s).

Definition incr_GradEvaluations (s : Stats.t) : Stats.t :=
  Stats.mk (Stats.MajorIterations s) (Stats.FuncEvaluations s)
    (Go.incr (Stats.GradEvaluations s)) (Stats.HessEvaluations s)
    (Stats.FuncGradEvaluations s) (Stats.FuncGradHessEvaluations s)
    (Stats.Runtime s).

Definition incr_HessEvaluations (s : Stats.t) : Stats.t :=
  Stats.mk (Stats.MajorIterations s) (Stats.FuncEvaluations s)
    (Stats.GradEvaluations s) (Go.incr (Stats.HessEvaluations s))
    (Stats.FuncGradEvaluations s) (Stats.FuncGradHessEvaluations s)
    (Stats.Runtime s).

Definition incr_FuncGradEvaluations (s : Stats.t) : Stats.t :=
  Stats.mk (Stats.MajorIterations s) (Stats.FuncEvaluations s)
    (Stats.GradEvaluations s) (Stats.HessEvaluations s)
    (Go.incr (Stats.FuncGradEvaluations s)) (Stats.FuncGradHessEvaluations s)
    (Stats.Runtime s).

Definition incr_FuncGradHessEvaluations (s : Stats.t) : Stats.t :=
  Stats.mk (Stats.MajorIterations s) (Stats.FuncEvaluations s)
    (Stats.GradEvaluations s) (Stats.HessEvaluations s)
    (Stats.FuncGradEvaluations s) (Go.incr (Stats.FuncGradHessEvaluations s))
    (Stats.Runtime s).

Definition with_Runtime (r : Z) (s : Stats.t) : Stats.t :=
  Stats.mk (Stats.MajorIterations s) (Stats.FuncEvaluations s)
    (Stats.GradEvaluations s) (Stats.HessEvaluations s)
    (Stats.FuncGradEvaluations s) (Stats.FuncGradHessEvaluations s) r.

(** [loc.F = funcInfo.function.Func(loc.X)] *)
Definition call_Func (funcInfo : functionInfo) : Eval unit :=
  fun fr =>
    let loc := fr_loc fr in
    let f := function_Func funcInfo (fr_hist fr) (X loc) in
    Val tt (mkFrame (with_F f loc) (fr_stats fr)
              (fr_hist fr ++ [EvFunc (X loc)])).

(** [funcInfo.gradient.Grad(loc.X, loc.Gradient)] *)
Definition call_Grad (funcInfo : functionInfo) : Eval unit :=
  fun fr =>
    let loc := fr_loc fr in
    let g := gradient_Grad funcInfo (fr_hist fr) (X loc) (Gradient loc) in
    Val tt (mkFrame (with_Gradient g loc) (fr_stats fr)
              (fr_hist fr ++ [EvGrad (X loc)])).

(** [funcInfo.hessian.Hess(loc.X, loc.Hessian)] *)
Definition call_Hess (funcInfo : functionInfo) : Eval unit :=
  fun fr =>
    let loc := fr_loc fr in
    let h := hessian_Hess funcInfo (fr_hist fr) (X loc) (Hessian loc) in
    Val tt (mkFrame (with_Hessian h loc) (fr_stats fr)
              (fr_hist fr ++ [EvHess (X loc)])).

(** [loc.F = funcInfo.functionGradient.FuncGrad(loc.X, loc.Gradient)] *)
Definition call_FuncGrad (funcInfo : functionInfo) : Eval unit :=
  fun fr =>
    let loc := fr_loc fr in
    let '(f, g) :=
      functionGradient_FuncGrad funcInfo (fr_hist fr) (X loc) (Gradient loc) in
    Val tt (mkFrame (with_F f (with_Gradient g loc)) (fr_stats fr)
              (fr_hist fr ++ [EvFuncGrad (X loc)])).

(** [loc.F = funcInfo.functionGradientHessian.FuncGradHess(loc.X,
    loc.Gradient, loc.Hessian)] *)
Definition call_FuncGradHess (funcInfo : functionInfo) : Eval unit :=
  fun fr =>
    let loc := fr_loc fr in
    let '(f, g, h) :=
      functionGradientHessian_FuncGradHess funcInfo (fr_hist fr) (X loc)
        (Gradient loc) (Hessian loc) in
    Val tt (mkFrame (with_F f (with_Gradient g (with_Hessian h loc)))
              (fr_stats fr) (fr_hist fr ++ [EvFuncGradHess (X loc)])).

(** ** invalidate *)

Definition invalidate (f grad hess : bool) : Eval unit :=
  when f (set_loc (with_F math.NaN)) ;;
  loc <- get_loc ;;
  (if grad
   then match Gradient loc with
        | Some (_ :: t) => set_loc (with_Gradient (Some (math.NaN :: t)))
        | Some [] => panic PanicIndexOutOfRange
        | None => ret tt
        end
   else ret tt) ;;
  (if hess
   then match Hessian loc with
        | Some h =>
            match mat64.SetSym h 0 0 math.NaN with
            | Some h' => set_loc (with_Hessian (Some h'))
            | None => panic PanicIndexOutOfRange
            end
        | None => ret tt
        end
   else ret tt).

(** ** evaluate *)

(** The final [panic(fmt.Sprintf("optimize: objective function does not
    support %v", evalType))]. *)
Definition unsupported (evalType : EvaluationType) : Eval unit :=
  panic (PanicUnsupported evalType).

Definition evaluate (funcInfo : functionInfo) (evalType : EvaluationType)
    (xNext : list float64) : Eval unit :=
  loc <- get_loc ;;
  let different := negb (floats.Equal (X loc) xNext) in
  when different (set_loc (with_X (Go.copy (X loc) xNext))) ;;
  match evalType with
  | FuncEvaluation =>
      when different (invalidate false true true) ;;
      call_Func funcInfo ;;
      set_stats incr_FuncEvaluations
  | GradEvaluation =>
      if IsGradient funcInfo then
        when different (invalidate true false true) ;;
        call_Grad funcInfo ;;
        set_stats incr_GradEvaluations
      else if IsFunctionGradient funcInfo then
        when different (invalidate false false true) ;;
        call_FuncGrad funcInfo ;;
        set_stats incr_FuncGradEvaluations
      else if IsFunctionGradientHessian funcInfo then
        loc <- get_loc ;;
        when (match Hessian loc with None => true | Some _ => false end)
          (set_loc (with_Hessian
                      (Some (mat64.NewSymDense (length (X loc)))))) ;;
        call_FuncGradHess funcInfo ;;
        set_stats incr_FuncGradHessEvaluations
      else unsupported evalType
  | HessEvaluation =>
      if IsHessian funcInfo then
        when different (invalidate true true false) ;;
        call_Hess funcInfo ;;
        set_stats incr_HessEvaluations
      else if IsFunctionGradientHessian funcInfo then
        loc <- get_loc ;;
        when (match Gradient loc with None => true | Some _ => false end)
          (set_loc (with_Gradient
                      (Some (repeat math.zero (length (X loc)))))) ;;
        call_FuncGradHess funcInfo ;;
        set_stats incr_FuncGradHessEvaluations
      else unsupported evalType
  | FuncGradEvaluation =>
      if IsFunctionGradient funcInfo then
        when different (invalidate false false true) ;;
        call_FuncGrad funcInfo ;;
        set_stats incr_FuncGradEvaluations
      else if IsGradient funcInfo then
        when different (invalidate false false true) ;;
        call_Func funcInfo ;;
        set_stats incr_FuncEvaluations ;;
        call_Grad funcInfo ;;
        set_stats incr_GradEvaluations
      else if IsFunctionGradientHessian funcInfo then
        loc <- get_loc ;;
        when (match Hessian loc with None => true | Some _ => false end)
          (set_loc (with_Hessian
                      (Some (mat64.NewSymDense (length (X loc)))))) ;;
        call_FuncGradHess funcInfo ;;
        set_stats incr_FuncGradHessEvaluations
      else unsupported evalType
  | FuncGradHessEvaluation =>
      if IsFunctionGradientHessian funcInfo then
        call_FuncGradHess funcInfo ;;
        set_stats incr_FuncGradHessEvaluations
      else if IsGradient funcInfo && IsHessian funcInfo then
        call_Func funcInfo ;;
        set_stats incr_FuncEvaluations ;;
        call_Grad funcInfo ;;
        set_stats incr_GradEvaluations ;;
        call_Hess funcInfo ;;
        set_stats incr_HessEvaluations
      else unsupported evalType
  | NoEvaluation =>
      if different then
        (* Optimizers should not request NoEvaluation at a new location. *)
        panic (PanicString "optimize: no evaluation requested at new location")
      else ret tt
  | UnknownEvaluation _ =>
      panic (PanicUnknownEvaluation evalType)
  end.

(** ** copyLocation *)

(** Modelled from the spec: [resize] is not among the sources; the spec
    has the best-known location "copied" from the working one, so [resize]
    gives the destination the length of the source: a slice of length
    [dim], newly made when [x] is too short and otherwise cut from [x].
    Slices carry no spare capacity here, as is the case for every slice
    the driver builds. *)
Definition resize (x : list float64) (dim : nat) : list float64 :=
  if (length x <? dim)%nat then repeat math.zero dim else firstn dim x.

(** [resize] on a slice that may be nil: cutting nil gives nil. *)
Definition resize_nilable (x : option (list float64)) (dim : nat)
    : option (list float64) :=
  if (Go.len x <? dim)%nat then Some (repeat math.zero dim)
  else option_map (firstn dim) x.

Definition copy_nilable (dst src : option (list float64))
    : option (list float64) :=
  match dst with
  | Some d => Some (Go.copy d match src with Some s => s | None => [] end)
  | None => None
  end.

(** [copyLocation(dst, src)]: the new content of [*dst]. *)
Definition copyLocation (dst src : Location) : Location :=
  let dstX := Go.copy (resize (X dst) (length (X src))) (X src) in
  let dstF := F src in
  let dstGradient :=
    copy_nilable (resize_nilable (Gradient dst) (Go.len (Gradient src)))
      (Gradient src) in
  let dstHessian :=
    match Hessian src with
    | Some srcH =>
        let dstH :=
          match Hessian dst with
          | Some h =>
              if negb (mat64.Symmetric h =? length (X src))%nat
              then mat64.NewSymDense (length (X src))
              else h
          | None => mat64.NewSymDense (length (X src))
          end in
        Some (mat64.CopySym dstH srcH)
    | None => Hessian dst
    end in
  mkLocation dstX dstF dstGradient dstHessian.

(** ** The method, the result and the rest of the package *)

(** Modelled from the spec: the [Method] interface is declared outside
    local.go (spec section 6), with [Needs()] as its two answers and the
    optional [Statuser] interface. [Init] and [Iterate] read the location
    and write the next point into the slice they are handed, whose new
    content they return here. *)
Record Method : Type := mkMethod {
  Method_Init :
    History -> Location -> FunctionInfo -> list float64 ->
    EvaluationType * IterationType * option error * list float64;
  Method_Iterate :
    History -> Location -> list float64 ->
    EvaluationType * IterationType * option error * list float64;
  Needs_Gradient : bool;
  Needs_Hessian : bool;
  Method_Status : option (History -> Status * option error)
}.

Module Result.

(** Modelled from the spec: the declaration of [Result] is not among the
    sources (spec section 3). *)
Record t : Type := mk {
  Location : Location;
  Stats : Stats.t;
  Status : Status
}.

End Result.

(** What local.go uses of its package and of package time without
    declaring it, taken as parameters: the capability detector, the check
    of a method against the capabilities, the default settings, the BFGS
    method and the clock ([time.Since(startTime)], in nanoseconds).
    [Function] is the type of objectives. *)
Record Package (Function : Type) : Type := mkPackage {
  newFunctionInfo : Function -> functionInfo;
  satisfies : functionInfo -> Method -> option error;
  DefaultSettings : Settings.t;
  BFGS : Method;
  time_Since : History -> Z
}.

(** ** The driver's monad: the history of calls *)

Definition Driver (A : Type) : Type := M History A.

(** A call to a collaborator: it answers from the history so far, and the
    call is recorded. *)
Definition call {A : Type} (e : Event) (f : History -> A) : Driver A :=
  fun h => Val (f h) (h ++ [e]).

(** [evaluate(funcInfo, evalType, xNext, loc, stats)] as the driver calls
    it: the new contents of [*loc] and [*stats]. *)
Definition run_evaluate (funcInfo : functionInfo) (evalType : EvaluationType)
    (xNext : list float64) (loc : Location) (stats : Stats.t)
    : Driver (Location * Stats.t) :=
  fun h =>
    match evaluate funcInfo evalType xNext (mkFrame loc stats h) with
    | Val _ fr => Val (fr_loc fr, fr_stats fr) (fr_hist fr)
    | Panic p fr => Panic p (fr_hist fr)
    end.

(** [checkConvergence] as the driver calls it: the call is recorded. *)
Definition run_checkConvergence (loc : Location) (iterType : IterationType)
    (stats : Stats.t) (settings : Settings.t) : Driver Status :=
  call (EvCheckConvergence loc iterType stats)
    (fun _ => checkConvergence loc iterType stats settings).

(** [settings.Recorder.Record(loc, evalType, iterType, stats)] *)
Definition run_Record (r : Recorder) (loc : Location)
    (evalType : EvaluationType) (iterType : IterationType) (stats : Stats.t)
    : Driver (option error) :=
  call (EvRecord loc evalType iterType stats)
    (fun h => Recorder_Record r h loc evalType iterType stats).

(** ** update *)

(** [update(loc, optLoc, stats, iterType, startTime)]: the new contents of
    [*optLoc] and [*stats]. *)
Definition update {Function : Type} (pkg : Package Function)
    (loc optLoc : Location) (stats : Stats.t) (iterType : IterationType)
    : Driver (Location * Stats.t) :=
  let stats :=
    if IterationType_eqb iterType MajorIteration
    then incr_MajorIterations stats
    else stats in
  let optLoc :=
    if math.le (F loc) (F optLoc) then copyLocation optLoc loc else optLoc in
  runtime <- call EvSince (time_Since pkg) ;;
  ret (optLoc, with_Runtime runtime stats).

(** ** getDefaultMethod *)

Definition getDefaultMethod {Function : Type} (pkg : Package Function)
    (funcInfo : functionInfo) : Driver Method :=
  if IsGradient funcInfo || IsFunctionGradient funcInfo
  then ret (BFGS pkg)
  else panic (PanicString "optimize: gradient-free methods not yet coded").

(** ** getStartingLocation *)

(** The loop over [loc.Gradient] at the end of [getStartingLocation]. *)
Fixpoint gradientError (g : list float64) : option error :=
  match g with
  | [] => None
  | v :: rest =>
      if math.IsInf v 0 then Some ErrGradInf
      else if math.IsNaN v then Some ErrGradNaN
      else gradientError rest
  end.

(** The checks that close [getStartingLocation]. *)
Definition startingError (loc : Location) : option error :=
  if math.IsNaN (F loc) then Some ErrNaN
  else if math.IsInf (F loc) 1 then Some ErrInf
  else gradientError match Gradient loc with Some g => g | None => [] end.

Definition getStartingLocation (funcInfo : functionInfo) (method : Method)
    (initX : list float64) (stats : Stats.t) (settings : Settings.t)
    : Driver (Location * EvaluationType * option error * Stats.t) :=
  let dim := length initX in
  let loc :=
    mkLocation (Go.copy (repeat math.zero dim) initX) math.zero None None in
  let loc :=
    if Needs_Gradient method
    then with_Gradient (Some (repeat math.zero dim)) loc
    else loc in
  let loc :=
    if Needs_Hessian method
    then with_Hessian (Some (mat64.NewSymDense dim)) loc
    else loc in
  ' (loc, evalType, stats) <-
    (if Settings.UseInitialData settings then
       let loc := with_F (Settings.InitialFunctionValue settings) loc in
       match Gradient loc with
       | Some g =>
           let initG := Settings.InitialGradient settings in
           if negb (Go.len initG =? dim)%nat
           then panic (PanicString "optimize: initial location size mismatch")
           else ret (with_Gradient (copy_nilable (Some g) initG) loc,
                     NoEvaluation, stats)
       | None => ret (loc, NoEvaluation, stats)
       end
     else
       let evalType :=
         match Gradient loc with
         | Some _ => FuncGradEvaluation
         | None => FuncEvaluation
         end in
       ' (loc, stats) <- run_evaluate funcInfo evalType (X loc) loc stats ;;
       ret (loc, evalType, stats)) ;;
  ret (loc, evalType, startingError loc, stats).

(** ** minimize *)

(** The variables of [minimize] that live across iterations. *)
Record LoopState : Type := mkLoopState {
  ls_loc : Location;
  ls_optLoc : Location;
  ls_stats : Stats.t;
  ls_xNext : list float64;
  ls_evalType : EvaluationType;
  ls_iterType : IterationType
}.

(** One pass through the body of the [for] loop either returns from
    [minimize] or goes round again. *)
Inductive Step : Type :=
| Return (status : Status) (err : option error) (st : LoopState)
| Continue (st : LoopState).

Definition isSome {A : Type} (o : option A) : bool :=
  match o with
  | Some _ => true
  | None => false
  end.

Definition minimize_body {Function : Type} (pkg : Package Function)
    (settings : Settings.t) (method : Method) (funcInfo : functionInfo)
    (st : LoopState) : Driver Step :=
  ' (status, err) <-
    (if IsStatuser funcInfo
     then call EvFunctionStatus (statuser_Status funcInfo)
     else ret (NotTerminated, None)) ;;
  if isSome err || negb (Status_eqb status NotTerminated)
  then ret (Return status err st)
  else
  ' (loc, stats) <-
    run_evaluate funcInfo (ls_evalType st) (ls_xNext st) (ls_loc st)
      (ls_stats st) ;;
  ' (optLoc, stats) <- update pkg loc (ls_optLoc st) stats (ls_iterType st) ;;
  status <- run_checkConvergence optLoc (ls_iterType st) stats settings ;;
  let st :=
    mkLoopState loc optLoc stats (ls_xNext st) (ls_evalType st)
      (ls_iterType st) in
  err <-
    match Settings.Recorder settings with
    | Some r => run_Record r loc (ls_evalType st) (ls_iterType st) stats
    | None => ret None
    end ;;
  match err with
  | Some _ =>
      ret (Return (if Status_eqb status NotTerminated then Failure else status)
             err st)
  | None =>
  if negb (Status_eqb status NotTerminated)
  then ret (Return status None st)
  else
  ' (status, err) <-
    match Method_Status method with
    | Some methodStatus => call EvMethodStatus methodStatus
    | None => ret (NotTerminated, None)
    end ;;
  if isSome err || negb (Status_eqb status NotTerminated)
  then ret (Return status err st)
  else
  ' (evalType, iterType, err, xNext) <-
    call (EvMethodIterate loc (ls_xNext st))
      (fun h => Method_Iterate method h loc (ls_xNext st)) ;;
  let st := mkLoopState loc optLoc stats xNext evalType iterType in
  match err with
  | Some _ => ret (Return Failure err st)
  | None => ret (Continue st)
  end
  end.

(** The [for] loop, bounded by [fuel] passes; [None] when they do not
    suffice. *)
Fixpoint minimize_loop {Function : Type} (fuel : nat) (pkg : Package Function)
    (settings : Settings.t) (method : Method) (funcInfo : functionInfo)
    (st : LoopState) : Driver (option (Status * option error * LoopState)) :=
  match fuel with
  | O => ret None
  | S fuel' =>
      step <- minimize_body pkg settings method funcInfo st ;;
      match step with
      | Return status err st' => ret (Some (status, err, st'))
      | Continue st' => minimize_loop fuel' pkg settings method funcInfo st'
      end
  end.

(** [&Location{}] *)
Definition emptyLocation : Location := mkLocation [] math.zero None None.

(** [minimize]: the status and error it returns, and the contents of
    [*optLoc] and [*stats] it leaves. *)
Definition minimize {Function : Type} (fuel : nat) (pkg : Package Function)
    (settings : Settings.t) (method : Method) (funcInfo : functionInfo)
    (stats : Stats.t) (optLoc : Location)
    : Driver (option (Status * option error * Location * Stats.t)) :=
  let loc := copyLocation emptyLocation optLoc in
  let xNext := repeat math.zero (length (X loc)) in
  ' (evalType, iterType, err, xNext) <-
    call (EvMethodInit loc xNext)
      (fun h => Method_Init method h loc funcInfo xNext) ;;
  match err with
  | Some _ => ret (Some (Failure, err, optLoc, stats))
  | None =>
      r <- minimize_loop fuel pkg settings method funcInfo
             (mkLoopState loc optLoc stats xNext evalType iterType) ;;
      match r with
      | Some (status, err, st) =>
          ret (Some (status, err, ls_optLoc st, ls_stats st))
      | None => ret None
      end
  end.

(** ** Local *)

(** The setup of [Local], up to the initialization of the recorder: either
    the error [Local] returns at once (with a nil result), or the
    capabilities, the method and the settings the run goes on with. *)
Definition Local_setup {Function : Type} (pkg : Package Function)
    (f : Function) (initX : list float64) (settings : option Settings.t)
    (method : option Method)
    : Driver (error + functionInfo * Method * Settings.t) :=
  if (length initX =? 0)%nat
  then panic (PanicString "optimize: initial X has zero length")
  else
  (* startTime := time.Now() *)
  let funcInfo := newFunctionInfo pkg f in
  method <-
    match method with
    | Some m => ret m
    | None => getDefaultMethod pkg funcInfo
    end ;;
  match satisfies pkg funcInfo method with
  | Some err => ret (inl err)
  | None =>
  err <-
    (if IsStatuser funcInfo
     then ' (_, err) <- call EvFunctionStatus (statuser_Status funcInfo) ;;
          ret err
     else ret None) ;;
  match err with
  | Some err => ret (inl err)
  | None =>
  let settings :=
    match settings with
    | Some s => s
    | None => DefaultSettings pkg
    end in
  err <-
    match Settings.Recorder settings with
    | Some r =>
        (* Initialize Recorder first. If it fails, we avoid the (possibly
           time-consuming) evaluation of F and DF at the starting
           location. *)
        call EvRecorderInit (Recorder_Init r)
    | None => ret None
    end ;;
  match err with
  | Some err => ret (inl err)
  | None => ret (inr (funcInfo, method, settings))
  end
  end
  end.

(** [Local]: the result and the error it returns; [None] when [fuel]
    passes of the loop of [minimize] do not suffice. *)
Definition Local {Function : Type} (fuel : nat) (pkg : Package Function)
    (f : Function) (initX : list float64) (settings : option Settings.t)
    (method : option Method)
    : Driver (option (option Result.t * option error)) :=
  ready <- Local_setup pkg f initX settings method ;;
  match ready with
  | inl err => ret (Some (None, Some err))
  | inr (funcInfo, method, settings) =>
  let stats := Stats.empty in
  ' (optLoc, evalType, err, stats) <-
    getStartingLocation funcInfo method initX stats settings ;;
  match err with
  | Some _ => ret (Some (None, err))
  | None =>
  (* Runtime is the only Stats field that needs to be updated here. *)
  runtime <- call EvSince (time_Since pkg) ;;
  let stats := with_Runtime runtime stats in
  (* Send optLoc to Recorder before checking it for convergence. *)
  err <-
    match Settings.Recorder settings with
    | Some r => run_Record r optLoc evalType InitIteration stats
    | None => ret None
    end ;;
  (* Check if the starting location satisfies the convergence criteria. *)
  status <- run_checkConvergence optLoc InitIteration stats settings ;;
  r <-
    (if Status_eqb status NotTerminated && negb (isSome err)
     then minimize fuel pkg settings method funcInfo stats optLoc
     else ret (Some (status, err, optLoc, stats))) ;;
  match r with
  | None => ret None
  | Some (status, err, optLoc, stats) =>
  err <-
    match Settings.Recorder settings, err with
    | Some r, None =>
        (* Send the optimal location to Recorder. *)
        run_Record r optLoc NoEvaluation PostIteration stats
    | _, _ => ret err
    end ;;
  runtime <- call EvSince (time_Since pkg) ;;
  let stats := with_Runtime runtime stats in
  ret (Some (Some (Result.mk optLoc stats status), err))
  end
  end
  end.

(** ** Predicates used to state the properties of [checkConvergence] *)

(** The iteration kinds on which the threshold rules apply. *)
Definition gated (it : IterationType) : Prop :=
  it = InitIteration \/ it = MajorIteration.

(** A gradient is tracked and its infinity-norm is strictly below the
    gradient tolerance. *)
Definition gradientBelowTol (l : Location) (s : Settings.t) : Prop :=
  exists g,
    Gradient l = Some g /\
    math.lt (floats.Norm g (math.Inf 1)) (Settings.GradientAbsTol s) = true.


(** ** The passes of the loop of [minimize] *)

(** The state a pass leaves. *)
Definition step_state (s : Step) : LoopState :=
  match s with
  | Return _ _ st => st
  | Continue st => st
  end.

(** [passes pkg settings method funcInfo st h sts]: started in state [st]
    with history [h], the loop of [minimize] goes through the states
    [sts], one per pass, so far; a pass that returns is the last one. *)
Inductive passes {Function : Type} (pkg : Package Function)
    (settings : Settings.t) (method : Method) (funcInfo : functionInfo)
    : LoopState -> History -> list LoopState -> Prop :=
| passes_none : forall st h,
    passes pkg settings method funcInfo st h []
| passes_return : forall st h status err st' h',
    minimize_body pkg settings method funcInfo st h
    = Val (Return status err st') h' ->
    passes pkg settings method funcInfo st h [st']
| passes_continue : forall st h st' h' sts,
    minimize_body pkg settings method funcInfo st h
    = Val (Continue st') h' ->
    passes pkg settings method funcInfo st' h' sts ->
    passes pkg settings method funcInfo st h (st' :: sts).

(** [reaches pkg settings method funcInfo n st h st' h']: started in state
    [st] with history [h], the loop of [minimize] goes round [n] times
    without returning and is then in state [st'] with history [h']. *)
Inductive reaches {Function : Type} (pkg : Package Function)
    (settings : Settings.t) (method : Method) (funcInfo : functionInfo)
    : nat -> LoopState -> History -> LoopState -> History -> Prop :=
| reaches_here : forall st h,
    reaches pkg settings method funcInfo 0 st h st h
| reaches_round : forall n st h st1 h1 st' h',
    minimize_body pkg settings method funcInfo st h
    = Val (Continue st1) h1 ->
    reaches pkg settings method funcInfo n st1 h1 st' h' ->
    reaches pkg settings method funcInfo (S n) st h st' h'.

(** The best-known [F] is a number, and is [<=] the working [F] when that
    is a number too. *)
Definition bestBelowWorking (st : LoopState) : Prop :=
  math.IsNaN (F (ls_optLoc st)) = false /\
  (math.IsNaN (F (ls_loc st)) = false ->
   math.le (F (ls_optLoc st)) (F (ls_loc st)) = true).

(** ** The order of float64 values that are not NaN *)

(** A key that orders the values as [SFcompare] does: by class, then by
    exponent and mantissa (reversed for negative numbers). *)
Definition key (x : float64) : Z * Z * Z :=
  match x with
  | S754_nan => (0, 0, 0)
  | S754_zero _ => (0, 0, 0)
  | S754_infinity true => (-2, 0, 0)
  | S754_infinity false => (2, 0, 0)
  | S754_finite true m e => (-1, - e, - Zpos m)
  | S754_finite false m e => (1, e, Zpos m)
  end%Z.

Definition lex_le (a b : Z * Z * Z) : Prop :=
  let '(a1, a2, a3) := a in
  let '(b1, b2, b3) := b in
  (a1 < b1 \/ (a1 = b1 /\ (a2 < b2 \/ (a2 = b2 /\ a3 <= b3))))%Z.

(** ** Predicates and readings used to state the properties of [evaluate] *)

(** The point [evaluate] evaluates at: [loc.X] after the candidate point
    was copied in. *)
Definition evaluationPoint (loc : Location) (xNext : list float64)
    : list float64 :=
  if floats.Equal (X loc) xNext then X loc else Go.copy (X loc) xNext.

(** A Hessian, when tracked, has a first cell: [invalidate] can mark it. *)
Definition hessianMarkable (loc : Location) : Prop :=
  match Hessian loc with
  | Some h => (0 < mat64.Symmetric h)%nat
  | None => True
  end.

(** The kinds of objective calls. *)
Inductive CallKind : Type :=
| BareFunction
| BareGradient
| BareHessian
| CombinedFuncGrad
| CombinedFuncGradHess.

(** The objective calls of a history, in order. *)
Fixpoint objectiveCalls (h : History) : list CallKind :=
  match h with
  | [] => []
  | EvFunc _ :: t => BareFunction :: objectiveCalls t
  | EvGrad _ :: t => BareGradient :: objectiveCalls t
  | EvHess _ :: t => BareHessian :: objectiveCalls t
  | EvFuncGrad _ :: t => CombinedFuncGrad :: objectiveCalls t
  | EvFuncGradHess _ :: t => CombinedFuncGradHess :: objectiveCalls t
  | _ :: t => objectiveCalls t
  end.

(** The dispatch of a [FuncGradEvaluation] request in the words of the
    specification (section 4.2): "combined function+gradient if present;
    else combined triple form; else decompose into bare-function plus
    bare-gradient calls". *)
Definition specFuncGradDispatch (caps : FunctionInfo) : list CallKind :=
  if IsFunctionGradient caps then [CombinedFuncGrad]
  else if IsFunctionGradientHessian caps then [CombinedFuncGradHess]
  else [BareFunction; BareGradient].

(** ** Predicates used to state the properties of the driver *)

(** A component of the starting gradient that is NaN or infinite. *)
Definition badComponent (v : float64) : bool :=
  math.IsInf v 0 || math.IsNaN v.

(** The starting point's function value is NaN or +Inf, or its gradient
    has a NaN or infinite component. *)
Definition startingFault (loc : Location) : bool :=
  math.IsNaN (F loc) || math.IsInf (F loc) 1
  || existsb badComponent match Gradient loc with Some g => g | None => [] end.

(** The sentinel error that corresponds to a starting fault: the function
    value is looked at first, then the gradient components in order. *)
Definition sentinelFor (loc : Location) (e : error) : Prop :=
  (math.IsNaN (F loc) = true -> e = ErrNaN) /\
  (math.IsInf (F loc) 1 = true -> e = ErrInf) /\
  (math.IsNaN (F loc) = false -> math.IsInf (F loc) 1 = false ->
   exists g before v after,
     Gradient loc = Some g /\ g = before ++ v :: after /\
     existsb badComponent before = false /\
     ((math.IsInf v 0 = true /\ e = ErrGradInf) \/
      (math.IsNaN v = true /\ e = ErrGradNaN))).

(** The state a computation leaves, returned or panicked. *)
Definition state_of {S A : Type} (r : Res S A) : S :=
  match r with
  | Val _ s => s
  | Panic _ s => s
  end.

Definition isRecord (e : Event) : bool :=
  match e with
  | EvRecord _ _ _ _ => true
  | _ => false
  end.

Definition isCheck (e : Event) : bool :=
  match e with
  | EvCheckConvergence _ _ _ => true
  | _ => false
  end.

(** Every progress report of the events [h] comes right after a
    convergence check made for the same iteration kind and the same
    statistics; [prev] is the event before [h], if any. *)
Fixpoint recordsFollowChecks (prev : option Event) (h : History) : Prop :=
  match h with
  | [] => True
  | e :: t =>
      match e with
      | EvRecord _ _ iterType stats =>
          match prev with
          | Some (EvCheckConvergence _ iterType' stats') =>
              iterType' = iterType /\ stats' = stats
          | _ => False
          end
      | _ => True
      end /\ recordsFollowChecks (Some e) t
  end.

(** Events among which there is no progress report. *)
Definition quiet (h : History) : Prop :=
  forallb (fun e => negb (isRecord e)) h = true.

(** A computation of [evaluate]'s monad only appends to the history, and
    appends no progress report. *)
Definition grows {A : Type} (m : Eval A) : Prop :=
  forall fr,
    exists ev, fr_hist (state_of (m fr)) = fr_hist fr ++ ev /\ quiet ev.


(** ** Predicates used to state further properties of [evaluate] *)

(** The evaluation counters after the objective calls among the events
    [ev]: each call increments the counter of its kind, as [evaluate] does
    right after it. *)
Definition bump (ev : History) (stats : Stats.t) : Stats.t :=
  fold_left
    (fun s e =>
       match e with
       | EvFunc _ => incr_FuncEvaluations s
       | EvGrad _ => incr_GradEvaluations s
       | EvHess _ => incr_HessEvaluations s
       | EvFuncGrad _ => incr_FuncGradEvaluations s
       | EvFuncGradHess _ => incr_FuncGradHessEvaluations s
       | _ => s
       end) ev stats.

(** The same five evaluation counters ([MajorIterations] and [Runtime]
    apart). *)
Definition sameCounters (a b : Stats.t) : Prop :=
  Stats.FuncEvaluations a = Stats.FuncEvaluations b /\
  Stats.GradEvaluations a = Stats.GradEvaluations b /\
  Stats.HessEvaluations a = Stats.HessEvaluations b /\
  Stats.FuncGradEvaluations a = Stats.FuncGradEvaluations b /\
  Stats.FuncGradHessEvaluations a = Stats.FuncGradHessEvaluations b.

(** A gradient, when tracked, has a first component: [loc.Gradient[0]]
    exists. *)
Definition gradientHasFirst (loc : Location) : Prop :=
  match Gradient loc with
  | Some [] => False
  | _ => True
  end.

(** A Hessian, when tracked, has a cell (0, 0). *)
Definition hessianHasFirstCell (loc : Location) : Prop :=
  match Hessian loc with
  | Some ((_ :: _) :: _) => True
  | Some _ => False
  | None => True
  end.

(** The first component of a tracked gradient is NaN. *)
Definition gradientMarked (loc : Location) : Prop :=
  match Gradient loc with
  | Some (v :: _) => math.IsNaN v = true
  | Some [] => False
  | None => True
  end.

(** The cell (0, 0) of a tracked Hessian is NaN. *)
Definition hessianMarked (loc : Location) : Prop :=
  match Hessian loc with
  | Some ((v :: _) :: _) => math.IsNaN v = true
  | Some _ => False
  | None => True
  end.

(** The Hessian [evaluate] hands to the combined triple call when the
    request was for less: a new one if none is tracked. *)
Definition hessianOrNew (loc : Location) : option mat64.SymDense :=
  match Hessian loc with
  | Some m => Some m
  | None => Some (mat64.NewSymDense (length (X loc)))
  end.

(** The gradient [evaluate] hands to the combined triple call when the
    Hessian alone was requested: a new one if none is tracked. *)
Definition gradientOrNew (loc : Location) : option (list float64) :=
  match Gradient loc with
  | Some g => Some g
  | None => Some (repeat math.zero (length (X loc)))
  end.

(** [g[0] = NaN] on a slice that has a first component. *)
Definition markFirst (g : list float64) : list float64 :=
  match g with
  | [] => []
  | _ :: t => math.NaN :: t
  end.

(** ** Predicates used to state further properties of [copyLocation] *)

(** An [n] by [n] matrix. *)
Definition isSquare (n : nat) (m : mat64.SymDense) : Prop :=
  length m = n /\ Forall (fun row => length row = n) m.

(** A location whose gradient and Hessian, when tracked, have the
    dimension of its point. *)
Definition wellFormedLocation (loc : Location) : Prop :=
  (forall g, Gradient loc = Some g -> length g = length (X loc) /\ g <> []) /\
  (forall m, Hessian loc = Some m -> isSquare (length (X loc)) m).

(** The destination tracks no gradient or Hessian the source does not
    track, and its Hessian, if any, is square. *)
Definition fits (dst src : Location) : Prop :=
  (Gradient src = None -> Gradient dst = None) /\
  (Hessian src = None -> Hessian dst = None) /\
  (forall m, Hessian dst = Some m -> isSquare (length m) m).

(** ** Predicates used to state the limit rules of [checkConvergence] *)

(** [totalFun], [totalGrad] and [totalHess] of [checkConvergence]. *)
Definition funcTotal (stats : Stats.t) : Go.int :=
  Go.add (Go.add (Stats.FuncEvaluations stats)
                 (Stats.FuncGradEvaluations stats))
    (Stats.FuncGradHessEvaluations stats).

Definition gradTotal (stats : Stats.t) : Go.int :=
  Go.add (Go.add (Stats.GradEvaluations stats)
                 (Stats.FuncGradEvaluations stats))
    (Stats.FuncGradHessEvaluations stats).

Definition hessTotal (stats : Stats.t) : Go.int :=
  Go.add (Stats.HessEvaluations stats) (Stats.FuncGradHessEvaluations stats).

(** A limit is set ([cap > 0]) and reached. *)
Definition reached (cap total : Z) : Prop := (0 < cap /\ cap <= total)%Z.

(** No threshold rule fires: on the iteration kinds where they apply, no
    tracked gradient is below the gradient tolerance and [F] is not below
    the function tolerance. *)
Definition noThreshold (loc : Location) (iterType : IterationType)
    (settings : Settings.t) : Prop :=
  gated iterType ->
  ~ gradientBelowTol loc settings /\
  math.lt (F loc) (Settings.FunctionAbsTol settings) = false.

(** ** Predicates used to state further properties of the driver *)

(** What is appended to the history when a location is sent to the
    recorder, if there is one. *)
Definition reportEvents (recorder : option Recorder) (loc : Location)
    (evalType : EvaluationType) (iterType : IterationType) (stats : Stats.t)
    : History :=
  match recorder with
  | Some _ => [EvRecord loc evalType iterType stats]
  | None => []
  end.

(** A status and an error that stop the run: an error, or a status other
    than [NotTerminated]. *)
Definition terminal (status : Status) (err : option error) : bool :=
  isSome err || negb (Status_eqb status NotTerminated).

(** The event of the probe of the objective's status, when the objective
    has one. *)
Definition probeEvents (funcInfo : functionInfo) : History :=
  if IsStatuser funcInfo then [EvFunctionStatus] else [].

(** The method [Local] goes on with: the one it was given, or, given none,
    the default one, which [getDefaultMethod] has only for an objective
    with a bare gradient or a combined function+gradient. *)
Definition methodInUse {Function : Type} (pkg : Package Function)
    (funcInfo : functionInfo) (method : option Method) : option Method :=
  match method with
  | Some m => Some m
  | None =>
      if IsGradient funcInfo || IsFunctionGradient funcInfo
      then Some (BFGS pkg)
      else None
  end.


(** ** Concrete collaborators used to run the model *)

Module Fixtures.

(** Some binary64 numbers in canonical form (53-bit mantissa). *)
Definition f64_one : float64 := S754_finite false 4503599627370496 (-52).
Definition f64_two : float64 := S754_finite false 4503599627370496 (-51).

(** The gradient of [f(x) = x_0]. *)
Definition grad_x0 (x : list float64) : list float64 :=
  match x with
  | [] => []
  | _ :: t => f64_one :: map (fun _ => math.zero) t
  end.

Definition fill (g : option (list float64)) (v : list float64)
    : option (list float64) :=
  option_map (fun dst => Go.copy dst v) g.

Definition fillSym (m : option mat64.SymDense) (n : nat)
    : option mat64.SymDense :=
  option_map (fun dst => mat64.CopySym dst (mat64.NewSymDense n)) m.

(** The objective [f(x) = x_0] seen through every interface, with a probe
    that never stops the run; [caps] says which interfaces it declares. *)
Definition objective (caps : FunctionInfo) : functionInfo :=
  mkfunctionInfo caps
    (fun _ x => hd math.zero x)
    (fun _ x g => fill g (grad_x0 x))
    (fun _ x m => fillSym m (length x))
    (fun _ x g => (hd math.zero x, fill g (grad_x0 x)))
    (fun _ x g m => (hd math.zero x, fill g (grad_x0 x), fillSym m (length x)))
    (fun _ => (NotTerminated, None)).

(** An objective whose value is NaN everywhere. *)
Definition objective_NaN (caps : FunctionInfo) : functionInfo :=
  mkfunctionInfo caps
    (fun _ _ => math.NaN)
    (fun _ x g => fill g (grad_x0 x))
    (fun _ x m => fillSym m (length x))
    (fun _ x g => (math.NaN, fill g (grad_x0 x)))
    (fun _ x g m => (math.NaN, fill g (grad_x0 x), fillSym m (length x)))
    (fun _ => (NotTerminated, None)).

(** Capability sets: bare gradient only; bare gradient and the combined
    triple; the combined triple only. *)
Definition caps_gradient : FunctionInfo :=
  mkFunctionInfo true false false false false.
Definition caps_gradient_triple : FunctionInfo :=
  mkFunctionInfo true false false true false.
Definition caps_triple : FunctionInfo :=
  mkFunctionInfo false false false true false.

(** A method that uses gradients and always asks for the gradient alone at
    the point [(2, ..., 2)], as a minor iteration. *)
Definition method_probe : Method :=
  mkMethod
    (fun _ _ _ xNext =>
       (GradEvaluation, MinorIteration, None, map (fun _ => f64_two) xNext))
    (fun _ _ xNext =>
       (GradEvaluation, MinorIteration, None, map (fun _ => f64_two) xNext))
    true false None.

(** A recorder that accepts everything, and one whose [Record] accepts the
    starting location only. *)
Definition recorder_ok : Recorder :=
  mkRecorder (fun _ => None) (fun _ _ _ _ _ => None).

Definition recorder_failing : Recorder :=
  mkRecorder (fun _ => None)
    (fun _ _ _ iterType _ =>
       match iterType with
       | InitIteration => None
       | _ => Some (ErrOther "recorder: write failed")
       end).

(** Settings with every tolerance and limit disabled but the given cap on
    function evaluations and function tolerance. *)
Definition settings_with (functionAbsTol : float64) (funcEvaluations : Z)
    (recorder : option Recorder) : Settings.t :=
  Settings.mk false math.zero None math.zero functionAbsTol
    funcEvaluations 0%Z 0%Z 0%Z 0%Z recorder.

Definition settings_plain : Settings.t :=
  settings_with (math.Inf (-1)) 0%Z None.

(** The package: objectives are given with their capabilities, every
    method is accepted, and the clock counts the calls made so far. *)
Definition pkg : Package functionInfo :=
  mkPackage (fun f => f) (fun _ _ => None) settings_plain method_probe
    (fun h => Z.of_nat (length h)).

(** A location at [(1)] with value 1 and gradient [(1)], and the same
    location with value negative infinity and no gradient. *)
Definition loc_one : Location :=
  mkLocation [f64_one] f64_one (Some [f64_one]) None.

Definition loc_neg_inf : Location :=
  mkLocation [f64_one] (math.Inf (-1)) None None.

Definition loc_with_F (f : float64) : Location :=
  mkLocation [f64_one] f (Some [f64_one]) None.

(** The state of the loop of [minimize] when the method asks for the
    gradient alone at the new point [(2)]. *)
Definition st_probe : LoopState :=
  mkLoopState loc_one loc_one Stats.empty [f64_two] GradEvaluation
    MinorIteration.

(** The same, as a major iteration asking for function and gradient. *)
Definition st_major : LoopState :=
  mkLoopState loc_one loc_one Stats.empty [f64_two] FuncGradEvaluation
    MajorIteration.

(** The working location after function and gradient were evaluated at
    [(2)], and the statistics after that evaluation and after [update]. *)
Definition loc_two : Location :=
  mkLocation [f64_two] f64_two (Some [f64_one]) None.

Definition stats_evaluated : Stats.t :=
  Stats.mk 0%Z 1%Z 1%Z 0%Z 0%Z 0%Z 0%Z.

Definition stats_updated : Stats.t :=
  Stats.mk 1%Z 1%Z 1%Z 0%Z 0%Z 0%Z 2%Z.

(** The starting location of the NaN objective, as evaluated. *)
Definition loc_start_NaN : Location :=
  mkLocation [f64_one] math.NaN (Some [f64_one]) None.

(** The state one pass after [st_major], when nothing stops the run. *)
Definition st_major_next : LoopState :=
  mkLoopState loc_two loc_one stats_updated [f64_two] GradEvaluation
    MinorIteration.

(** Settings that cap the function evaluations at one and report to the
    given recorder. *)
Definition settings_capped (recorder : Recorder) : Settings.t :=
  settings_with (math.Inf (-1)) 1%Z (Some recorder).

(** Settings without any limit that report to the given recorder. *)
Definition settings_reporting (recorder : Recorder) : Settings.t :=
  settings_with (math.Inf (-1)) 0%Z (Some recorder).

(** The working location after the gradient alone was evaluated at [(2)]
    from [loc_one]: [F] is marked. *)
Definition loc_probed : Location :=
  mkLocation [f64_two] math.NaN (Some [f64_one]) None.

(** A recorder whose [Record] fails from the third gradient evaluation
    on. *)
Definition recorder_failing_late : Recorder :=
  mkRecorder (fun _ => None)
    (fun _ _ _ _ stats =>
       if (3 <=? Stats.GradEvaluations stats)%Z
       then Some (ErrOther "recorder: write failed")
       else None).

(** A run of [Local] on [f(x) = x_0] from [(1)] with that recorder: the
    statistics and the history when [minimize] is entered, after the first
    pass of its loop (which goes round again), and when the report of the
    second pass fails. *)
Definition stats_started : Stats.t :=
  Stats.mk 0%Z 1%Z 1%Z 0%Z 0%Z 0%Z 3%Z.

Definition history_started : History :=
  [EvRecorderInit; EvFunc [f64_one]; EvGrad [f64_one]; EvSince;
   EvRecord loc_one FuncGradEvaluation InitIteration stats_started;
   EvCheckConvergence loc_one InitIteration stats_started].

Definition st_entered : LoopState :=
  mkLoopState loc_one loc_one stats_started [f64_two] GradEvaluation
    MinorIteration.

Definition stats_probed : Stats.t :=
  Stats.mk 0%Z 1%Z 2%Z 0%Z 0%Z 0%Z 8%Z.

Definition st_round : LoopState :=
  mkLoopState loc_probed loc_one stats_probed [f64_two] GradEvaluation
    MinorIteration.

Definition history_round : History :=
  history_started
    ++ [EvMethodInit loc_one [math.zero]; EvGrad [f64_two]; EvSince;
        EvCheckConvergence loc_one MinorIteration stats_probed;
        EvRecord loc_probed GradEvaluation MinorIteration stats_probed;
        EvMethodIterate loc_probed [f64_two]].

Definition stats_failed : Stats.t :=
  Stats.mk 0%Z 1%Z 3%Z 0%Z 0%Z 0%Z 13%Z.

Definition history_failed : History :=
  history_round
    ++ [EvGrad [f64_two]; EvSince;
        EvCheckConvergence loc_one MinorIteration stats_failed;
        EvRecord loc_probed GradEvaluation MinorIteration stats_failed].

End Fixtures.

(** ** Further concrete collaborators *)

Module MoreFixtures.

Import Fixtures.

(** A location at [(1)] that tracks a gradient and a Hessian. *)
Definition loc_full : Location :=
  mkLocation [f64_one] f64_one (Some [f64_one]) (Some [[f64_one]]).

(** Capability sets: none beyond the function; combined function+gradient
    only; bare Hessian only. *)
Definition caps_none : FunctionInfo :=
  mkFunctionInfo false false false false false.
Definition caps_funcgrad : FunctionInfo :=
  mkFunctionInfo false false true false false.
Definition caps_hessian : FunctionInfo :=
  mkFunctionInfo false true false false false.

(** Settings that cap the gradient evaluations at two and report to the
    given recorder. *)
Definition settings_grad_capped (recorder : option Recorder) : Settings.t :=
  Settings.mk false math.zero None math.zero (math.Inf (-1))
    0%Z 2%Z 0%Z 0%Z 0%Z recorder.

(** Settings that supply the value 2 and the gradient [(1)] of the
    starting location. *)
Definition settings_initial : Settings.t :=
  Settings.mk true f64_two (Some [f64_one]) math.zero (math.Inf (-1))
    0%Z 0%Z 0%Z 0%Z 0%Z None.

(** A method whose [Init] fails. *)
Definition method_failing : Method :=
  mkMethod
    (fun _ _ _ xNext =>
       (NoEvaluation, MajorIteration, Some (ErrOther "method: init failed"),
        xNext))
    (fun _ _ xNext => (NoEvaluation, MajorIteration, None, xNext))
    true false None.

(** A run of [Local] on [f(x) = x_0] from [(1)]: the starting evaluation
    and one pass of the loop, which reaches the cap on gradient
    evaluations. *)
Definition local_run : Driver (option (option Result.t * option error)) :=
  Local 1 pkg (objective caps_gradient) [f64_one]
    (Some (settings_grad_capped (Some recorder_ok))) (Some method_probe).

(** What that run returns: the starting location is still the best one;
    one function and two gradient evaluations were made, and the clock
    was last read at the thirteenth event. *)
Definition stats_run : Stats.t :=
  Stats.mk 0%Z 1%Z 2%Z 0%Z 0%Z 0%Z 12%Z.

Definition result_run : Result.t :=
  Result.mk loc_one stats_run GradientEvaluationLimit.

(** The same loop entered directly, without a recorder. *)
Definition minimize_run
    : Driver (option (Status * option error * Location * Stats.t)) :=
  minimize 1 pkg (settings_grad_capped None) method_probe
    (objective caps_gradient) stats_evaluated loc_one.

(** A recorder whose [Init] fails. *)
Definition recorder_init_failing : Recorder :=
  mkRecorder (fun _ => Some (ErrOther "recorder: init failed"))
    (fun _ _ _ _ _ => None).

End MoreFixtures.

(** * Properties *)

(** ** checkConvergence *)

Section CheckConvergence.

Variables (loc : Location) (iterType : IterationType).
Variables (stats : Stats.t) (settings : Settings.t).

Lemma gated_eqb :
  IterationType_eqb iterType MajorIteration
  || IterationType_eqb iterType InitIteration = true <-> gated iterType.
Proof.
  unfold gated. destruct iterType; simpl; split; intros H; auto;
    try discriminate; destruct H; discriminate.
Qed.

Lemma not_gated_eqb :
  IterationType_eqb iterType MajorIteration
  || IterationType_eqb iterType InitIteration = false <-> ~ gated iterType.
Proof.
  unfold gated. destruct iterType; simpl; split; intros H;
    try reflexivity; try discriminate.
  - exfalso. apply H. left. reflexivity.
  - exfalso. apply H. right. reflexivity.
  - intros [K | K]; discriminate.
  - intros [K | K]; discriminate.
Qed.

Lemma thresholdStatus_gradient :
  thresholdStatus loc settings = Some GradientThreshhold <->
  gradientBelowTol loc settings.
Proof.
  unfold thresholdStatus, gradientBelowTol.
  destruct (Gradient loc) as [g|].
  - destruct (math.lt (floats.Norm g (math.Inf 1))
                (Settings.GradientAbsTol settings)) eqn:E.
    + split; intros _; [exists g; auto | reflexivity].
    + split.
      * destruct (math.lt (F loc) (Settings.FunctionAbsTol settings));
          discriminate.
      * intros [g' [Hg Hlt]]. injection Hg as <-. congruence.
  - split.
    + destruct (math.lt (F loc) (Settings.FunctionAbsTol settings));
        discriminate.
    + intros [g' [Hg _]]. discriminate.
Qed.

Lemma thresholdStatus_function :
  thresholdStatus loc settings = Some FunctionThreshhold <->
  ~ gradientBelowTol loc settings /\
  math.lt (F loc) (Settings.FunctionAbsTol settings) = true.
Proof.
  rewrite <- thresholdStatus_gradient. unfold thresholdStatus.
  destruct (match Gradient loc with
            | Some g => _
            | None => false
            end).
  - split; [discriminate | intros [H _]; exfalso; apply H; reflexivity].
  - destruct (math.lt (F loc) (Settings.FunctionAbsTol settings)).
    + split; [intros _; split; [discriminate | reflexivity] | reflexivity].
    + split; [discriminate | intros [_ H]; discriminate].
Qed.

Lemma thresholdStatus_cases :
  thresholdStatus loc settings = Some GradientThreshhold \/
  thresholdStatus loc settings = Some FunctionThreshhold \/
  thresholdStatus loc settings = None.
Proof.
  unfold thresholdStatus.
  destruct (match Gradient loc with
            | Some g => _
            | None => false
            end); auto.
  destruct (math.lt (F loc) (Settings.FunctionAbsTol settings)); auto.
Qed.

Lemma limitStatus_not_threshold :
  limitStatus loc iterType stats settings <> GradientThreshhold /\
  limitStatus loc iterType stats settings <> FunctionThreshhold.
Proof.
  unfold limitStatus.
  repeat match goal with
         | |- context [if ?b then _ else _] => destruct b
         end; split; discriminate.
Qed.

(** C3. [checkConvergence] applies the threshold rules only on
    [InitIteration] and [MajorIteration], in this priority: a tracked
    gradient whose infinity-norm is strictly below [GradientAbsTol] gives
    [GradientThreshhold]; otherwise a function value strictly below
    [FunctionAbsTol] gives [FunctionThreshhold]; on any other iteration
    kind neither threshold status is returned. Each threshold status is
    returned in exactly these situations. *)
Theorem checkConvergence_threshold_rules :
  (checkConvergence loc iterType stats settings = GradientThreshhold <->
   gated iterType /\ gradientBelowTol loc settings) /\
  (checkConvergence loc iterType stats settings = FunctionThreshhold <->
   gated iterType /\ ~ gradientBelowTol loc settings /\
   math.lt (F loc) (Settings.FunctionAbsTol settings) = true) /\
  (~ gated iterType ->
   checkConvergence loc iterType stats settings <> GradientThreshhold /\
   checkConvergence loc iterType stats settings <> FunctionThreshhold).
Proof.
  pose proof limitStatus_not_threshold as [Hg Hf].
  pose proof thresholdStatus_gradient as TG.
  pose proof thresholdStatus_function as TF.
  unfold checkConvergence.
  destruct (IterationType_eqb iterType MajorIteration
            || IterationType_eqb iterType InitIteration) eqn:E.
  - apply gated_eqb in E.
    destruct thresholdStatus_cases as [H | [H | H]];
      rewrite H in *; intuition (try discriminate; try congruence).
  - apply not_gated_eqb in E. intuition congruence.
Qed.

(** C2, as the code has it. A location whose function value is negative
    infinity gives [FunctionNegativeInfinity] on every iteration kind on
    which no threshold rule fires first: always on [MinorIteration] and
    [PostIteration], and on [InitIteration] and [MajorIteration] when no
    tracked gradient is below its tolerance and the function value is not
    strictly below [FunctionAbsTol]. *)
Theorem checkConvergence_negative_infinity :
  math.IsInf (F loc) (-1) = true ->
  ~ gated iterType \/
  (~ gradientBelowTol loc settings /\
   math.lt (F loc) (Settings.FunctionAbsTol settings) = false) ->
  checkConvergence loc iterType stats settings = FunctionNegativeInfinity.
Proof.
  intros Hinf Hno. unfold checkConvergence.
  assert (L : limitStatus loc iterType stats settings
              = FunctionNegativeInfinity).
  { unfold limitStatus. rewrite Hinf. reflexivity. }
  destruct (IterationType_eqb iterType MajorIteration
            || IterationType_eqb iterType InitIteration) eqn:E.
  - destruct Hno as [Hno | [Hg Hf]].
    + apply gated_eqb in E. contradiction.
    + destruct thresholdStatus_cases as [H | [H | H]].
      * apply thresholdStatus_gradient in H. contradiction.
      * apply thresholdStatus_function in H. destruct H as [_ H]. congruence.
      * rewrite H. exact L.
  - exact L.
Qed.

End CheckConvergence.

(** ** The order on float64 *)

Lemma le_key (x y : float64) :
  math.le x y = true <->
  math.IsNaN x = false /\ math.IsNaN y = false /\ lex_le (key x) (key y).
Proof.
  unfold math.le, SFleb, SFcompare.
  destruct x as [sx|sx| |sx mx ex], y as [sy|sy| |sy my ey]; simpl;
    try (destruct sx); try (destruct sy); simpl;
    try (split;
         [ intros ?; try discriminate; repeat split; try reflexivity; lia
         | intros (? & ? & ?); try discriminate; try reflexivity; try lia ]).
  all: change (Pos.compare_cont Eq mx my) with (Pos.compare mx my).
  all: destruct (Z.compare_spec ex ey); destruct (Pos.compare_spec mx my);
    simpl; split;
    try (intros ?; try discriminate; repeat split; try reflexivity; lia);
    try (intros (? & ? & ?); try discriminate; try reflexivity; try lia).
Qed.

Lemma le_NaN_l (x y : float64) : math.IsNaN x = true -> math.le x y = false.
Proof. destruct x; try discriminate. reflexivity. Qed.

Lemma le_NaN_r (x y : float64) : math.IsNaN y = true -> math.le x y = false.
Proof. destruct y; try discriminate. destruct x; reflexivity. Qed.

Lemma le_refl (x : float64) : math.IsNaN x = false -> math.le x x = true.
Proof.
  intros H. apply le_key. repeat split; auto.
  unfold lex_le. destruct (key x) as [[a1 a2] a3]. lia.
Qed.

Lemma le_trans (x y z : float64) :
  math.le x y = true -> math.le y z = true -> math.le x z = true.
Proof.
  rewrite !le_key. unfold lex_le.
  destruct (key x) as [[a1 a2] a3], (key y) as [[b1 b2] b3],
    (key z) as [[c1 c2] c3].
  intros (? & ? & ?) (? & ? & ?). repeat split; auto. lia.
Qed.

Lemma le_total (x y : float64) :
  math.IsNaN x = false -> math.IsNaN y = false ->
  math.le x y = false -> math.le y x = true.
Proof.
  intros Hx Hy H. apply le_key. repeat split; auto.
  assert (N : ~ lex_le (key x) (key y)).
  { intros K. assert (math.le x y = true) by (apply le_key; auto).
    congruence. }
  unfold lex_le in *.
  destruct (key x) as [[a1 a2] a3], (key y) as [[b1 b2] b3]. lia.
Qed.

(** ** copyLocation and update *)

Lemma copy_same_length {A : Type} (dst src : list A) :
  length dst = length src -> Go.copy dst src = src.
Proof.
  intros H. unfold Go.copy. rewrite H, firstn_all, skipn_all2 by lia.
  apply app_nil_r.
Qed.

Lemma resize_length (x : list float64) (dim : nat) :
  length (resize x dim) = dim.
Proof.
  unfold resize. destruct (Nat.ltb_spec (length x) dim).
  - apply repeat_length.
  - rewrite length_firstn. lia.
Qed.

Lemma copyLocation_X (dst src : Location) :
  X (copyLocation dst src) = X src.
Proof. simpl. apply copy_same_length, resize_length. Qed.

Lemma copyLocation_F (dst src : Location) :
  F (copyLocation dst src) = F src.
Proof. reflexivity. Qed.

Section Update.

Context {Function : Type} (pkg : Package Function).

(** What [update] leaves in [*stats]. *)
Lemma update_eq loc optLoc stats iterType h :
  update pkg loc optLoc stats iterType h =
  Val (if math.le (F loc) (F optLoc) then copyLocation optLoc loc else optLoc,
       with_Runtime (time_Since pkg h)
         (if IterationType_eqb iterType MajorIteration
          then incr_MajorIterations stats
          else stats))
      (h ++ [EvSince]).
Proof. reflexivity. Qed.

(** [invalidate] touches neither [loc.X], nor [*stats], nor the history,
    and leaves NaN in [loc.F] exactly when asked to. *)
Lemma invalidate_spec f grad hess fr fr' :
  invalidate f grad hess fr = Val tt fr' ->
  X (fr_loc fr') = X (fr_loc fr) /\
  F (fr_loc fr') = (if f then math.NaN else F (fr_loc fr)) /\
  fr_stats fr' = fr_stats fr /\
  fr_hist fr' = fr_hist fr.
Proof.
  destruct fr as [[x fv g hs] st h].
  unfold invalidate, bind, when, set_loc, modify, get_loc, ret, panic.
  destruct f, grad, hess, g as [[|g0 g]|], hs as [hs|]; simpl;
    try destruct (mat64.SetSym hs 0 0 math.NaN); simpl;
    intros H; inversion H; simpl; auto.
Qed.

Lemma invalidate_F_NaN grad hess fr fr' :
  invalidate true grad hess fr = Val tt fr' ->
  math.IsNaN (F (fr_loc fr')) = true.
Proof.
  intros H. apply invalidate_spec in H. destruct H as (_ & -> & _).
  reflexivity.
Qed.

(** C10. When the working location's [F] is NaN, [update] leaves the
    best-known location exactly as it was, whatever the iteration kind;
    and [invalidate] asked to invalidate [F] leaves a NaN there, so an
    invalidated working value never overwrites the best-known location. *)
Theorem update_NaN_keeps_optLoc :
  (forall loc optLoc stats iterType h,
      math.IsNaN (F loc) = true ->
      exists stats',
        update pkg loc optLoc stats iterType h
        = Val (optLoc, stats') (h ++ [EvSince])) /\
  (forall grad hess fr fr' optLoc stats iterType h,
      invalidate true grad hess fr = Val tt fr' ->
      exists stats',
        update pkg (fr_loc fr') optLoc stats iterType h
        = Val (optLoc, stats') (h ++ [EvSince])).
Proof.
  assert (K : forall loc optLoc stats iterType h,
             math.IsNaN (F loc) = true ->
             exists stats',
               update pkg loc optLoc stats iterType h
               = Val (optLoc, stats') (h ++ [EvSince])).
  { intros loc optLoc stats iterType h H. rewrite update_eq.
    rewrite (le_NaN_l _ (F optLoc) H). eexists. reflexivity. }
  split.
  - exact K.
  - intros grad hess fr fr' optLoc stats iterType h H.
    apply K. exact (invalidate_F_NaN _ _ _ H).
Qed.

End Update.

(** ** evaluate *)

Section Evaluate.

Variables (funcInfo : functionInfo) (xNext : list float64) (fr : Frame).

Ltac unfold_eval :=
  unfold evaluate, unsupported, invalidate, call_Func, call_Grad, call_Hess,
    call_FuncGrad, call_FuncGradHess, set_stats, set_loc, get_loc,
    bind, when, modify, ret, panic, evaluationPoint.

(** C7. [NoEvaluation] at a candidate point that differs in content from
    [loc.X] panics with the usage error and leaves [*stats] (and the
    history: no objective call) untouched, the point having been copied
    into [loc.X]; at a candidate point equal to [loc.X] it changes
    nothing at all. *)
Theorem evaluate_NoEvaluation :
  (floats.Equal (X (fr_loc fr)) xNext = false ->
   evaluate funcInfo NoEvaluation xNext fr
   = Panic (PanicString "optimize: no evaluation requested at new location")
       (mkFrame (with_X (Go.copy (X (fr_loc fr)) xNext) (fr_loc fr))
          (fr_stats fr) (fr_hist fr))) /\
  (floats.Equal (X (fr_loc fr)) xNext = true ->
   evaluate funcInfo NoEvaluation xNext fr = Val tt fr).
Proof.
  unfold_eval. split; intros H; rewrite H; simpl; reflexivity.
Qed.

Lemma SetSym_first_cell (h : mat64.SymDense) (v : float64) :
  (0 < mat64.Symmetric h)%nat -> exists h', mat64.SetSym h 0 0 v = Some h'.
Proof.
  intros H. unfold mat64.SetSym.
  destruct (Nat.ltb_spec 0 (mat64.Symmetric h)); [|lia].
  simpl. eexists. reflexivity.
Qed.

(** C1, as the code has it. A [FuncGradEvaluation] request is served, in
    this priority, by the combined function+gradient call when that
    capability is present; otherwise by a bare-function call followed by a
    bare-gradient call (two counters) when the bare gradient is present;
    otherwise by the combined triple call when present; otherwise
    [evaluate] panics without calling the objective or touching the
    counters. *)
Theorem evaluate_FuncGradEvaluation_dispatch :
  hessianMarkable (fr_loc fr) ->
  let x := evaluationPoint (fr_loc fr) xNext in
  (IsFunctionGradient funcInfo = true ->
   exists fr',
     evaluate funcInfo FuncGradEvaluation xNext fr = Val tt fr' /\
     fr_hist fr' = fr_hist fr ++ [EvFuncGrad x] /\
     fr_stats fr' = incr_FuncGradEvaluations (fr_stats fr)) /\
  (IsFunctionGradient funcInfo = false ->
   IsGradient funcInfo = true ->
   exists fr',
     evaluate funcInfo FuncGradEvaluation xNext fr = Val tt fr' /\
     fr_hist fr' = fr_hist fr ++ [EvFunc x; EvGrad x] /\
     fr_stats fr' =
       incr_GradEvaluations (incr_FuncEvaluations (fr_stats fr))) /\
  (IsFunctionGradient funcInfo = false ->
   IsGradient funcInfo = false ->
   IsFunctionGradientHessian funcInfo = true ->
   exists fr',
     evaluate funcInfo FuncGradEvaluation xNext fr = Val tt fr' /\
     fr_hist fr' = fr_hist fr ++ [EvFuncGradHess x] /\
     fr_stats fr' = incr_FuncGradHessEvaluations (fr_stats fr)) /\
  (IsFunctionGradient funcInfo = false ->
   IsGradient funcInfo = false ->
   IsFunctionGradientHessian funcInfo = false ->
   exists fr',
     evaluate funcInfo FuncGradEvaluation xNext fr
     = Panic (PanicUnsupported FuncGradEvaluation) fr' /\
     fr_hist fr' = fr_hist fr /\
     fr_stats fr' = fr_stats fr).
Proof.
  destruct fr as [[x0 f0 g0 hs] st h]. unfold hessianMarkable. simpl.
  intros HM.
  assert (S00 : match hs with
                | Some m => exists m', mat64.SetSym m 0 0 math.NaN = Some m'
                | None => True
                end).
  { destruct hs; [apply SetSym_first_cell; exact HM | exact I]. }
  repeat split.
  - intros FG. unfold_eval. simpl. rewrite FG.
    destruct (floats.Equal x0 xNext); simpl.
    + destruct (functionGradient_FuncGrad funcInfo h x0 g0).
      eexists. repeat split.
    + destruct hs as [m|]; [destruct S00 as [m' ->]|]; simpl;
        destruct (functionGradient_FuncGrad funcInfo h _ g0);
        eexists; repeat split.
  - intros FG G. unfold_eval. simpl. rewrite FG, G.
    destruct (floats.Equal x0 xNext); simpl.
    + eexists. repeat split. rewrite <- app_assoc. reflexivity.
    + destruct hs as [m|]; [destruct S00 as [m' ->]|]; simpl;
        eexists; repeat split; rewrite <- app_assoc; reflexivity.
  - intros FG G FGH. unfold_eval. simpl. rewrite FG, G, FGH.
    destruct (floats.Equal x0 xNext); simpl;
      destruct hs as [m|]; simpl;
      destruct (functionGradientHessian_FuncGradHess funcInfo h _ g0 _)
        as [[? ?] ?];
      eexists; repeat split.
  - intros FG G FGH. unfold_eval. simpl. rewrite FG, G, FGH.
    destruct (floats.Equal x0 xNext); simpl; eexists; repeat split.
Qed.

End Evaluate.

(** ** getStartingLocation and Local *)

Lemma gradientError_sentinel (g : list float64) :
  existsb badComponent g = true ->
  exists e before v after,
    gradientError g = Some e /\ g = before ++ v :: after /\
    existsb badComponent before = false /\
    ((math.IsInf v 0 = true /\ e = ErrGradInf) \/
     (math.IsNaN v = true /\ e = ErrGradNaN)).
Proof.
  induction g as [|v g IH]; simpl; [discriminate|].
  unfold badComponent at 1.
  destruct (math.IsInf v 0) eqn:EI; simpl.
  - intros _. exists ErrGradInf, [], v, g. repeat split; auto.
  - destruct (math.IsNaN v) eqn:EN; simpl.
    + intros _. exists ErrGradNaN, [], v, g. repeat split; auto.
    + intros H. destruct (IH H) as (e & before & w & after & E1 & E2 & E3 & E4).
      exists e, (v :: before), w, after. repeat split; auto.
      * rewrite E2. reflexivity.
      * simpl. unfold badComponent at 1. rewrite EI, EN. exact E3.
Qed.

Lemma startingError_sentinel (loc : Location) :
  startingFault loc = true ->
  exists e, startingError loc = Some e /\ sentinelFor loc e.
Proof.
  unfold startingFault, startingError, sentinelFor.
  destruct (math.IsNaN (F loc)) eqn:EN; simpl.
  - intros _. exists ErrNaN. split; [reflexivity|].
    destruct (F loc); try discriminate EN.
    repeat split; intros; try discriminate; reflexivity.
  - destruct (math.IsInf (F loc) 1) eqn:EI; simpl.
    + intros _. exists ErrInf. repeat split; auto; discriminate.
    + intros H. destruct (Gradient loc) as [g|]; [|discriminate].
      destruct (gradientError_sentinel g H)
        as (e & before & v & after & E1 & E2 & E3 & E4).
      exists e. repeat split; try discriminate; auto.
      intros _ _. exists g, before, v, after. auto.
Qed.

Lemma getStartingLocation_err funcInfo method initX stats settings h
    loc evalType err stats' h' :
  getStartingLocation funcInfo method initX stats settings h
  = Val (loc, evalType, err, stats') h' ->
  err = startingError loc.
Proof.
  unfold getStartingLocation, bind, ret.
  match goal with
  | |- context [match ?m h with _ => _ end] => destruct (m h) as [[[l e] s] ?|]
  end; intros H; inversion H; reflexivity.
Qed.

Section LocalProperties.

Context {Function : Type} (pkg : Package Function).

(** C5, as the code has it. Once the setup has passed, a starting point
    whose function value is NaN or +Inf, or whose gradient has a NaN or
    infinite component, makes [Local] return at once the sentinel error
    that corresponds to the fault, together with a nil result; the history
    ends with the starting evaluation: no further objective call, report
    or clock reading is made. *)
Theorem Local_starting_fault fuel f initX settings method h
    funcInfo method' settings' h1 loc evalType err stats h2 :
  Local_setup pkg f initX settings method h
  = Val (inr (funcInfo, method', settings')) h1 ->
  getStartingLocation funcInfo method' initX Stats.empty settings' h1
  = Val (loc, evalType, err, stats) h2 ->
  startingFault loc = true ->
  exists e,
    err = Some e /\ sentinelFor loc e /\
    Local fuel pkg f initX settings method h = Val (Some (None, Some e)) h2.
Proof.
  intros Hsetup Hstart Hfault.
  destruct (startingError_sentinel loc Hfault) as (e & He & Hs).
  pose proof (getStartingLocation_err _ _ _ _ _ _ Hstart) as Herr.
  exists e. rewrite Herr, He. repeat split; try apply Hs.
  unfold Local, bind. rewrite Hsetup. rewrite Hstart.
  rewrite Herr, He. reflexivity.
Qed.

End LocalProperties.

(** ** The history of a run *)

Lemma quiet_app (a b : History) : quiet a -> quiet b -> quiet (a ++ b).
Proof. unfold quiet. intros Ha Hb. rewrite forallb_app, Ha, Hb. reflexivity. Qed.

Lemma grows_ret {A : Type} (a : A) : grows (ret a).
Proof. intros fr. exists []. simpl. rewrite app_nil_r. split; reflexivity. Qed.

Lemma grows_panic {A : Type} (p : PanicValue) : grows (@panic Frame A p).
Proof. intros fr. exists []. simpl. rewrite app_nil_r. split; reflexivity. Qed.

Lemma grows_bind {A B : Type} (m : Eval A) (k : A -> Eval B) :
  grows m -> (forall a, grows (k a)) -> grows (bind m k).
Proof.
  intros Hm Hk fr. unfold bind. destruct (Hm fr) as (ev & E & Q).
  destruct (m fr) as [a fr1|p fr1]; simpl in E.
  - destruct (Hk a fr1) as (ev' & E' & Q').
    exists (ev ++ ev'). rewrite E', E, app_assoc. split; [reflexivity|].
    apply quiet_app; assumption.
  - exists ev. simpl. split; assumption.
Qed.

Lemma grows_get_loc : grows get_loc.
Proof. intros fr. exists []. simpl. rewrite app_nil_r. split; reflexivity. Qed.

Lemma grows_set_loc (f : Location -> Location) : grows (set_loc f).
Proof. intros fr. exists []. simpl. rewrite app_nil_r. split; reflexivity. Qed.

Lemma grows_set_stats (f : Stats.t -> Stats.t) : grows (set_stats f).
Proof. intros fr. exists []. simpl. rewrite app_nil_r. split; reflexivity. Qed.

Lemma grows_when (b : bool) (m : Eval unit) : grows m -> grows (when b m).
Proof. intros H. destruct b; [exact H | apply grows_ret]. Qed.

Lemma grows_call_Func funcInfo : grows (call_Func funcInfo).
Proof. intros fr. eexists. simpl. split; reflexivity. Qed.

Lemma grows_call_Grad funcInfo : grows (call_Grad funcInfo).
Proof. intros fr. eexists. simpl. split; reflexivity. Qed.

Lemma grows_call_Hess funcInfo : grows (call_Hess funcInfo).
Proof. intros fr. eexists. simpl. split; reflexivity. Qed.

Lemma grows_call_FuncGrad funcInfo : grows (call_FuncGrad funcInfo).
Proof.
  intros fr. unfold call_FuncGrad.
  destruct (functionGradient_FuncGrad funcInfo _ _ _).
  eexists. simpl. split; reflexivity.
Qed.

Lemma grows_call_FuncGradHess funcInfo : grows (call_FuncGradHess funcInfo).
Proof.
  intros fr. unfold call_FuncGradHess.
  destruct (functionGradientHessian_FuncGradHess funcInfo _ _ _ _) as [[? ?] ?].
  eexists. simpl. split; reflexivity.
Qed.

Ltac grows_step :=
  first
    [ apply grows_ret | apply grows_panic | apply grows_get_loc
    | apply grows_set_loc | apply grows_set_stats
    | apply grows_call_Func | apply grows_call_Grad | apply grows_call_Hess
    | apply grows_call_FuncGrad | apply grows_call_FuncGradHess
    | apply grows_when
    | apply grows_bind; [| intros ?]
    | match goal with
      | |- grows (if ?b then _ else _) => destruct b
      | |- grows (match ?x with _ => _ end) => destruct x
      end ].

Lemma grows_invalidate f grad hess : grows (invalidate f grad hess).
Proof. unfold invalidate. repeat grows_step. Qed.

Lemma grows_evaluate funcInfo evalType xNext :
  grows (evaluate funcInfo evalType xNext).
Proof.
  unfold evaluate, unsupported.
  apply grows_bind; [apply grows_get_loc | intros loc].
  apply grows_bind; [apply grows_when, grows_set_loc | intros _].
  destruct evalType;
    repeat first [ apply grows_invalidate | grows_step ].
Qed.

Lemma run_evaluate_hist funcInfo evalType xNext loc stats h :
  exists ev,
    state_of (run_evaluate funcInfo evalType xNext loc stats h) = h ++ ev /\
    quiet ev.
Proof.
  unfold run_evaluate.
  destruct (grows_evaluate funcInfo evalType xNext (mkFrame loc stats h))
    as (ev & E & Q).
  exists ev. split; [|exact Q].
  destruct (evaluate funcInfo evalType xNext (mkFrame loc stats h));
    exact E.
Qed.

Lemma recordsFollowChecks_weaken (p : option Event) (h : History) :
  recordsFollowChecks None h -> recordsFollowChecks p h.
Proof.
  destruct h as [|e t]; simpl; [auto|].
  intros [H1 H2]. split; [|exact H2]. destruct e; tauto.
Qed.

Lemma recordsFollowChecks_app (p : option Event) (a b : History) :
  recordsFollowChecks p a -> recordsFollowChecks None b ->
  recordsFollowChecks p (a ++ b).
Proof.
  revert p. induction a as [|e a IH]; intros p Ha Hb; simpl.
  - apply recordsFollowChecks_weaken. exact Hb.
  - destruct Ha as [H1 H2]. split; [exact H1|]. apply IH; assumption.
Qed.

Lemma recordsFollowChecks_quiet (p : option Event) (h : History) :
  quiet h -> recordsFollowChecks p h.
Proof.
  unfold quiet. revert p. induction h as [|e h IH]; intros p; simpl; [auto|].
  intros H. apply andb_prop in H. destruct H as [H1 H2].
  split; [|apply IH; exact H2]. destruct e; try exact I. discriminate.
Qed.

(** ** minimize and Local: the order of checks and reports *)

Section Minimize.

Context {Function : Type} (pkg : Package Function).

(** The events of one pass of the loop: every report follows its check. *)
Lemma minimize_body_hist settings method funcInfo st h :
  exists ev,
    state_of (minimize_body pkg settings method funcInfo st h) = h ++ ev /\
    recordsFollowChecks None ev.
Proof.
  unfold minimize_body, bind.
  match goal with
  | |- context [match ?m h with _ => _ end] =>
      assert (E1 : exists status err pre,
                 m h = Val (status, err) (h ++ pre) /\ quiet pre)
  end.
  { unfold call, ret. destruct (IsStatuser funcInfo).
    - destruct (statuser_Status funcInfo h) as [s e].
      exists s, e, [EvFunctionStatus]. split; reflexivity.
    - exists NotTerminated, None, []. rewrite app_nil_r. split; reflexivity. }
  destruct E1 as (status & err & pre & E1 & Qpre). rewrite E1. clear E1.
  destruct (isSome err || negb (Status_eqb status NotTerminated)).
  { exists pre. simpl. split; [reflexivity | apply recordsFollowChecks_quiet, Qpre]. }
  destruct (run_evaluate_hist funcInfo (ls_evalType st) (ls_xNext st) (ls_loc st) (ls_stats st) (h ++ pre))
    as (ev & Eev & Qev).
  destruct (run_evaluate funcInfo (ls_evalType st) (ls_xNext st) (ls_loc st) (ls_stats st) (h ++ pre))
    as [[loc stats] h2|p h2]; simpl in Eev; subst h2.
  2:{ exists (pre ++ ev). simpl. rewrite app_assoc. split; [reflexivity|].
      apply recordsFollowChecks_quiet, quiet_app; assumption. }
  unfold update, run_checkConvergence, run_Record, call, bind, ret.
  cbv beta iota zeta.
  set (optLoc := if math.le (F loc) (F (ls_optLoc st)) then _ else _).
  set (stats' := with_Runtime _ _).
  set (status' := checkConvergence _ _ _ _).
  assert (Q2 : quiet (pre ++ ev)) by (apply quiet_app; assumption).
  cbn [ls_evalType ls_iterType].
  assert (L : forall (hist : History) tail,
             hist = (h ++ pre ++ ev ++
                       [EvSince;
                        EvCheckConvergence optLoc (ls_iterType st) stats']
                       ++ tail) ->
             quiet tail \/
             (exists t, tail = EvRecord loc (ls_evalType st) (ls_iterType st)
                                 stats' :: t /\ quiet t) ->
             exists ev0, hist = h ++ ev0 /\ recordsFollowChecks None ev0).
  { intros hist tail -> Ht. eexists. split; [reflexivity|].
    rewrite app_assoc. apply recordsFollowChecks_app.
    - apply recordsFollowChecks_quiet, Q2.
    - simpl. split; [exact I|]. split; [exact I|].
      destruct Ht as [Ht | (t & -> & Ht)].
      + apply recordsFollowChecks_quiet, Ht.
      + simpl. split; [auto|]. apply recordsFollowChecks_quiet, Ht. }
  repeat (cbv beta iota;
          match goal with
          | |- context [match ?x with _ => _ end] =>
              lazymatch x with
              | context [match _ with _ => _ end] => fail
              | _ => destruct x
              end
          end);
    simpl state_of;
    (eapply L;
     [ rewrite <- !app_assoc; simpl; reflexivity
     | first [ left; reflexivity | right; eexists; split; reflexivity ] ]).
Qed.

Lemma minimize_loop_hist fuel settings method funcInfo st h :
  exists ev,
    state_of (minimize_loop fuel pkg settings method funcInfo st h) = h ++ ev /\
    recordsFollowChecks None ev.
Proof.
  revert st h. induction fuel as [|fuel IH]; intros st h.
  - exists []. simpl. rewrite app_nil_r. split; [reflexivity | exact I].
  - simpl. unfold bind.
    destruct (minimize_body_hist settings method funcInfo st h)
      as (ev & E & R).
    destruct (minimize_body pkg settings method funcInfo st h)
      as [[status err st'|st'] h1|p h1]; simpl in E; subst h1.
    + exists ev. split; [reflexivity | exact R].
    + destruct (IH st' (h ++ ev)) as (ev' & E' & R').
      exists (ev ++ ev'). rewrite E', app_assoc. split; [reflexivity|].
      apply recordsFollowChecks_app; assumption.
    + exists ev. split; [reflexivity | exact R].
Qed.

Lemma minimize_hist fuel settings method funcInfo stats optLoc h :
  exists ev,
    state_of (minimize fuel pkg settings method funcInfo stats optLoc h)
    = h ++ ev /\
    recordsFollowChecks None ev.
Proof.
  unfold minimize, bind, call.
  destruct (Method_Init method h _ funcInfo _) as [[[et it] err] xn].
  destruct err as [e|].
  - eexists. simpl. split; [reflexivity|]. simpl. auto.
  - match goal with
    | |- context [minimize_loop fuel pkg settings method funcInfo ?st ?h1] =>
        destruct (minimize_loop_hist fuel settings method funcInfo st h1)
          as (ev & E & R);
        destruct (minimize_loop fuel pkg settings method funcInfo st h1)
          as [[[[s e] st']|] h2|p h2]
    end; simpl in E; subst h2; simpl;
      (eexists; split; [rewrite <- app_assoc; reflexivity|]);
      simpl; (split; [exact I|]); apply recordsFollowChecks_weaken, R.
Qed.

(** The report of the starting location comes before its check. *)
Lemma Local_start_order fuel f initX settings method h
    funcInfo method' settings' h1 optLoc evalType stats h2 r :
  Local_setup pkg f initX settings method h
  = Val (inr (funcInfo, method', settings')) h1 ->
  getStartingLocation funcInfo method' initX Stats.empty settings' h1
  = Val (optLoc, evalType, None, stats) h2 ->
  Settings.Recorder settings' = Some r ->
  let stats' := with_Runtime (time_Since pkg h2) stats in
  exists rest,
    state_of (Local fuel pkg f initX settings method h)
    = h2 ++ [EvSince;
             EvRecord optLoc evalType InitIteration stats';
             EvCheckConvergence optLoc InitIteration stats'] ++ rest.
Proof.
  intros Hsetup Hstart Hrec stats'.
  unfold Local, bind. rewrite Hsetup, Hstart.
  unfold run_Record, run_checkConvergence, call, ret. rewrite Hrec.
  cbv beta iota. fold stats'.
  set (hist := ((h2 ++ [EvSince]) ++ [EvRecord optLoc evalType InitIteration stats'])
                 ++ [EvCheckConvergence optLoc InitIteration stats']).
  assert (Ehist : hist = h2 ++ [EvSince;
             EvRecord optLoc evalType InitIteration stats';
             EvCheckConvergence optLoc InitIteration stats']).
  { subst hist. rewrite <- !app_assoc. reflexivity. }
  destruct (Status_eqb _ NotTerminated && negb (isSome _)).
  - destruct (minimize_hist fuel settings' method' funcInfo stats' optLoc hist)
      as (ev & E & _).
    destruct (minimize fuel pkg settings' method' funcInfo stats' optLoc hist)
      as [[[[[s e] ol] sts]|] h3|p h3]; simpl in E; subst h3.
    + destruct e; simpl; rewrite Ehist; eexists;
        rewrite <- !app_assoc; simpl; reflexivity.
    + simpl. rewrite Ehist. eexists. rewrite <- !app_assoc. simpl. reflexivity.
    + simpl. rewrite Ehist. eexists. rewrite <- !app_assoc. simpl. reflexivity.
  - destruct (Recorder_Record r (h2 ++ [EvSince]) optLoc evalType InitIteration stats');
      simpl; rewrite Ehist; eexists; rewrite <- !app_assoc; simpl; reflexivity.
Qed.


(** A pass of the loop in which the recorder's [Record] call fails ends
    the loop, whatever the state the pass starts from: the loop hands out
    the recorder's error, and [Failure] only if the convergence status
    computed in the same pass was [NotTerminated]. *)
Lemma minimize_loop_Record_failure settings method (funcInfo : functionInfo)
    st h r loc stats1 h2 optLoc stats2 h3 e fuel :
  Settings.Recorder settings = Some r ->
  (IsStatuser funcInfo = true ->
   statuser_Status funcInfo h = (NotTerminated, None)) ->
  run_evaluate funcInfo (ls_evalType st) (ls_xNext st) (ls_loc st)
    (ls_stats st) (if IsStatuser funcInfo then h ++ [EvFunctionStatus] else h)
  = Val (loc, stats1) h2 ->
  update pkg loc (ls_optLoc st) stats1 (ls_iterType st) h2
  = Val (optLoc, stats2) h3 ->
  let status := checkConvergence optLoc (ls_iterType st) stats2 settings in
  let h4 := h3 ++ [EvCheckConvergence optLoc (ls_iterType st) stats2] in
  Recorder_Record r h4 loc (ls_evalType st) (ls_iterType st) stats2 = Some e ->
  exists status',
    minimize_loop (S fuel) pkg settings method funcInfo st h
    = Val (Some (status', Some e,
                 mkLoopState loc optLoc stats2 (ls_xNext st) (ls_evalType st)
                   (ls_iterType st)))
        (h4 ++ [EvRecord loc (ls_evalType st) (ls_iterType st) stats2]) /\
    (status = NotTerminated -> status' = Failure) /\
    (status <> NotTerminated -> status' = status).
Proof.
  intros Hrec Hstat Heval Hupd status h4 Hfail.
  exists (if Status_eqb status NotTerminated then Failure else status).
  split.
  - simpl. unfold minimize_body, bind.
    destruct (IsStatuser funcInfo).
    + unfold call at 1. rewrite (Hstat eq_refl).
      cbv beta iota delta [isSome orb negb Status_eqb].
      rewrite Heval. cbv beta iota. rewrite Hupd. cbv beta iota.
      unfold run_checkConvergence, run_Record, call, ret. rewrite Hrec.
      cbv beta iota. cbn [ls_evalType ls_iterType].
      fold status. fold h4. rewrite Hfail. reflexivity.
    + unfold ret at 1.
      cbv beta iota delta [isSome orb negb Status_eqb].
      rewrite Heval. cbv beta iota. rewrite Hupd. cbv beta iota.
      unfold run_checkConvergence, run_Record, call, ret. rewrite Hrec.
      cbv beta iota. cbn [ls_evalType ls_iterType].
      fold status. fold h4. rewrite Hfail. reflexivity.
  - destruct status; simpl; split; intros; congruence.
Qed.

(** [minimize] hands the error of a failed report to [Local], which
    returns it with the result and makes no further report. *)
Lemma Local_returns_minimize_error fuel f initX settings method h
    funcInfo method' settings' h1 optLoc evalType stats h2
    status e optLoc' stats' h4 :
  Local_setup pkg f initX settings method h
  = Val (inr (funcInfo, method', settings')) h1 ->
  getStartingLocation funcInfo method' initX Stats.empty settings' h1
  = Val (optLoc, evalType, None, stats) h2 ->
  let stats0 := with_Runtime (time_Since pkg h2) stats in
  (forall r,
      Settings.Recorder settings' = Some r ->
      Recorder_Record r (h2 ++ [EvSince]) optLoc evalType InitIteration stats0
      = None) ->
  let h3 :=
    match Settings.Recorder settings' with
    | Some _ =>
        (h2 ++ [EvSince]) ++ [EvRecord optLoc evalType InitIteration stats0]
    | None => h2 ++ [EvSince]
    end in
  checkConvergence optLoc InitIteration stats0 settings' = NotTerminated ->
  minimize fuel pkg settings' method' funcInfo stats0 optLoc
    (h3 ++ [EvCheckConvergence optLoc InitIteration stats0])
  = Val (Some (status, Some e, optLoc', stats')) h4 ->
  Local fuel pkg f initX settings method h
  = Val (Some (Some (Result.mk optLoc'
                       (with_Runtime (time_Since pkg h4) stats') status),
               Some e))
      (h4 ++ [EvSince]).
Proof.
  intros Hsetup Hstart stats0 Hrec h3 Hcheck Hmin.
  unfold Local, bind. rewrite Hsetup, Hstart.
  unfold call at 1. cbv beta iota. fold stats0.
  unfold run_Record, run_checkConvergence, call, ret.
  revert Hrec Hmin. unfold h3. clear h3.
  destruct (Settings.Recorder settings') as [r|]; intros Hrec Hmin.
  - rewrite (Hrec r eq_refl). cbv beta iota. rewrite Hcheck.
    cbn [Status_eqb isSome negb andb]. rewrite Hmin. reflexivity.
  - cbv beta iota. rewrite Hcheck.
    cbn [Status_eqb isSome negb andb]. rewrite Hmin. reflexivity.
Qed.

(** Going round [n] times uses up [n] passes of the loop. *)
Lemma reaches_loop settings method funcInfo n st h st' h' :
  reaches pkg settings method funcInfo n st h st' h' ->
  forall fuel,
    minimize_loop (n + fuel) pkg settings method funcInfo st h
    = minimize_loop fuel pkg settings method funcInfo st' h'.
Proof.
  induction 1 as [st h | n st h st1 h1 st' h' Hbody _ IH]; intros fuel.
  - reflexivity.
  - cbn [Nat.add minimize_loop]. unfold bind. rewrite Hbody. apply IH.
Qed.

(** C6. When the recorder's [Record] call fails inside the loop of
    [minimize], in whatever pass (the loop having gone round [n] times
    since the method's [Init]), the run terminates propagating that
    error: [minimize] returns it, with the best-known location and the
    statistics of that pass, and [Local] returns it to the caller with the
    result, making no further report. The status returned by both is
    [Failure] only if the convergence status computed in the same pass was
    [NotTerminated], and is that convergence status otherwise. *)
Theorem minimize_Record_failure settings method (funcInfo : functionInfo)
    stats0 optLoc0 h0 evalType0 iterType0 xNext0 n st h r
    loc stats1 h2 optLoc stats2 h3 e fuel :
  Settings.Recorder settings = Some r ->
  let loc0 := copyLocation emptyLocation optLoc0 in
  let x0 := repeat math.zero (length (X loc0)) in
  Method_Init method h0 loc0 funcInfo x0
  = (evalType0, iterType0, None, xNext0) ->
  reaches pkg settings method funcInfo n
    (mkLoopState loc0 optLoc0 stats0 xNext0 evalType0 iterType0)
    (h0 ++ [EvMethodInit loc0 x0]) st h ->
  (IsStatuser funcInfo = true ->
   statuser_Status funcInfo h = (NotTerminated, None)) ->
  run_evaluate funcInfo (ls_evalType st) (ls_xNext st) (ls_loc st)
    (ls_stats st) (if IsStatuser funcInfo then h ++ [EvFunctionStatus] else h)
  = Val (loc, stats1) h2 ->
  update pkg loc (ls_optLoc st) stats1 (ls_iterType st) h2
  = Val (optLoc, stats2) h3 ->
  let status := checkConvergence optLoc (ls_iterType st) stats2 settings in
  let h4 := h3 ++ [EvCheckConvergence optLoc (ls_iterType st) stats2] in
  let h5 := h4 ++ [EvRecord loc (ls_evalType st) (ls_iterType st) stats2] in
  Recorder_Record r h4 loc (ls_evalType st) (ls_iterType st) stats2 = Some e ->
  exists status',
    minimize (n + S fuel) pkg settings method funcInfo stats0 optLoc0 h0
    = Val (Some (status', Some e, optLoc, stats2)) h5 /\
    (status = NotTerminated -> status' = Failure) /\
    (status <> NotTerminated -> status' = status) /\
    (forall f initX settings_opt method_opt hL h1 evalTypeS statsS h2S,
        Local_setup pkg f initX settings_opt method_opt hL
        = Val (inr (funcInfo, method, settings)) h1 ->
        getStartingLocation funcInfo method initX Stats.empty settings h1
        = Val (optLoc0, evalTypeS, None, statsS) h2S ->
        stats0 = with_Runtime (time_Since pkg h2S) statsS ->
        Recorder_Record r (h2S ++ [EvSince]) optLoc0 evalTypeS InitIteration
          stats0 = None ->
        checkConvergence optLoc0 InitIteration stats0 settings
        = NotTerminated ->
        h0 = ((h2S ++ [EvSince])
                ++ [EvRecord optLoc0 evalTypeS InitIteration stats0])
               ++ [EvCheckConvergence optLoc0 InitIteration stats0] ->
        Local (n + S fuel) pkg f initX settings_opt method_opt hL
        = Val (Some (Some (Result.mk optLoc
                             (with_Runtime (time_Since pkg h5) stats2)
                             status'),
                     Some e))
            (h5 ++ [EvSince])).
Proof.
  intros Hrec loc0 x0 Hinit Hreach Hstat Heval Hupd status h4 h5 Hfail.
  destruct (@minimize_loop_Record_failure settings method funcInfo st h r
              loc stats1 h2 optLoc stats2 h3 e fuel
              Hrec Hstat Heval Hupd Hfail)
    as (status' & Hloop & HF & HS).
  fold status in HF, HS. fold h4 in Hloop. fold h5 in Hloop.
  assert (Hmin : minimize (n + S fuel) pkg settings method funcInfo stats0
                   optLoc0 h0
                 = Val (Some (status', Some e, optLoc, stats2)) h5).
  { unfold minimize, bind, call, ret. fold loc0. fold x0. rewrite Hinit.
    cbv beta iota. rewrite (reaches_loop Hreach (S fuel)), Hloop.
    reflexivity. }
  exists status'. split; [exact Hmin|]. split; [exact HF|].
  split; [exact HS|].
  intros f initX settings_opt method_opt hL h1 evalTypeS statsS h2S
    Hsetup Hstart Hstats Hrec0 Hcheck Hh0.
  subst h0.
  eapply Local_returns_minimize_error;
    [ exact Hsetup
    | exact Hstart
    | intros r' Hr'; rewrite Hrec in Hr'; inversion Hr'; subst r';
      rewrite <- Hstats; exact Hrec0
    | rewrite <- Hstats; exact Hcheck
    | rewrite <- Hstats, Hrec; exact Hmin ].
Qed.

(** C9, as the code has it. In the loop of [minimize] every progress
    report comes right after the convergence check of the same pass (same
    iteration kind, same statistics); for the starting location [Local]
    reports first and checks afterwards; and [checkConvergence] only
    computes a status: its call leaves nothing behind but its place in the
    history. *)
Theorem progress_report_order :
  (forall fuel settings method funcInfo stats optLoc h,
      exists ev,
        state_of (minimize fuel pkg settings method funcInfo stats optLoc h)
        = h ++ ev /\
        recordsFollowChecks None ev) /\
  (forall fuel f initX settings method h
          funcInfo method' settings' h1 optLoc evalType stats h2 r,
      Local_setup pkg f initX settings method h
      = Val (inr (funcInfo, method', settings')) h1 ->
      getStartingLocation funcInfo method' initX Stats.empty settings' h1
      = Val (optLoc, evalType, None, stats) h2 ->
      Settings.Recorder settings' = Some r ->
      let stats' := with_Runtime (time_Since pkg h2) stats in
      exists rest,
        state_of (Local fuel pkg f initX settings method h)
        = h2 ++ [EvSince;
                 EvRecord optLoc evalType InitIteration stats';
                 EvCheckConvergence optLoc InitIteration stats'] ++ rest) /\
  (forall loc iterType stats settings h,
      run_checkConvergence loc iterType stats settings h
      = Val (checkConvergence loc iterType stats settings)
          (h ++ [EvCheckConvergence loc iterType stats])).
Proof.
  split; [|split].
  - intros. apply minimize_hist.
  - intros. eapply Local_start_order; eassumption.
  - reflexivity.
Qed.

End Minimize.

(** ** The best-known location *)

Section BestKnown.

Context {Function : Type} (pkg : Package Function).

Lemma minimize_body_state settings method funcInfo st h step h' :
  minimize_body pkg settings method funcInfo st h = Val step h' ->
  step_state step = st \/
  ls_optLoc (step_state step)
  = (if math.le (F (ls_loc (step_state step))) (F (ls_optLoc st))
     then copyLocation (ls_optLoc st) (ls_loc (step_state step))
     else ls_optLoc st).
Proof.
  unfold minimize_body, bind.
  match goal with
  | |- context [match ?m h with _ => _ end] =>
      destruct (m h) as [[status err] h1|p h1]
  end; [|discriminate].
  destruct (isSome err || negb (Status_eqb status NotTerminated)).
  { intros H. inversion H. left. reflexivity. }
  destruct (run_evaluate funcInfo (ls_evalType st) (ls_xNext st) (ls_loc st)
              (ls_stats st) h1) as [[loc stats] h2|p h2]; [|discriminate].
  rewrite update_eq. unfold run_checkConvergence, run_Record, call, ret.
  cbv beta iota.
  set (optLoc := if math.le (F loc) (F (ls_optLoc st)) then _ else _).
  match goal with
  | |- ?run = _ -> _ =>
      assert (G : forall step0 h0,
                 run = Val step0 h0 ->
                 ls_loc (step_state step0) = loc /\
                 ls_optLoc (step_state step0) = optLoc)
  end.
  { intros step0 h0.
    repeat (cbv beta iota;
            match goal with
            | |- context [match ?x with _ => _ end] =>
                lazymatch x with
                | context [match _ with _ => _ end] => fail
                | _ => destruct x
                end
            end);
      intros H; inversion H; subst; simpl; split; reflexivity. }
  intros H. right. apply G in H. destruct H as [H1 H2].
  rewrite H2, H1. reflexivity.
Qed.

Lemma minimize_body_best settings method funcInfo st h step h' :
  math.IsNaN (F (ls_optLoc st)) = false ->
  minimize_body pkg settings method funcInfo st h = Val step h' ->
  math.IsNaN (F (ls_optLoc (step_state step))) = false /\
  math.le (F (ls_optLoc (step_state step))) (F (ls_optLoc st)) = true /\
  (step_state step = st \/
   (math.IsNaN (F (ls_loc (step_state step))) = false ->
    math.le (F (ls_optLoc (step_state step))) (F (ls_loc (step_state step)))
    = true)).
Proof.
  intros Hn H. apply minimize_body_state in H. destruct H as [-> | H].
  - repeat split; auto. apply le_refl, Hn.
  - rewrite H. set (loc := ls_loc (step_state step)).
    destruct (math.le (F loc) (F (ls_optLoc st))) eqn:E.
    + rewrite copyLocation_F.
      assert (Hl : math.IsNaN (F loc) = false) by (apply le_key in E; tauto).
      repeat split; auto. right. intros _. apply le_refl, Hl.
    + repeat split; auto.
      * apply le_refl, Hn.
      * right. intros Hl. apply le_total; assumption.
Qed.

Lemma last_default {A : Type} (a : A) (l : list A) (d d' : A) :
  last (a :: l) d = last (a :: l) d'.
Proof.
  revert a. induction l as [|b l IH]; intros a; [reflexivity|].
  exact (IH b).
Qed.

Lemma last_cons {A : Type} (x : A) (l : list A) (d : A) :
  last (x :: l) d = last l x.
Proof.
  destruct l as [|a l]; [reflexivity|].
  change (last (a :: l) d = last (a :: l) x). apply last_default.
Qed.

Lemma passes_best settings method funcInfo st h sts :
  passes pkg settings method funcInfo st h sts ->
  bestBelowWorking st ->
  bestBelowWorking (last sts st) /\
  math.le (F (ls_optLoc (last sts st))) (F (ls_optLoc st)) = true /\
  forall s,
    In s sts ->
    math.IsNaN (F (ls_loc s)) = false ->
    math.le (F (ls_optLoc (last sts st))) (F (ls_loc s)) = true.
Proof.
  assert (Step : forall st0 h0 step h1,
             bestBelowWorking st0 ->
             minimize_body pkg settings method funcInfo st0 h0 = Val step h1 ->
             bestBelowWorking (step_state step) /\
             math.le (F (ls_optLoc (step_state step))) (F (ls_optLoc st0))
             = true).
  { intros st0 h0 step h1 [Hn Hw] H.
    destruct (minimize_body_best _ _ _ _ _ Hn H) as (N & L & [E | W]).
    - rewrite E. repeat split; auto. apply le_refl, Hn.
    - repeat split; auto. }
  induction 1 as [st h | st h status err st' h' H
                 | st h st' h' sts H Hp IH]; intros Hinv.
  - simpl. split; [exact Hinv|]. split; [apply le_refl, Hinv|].
    intros s [].
  - destruct (Step _ _ _ _ Hinv H) as [I1 L1]. simpl in I1, L1 |- *.
    split; [exact I1|]. split; [exact L1|].
    intros s [<- | []] Hs. apply I1, Hs.
  - destruct (Step _ _ _ _ Hinv H) as [I1 L1]. simpl in I1, L1.
    destruct (IH I1) as (I2 & L2 & W2).
    assert (E : last (st' :: sts) st = last sts st') by apply last_cons.
    rewrite E. split; [exact I2|]. split.
    + apply le_trans with (F (ls_optLoc st')); assumption.
    + intros s [<- | Hin] Hs.
      * apply le_trans with (F (ls_optLoc st')); [exact L2|].
        apply I1, Hs.
      * apply W2; assumption.
Qed.

(** The states [minimize_loop] goes through are passes of the loop. *)
Lemma minimize_loop_passes fuel settings method funcInfo :
  forall st h status err st' h',
    minimize_loop fuel pkg settings method funcInfo st h
    = Val (Some (status, err, st')) h' ->
    exists sts,
      passes pkg settings method funcInfo st h sts /\ last sts st = st'.
Proof.
  induction fuel as [|fuel IH]; intros st h status err st' h'; simpl.
  - discriminate.
  - unfold bind.
    destruct (minimize_body pkg settings method funcInfo st h)
      as [[s e st1|st1] h1|p h1] eqn:E; try discriminate.
    + intros H. inversion H; subst. exists [st'].
      split; [eapply passes_return; exact E | reflexivity].
    + intros H. destruct (IH _ _ _ _ _ _ H) as (sts & P & L).
      exists (st1 :: sts). split; [eapply passes_continue; eassumption|].
      rewrite <- L. apply last_cons.
Qed.

(** [minimize] enters its loop with the working location a copy of the
    best-known one. *)
Lemma copy_bestBelowWorking optLoc stats xNext evalType iterType :
  math.IsNaN (F optLoc) = false ->
  bestBelowWorking
    (mkLoopState (copyLocation emptyLocation optLoc) optLoc stats xNext
       evalType iterType).
Proof.
  intros H. split; simpl; [exact H|]. intros _. apply le_refl, H.
Qed.

(** What [minimize] leaves in [*optLoc] is never above what it found
    there. *)
Corollary minimize_best_le fuel settings method funcInfo stats optLoc h
    status err optLoc' stats' h' :
  math.IsNaN (F optLoc) = false ->
  minimize fuel pkg settings method funcInfo stats optLoc h
  = Val (Some (status, err, optLoc', stats')) h' ->
  math.le (F optLoc') (F optLoc) = true.
Proof.
  intros Hn. unfold minimize, bind, call, ret.
  destruct (Method_Init method h _ funcInfo _) as [[[et it] e] xn].
  destruct e as [e|].
  - intros H. inversion H; subst. apply le_refl, Hn.
  - match goal with
    | |- context [minimize_loop fuel pkg settings method funcInfo ?st ?h1] =>
        destruct (minimize_loop fuel pkg settings method funcInfo st h1)
          as [[[[s e] st']|] h2|p h2] eqn:E
    end; try discriminate.
    intros H. inversion H; subst.
    destruct (minimize_loop_passes _ _ _ _ _ _ E) as (sts & P & L).
    pose proof (@copy_bestBelowWorking optLoc stats xn et it Hn) as I0.
    destruct (passes_best P I0) as (_ & Lb & _).
    rewrite L in Lb. exact Lb.
Qed.

(** C4, as the code has it. [update] copies the working location over the
    best-known one exactly when the working [F] is [<=] the best-known [F]
    (so a tie goes to the newer point), and the copy carries the working
    point and its value; through the passes of the loop of [minimize],
    entered with a best-known [F] that is not NaN, the best-known [F] never
    goes up and is [<=] the [F] of every working location seen so far whose
    [F] is not NaN. *)
Theorem best_known_invariant :
  (forall loc optLoc stats iterType h,
      exists stats',
        update pkg loc optLoc stats iterType h
        = Val (if math.le (F loc) (F optLoc)
               then copyLocation optLoc loc
               else optLoc, stats') (h ++ [EvSince]) /\
        X (copyLocation optLoc loc) = X loc /\
        F (copyLocation optLoc loc) = F loc) /\
  (forall settings method funcInfo st h sts,
      bestBelowWorking st ->
      passes pkg settings method funcInfo st h sts ->
      math.le (F (ls_optLoc (last sts st))) (F (ls_optLoc st)) = true /\
      forall s,
        In s sts ->
        math.IsNaN (F (ls_loc s)) = false ->
        math.le (F (ls_optLoc (last sts st))) (F (ls_loc s)) = true).
Proof.
  split.
  - intros loc optLoc stats iterType h. rewrite update_eq. eexists.
    split; [reflexivity|]. split; [apply copyLocation_X | reflexivity].
  - intros settings method funcInfo st h sts Hinv Hp.
    destruct (passes_best Hp Hinv) as (_ & L & W). split; assumption.
Qed.

(** What [getDefaultMethod] does on each capability set. *)
Lemma getDefaultMethod_eq (funcInfo : functionInfo) h :
  getDefaultMethod pkg funcInfo h =
  if IsGradient funcInfo || IsFunctionGradient funcInfo
  then Val (BFGS pkg) h
  else Panic (PanicString "optimize: gradient-free methods not yet coded") h.
Proof.
  unfold getDefaultMethod.
  destruct (IsGradient funcInfo || IsFunctionGradient funcInfo); reflexivity.
Qed.

(** A starting location that passes the checks of [getStartingLocation]
    has a function value that is not NaN. *)
Lemma getStartingLocation_F funcInfo method initX stats settings h
    loc evalType stats' h' :
  getStartingLocation funcInfo method initX stats settings h
  = Val (loc, evalType, None, stats') h' ->
  math.IsNaN (F loc) = false.
Proof.
  intros H. apply getStartingLocation_err in H. unfold startingError in H.
  destruct (math.IsNaN (F loc)); [discriminate | reflexivity].
Qed.

End BestKnown.

(** * Further properties of the driver *)

(** ** invalidate *)

Ltac unfold_evaluate :=
  unfold evaluate, unsupported, invalidate, call_Func, call_Grad, call_Hess,
    call_FuncGrad, call_FuncGradHess, set_stats, set_loc, get_loc,
    bind, when, modify, ret, panic.

(** Case analysis on the scrutinee of an innermost [match] of the goal. *)
Ltac destruct_innermost :=
  repeat (cbv beta iota;
          cbn [fr_loc fr_stats fr_hist X F Gradient Hessian
               with_X with_F with_Gradient with_Hessian];
          match goal with
          | |- context [match ?x with _ => _ end] =>
              lazymatch x with
              | context [match _ with _ => _ end] => fail
              | _ => destruct x
              end
          end).

(** X1. [invalidate] panics exactly when it is asked to mark a tracked
    gradient of length 0 or a tracked Hessian of order 0, and then with an
    index-out-of-range panic; when it returns, [F] is NaN if [f] was set,
    the first gradient component is NaN if [grad] was set and a gradient
    is tracked, the cell (0, 0) of the Hessian is NaN if [hess] was set
    and a Hessian is tracked, and nothing else has changed: the point, the
    statistics and the history of calls are as before. *)
Theorem invalidate_effect f grad hess fr :
  ((exists p fr', invalidate f grad hess fr = Panic p fr') <->
   (grad = true /\ Gradient (fr_loc fr) = Some []) \/
   (hess = true /\
    exists m, Hessian (fr_loc fr) = Some m /\ mat64.Symmetric m = 0%nat)) /\
  (forall p fr', invalidate f grad hess fr = Panic p fr' ->
                 p = PanicIndexOutOfRange) /\
  (forall fr',
      invalidate f grad hess fr = Val tt fr' ->
      X (fr_loc fr') = X (fr_loc fr) /\
      F (fr_loc fr') = (if f then math.NaN else F (fr_loc fr)) /\
      Gradient (fr_loc fr')
      = (if grad then option_map markFirst (Gradient (fr_loc fr))
         else Gradient (fr_loc fr)) /\
      Hessian (fr_loc fr')
      = (if hess
         then match Hessian (fr_loc fr) with
              | Some m => mat64.SetSym m 0 0 math.NaN
              | None => None
              end
         else Hessian (fr_loc fr)) /\
      fr_stats fr' = fr_stats fr /\ fr_hist fr' = fr_hist fr).
Proof.
  destruct fr as [[x fv g hs] st h].
  unfold invalidate, bind, when, set_loc, modify, get_loc, ret, panic.
  split; [|split].
  - destruct f, grad, hess, g as [[|g0 g]|], hs as [[|row rows]|];
      cbn - [mat64.NewSymDense];
      (split;
       [ intros (p & fr' & H);
         first [ discriminate H
               | left; split; reflexivity
               | right; split; [reflexivity|]; eexists; split; reflexivity ]
       | intros [[H1 H2] | [H1 (m' & H2 & H3)]];
         first [ do 2 eexists; reflexivity
               | discriminate
               | inversion H2; subst; discriminate ] ]).
  - destruct f, grad, hess, g as [[|g0 g]|], hs as [m|]; simpl;
      try destruct (mat64.SetSym m 0 0 math.NaN); simpl;
      intros p fr' H; inversion H; reflexivity.
  - destruct f, grad, hess, g as [[|g0 g]|], hs as [m|]; simpl;
      try destruct (mat64.SetSym m 0 0 math.NaN); simpl;
      intros fr' H; inversion H; simpl; repeat split.
Qed.

(** ** evaluate *)

Lemma evaluate_panic_untouched funcInfo evalType xNext fr p fr' :
  evaluate funcInfo evalType xNext fr = Panic p fr' ->
  fr_stats fr' = fr_stats fr /\ fr_hist fr' = fr_hist fr /\
  X (fr_loc fr') = evaluationPoint (fr_loc fr) xNext.
Proof.
  destruct fr as [[x f g hs] st h]. unfold_evaluate. unfold evaluationPoint.
  simpl. destruct (floats.Equal x xNext); simpl.
  all: destruct_innermost; intros H; inversion H; simpl; auto.
Qed.

Lemma evaluate_counts funcInfo evalType xNext fr fr' :
  evaluate funcInfo evalType xNext fr = Val tt fr' ->
  exists ev,
    fr_hist fr' = fr_hist fr ++ ev /\
    fr_stats fr' = bump ev (fr_stats fr) /\
    length (objectiveCalls ev) = length ev /\
    (length ev <= 3)%nat /\
    X (fr_loc fr') = evaluationPoint (fr_loc fr) xNext.
Proof.
  destruct fr as [[x f g hs] st h]. unfold_evaluate. unfold evaluationPoint.
  simpl. destruct (floats.Equal x xNext); simpl.
  all: destruct_innermost; intros H; inversion H; simpl;
    (eexists;
     split;
     [ rewrite <- ?app_assoc; try (symmetry; apply app_nil_r); reflexivity|]);
    simpl; repeat split; auto.
Qed.

(** X2. Whatever is requested of [evaluate], a call that returns has
    appended to the history at most three events, all of them objective
    calls, and has incremented the counter of each call's kind once per
    call; a call that panics leaves the statistics and the history as
    they were (no objective call was made). In both cases [loc.X] holds
    the candidate point, copied in if it differed. *)
Theorem evaluate_accounting funcInfo evalType xNext fr :
  match evaluate funcInfo evalType xNext fr with
  | Val _ fr' =>
      exists ev,
        fr_hist fr' = fr_hist fr ++ ev /\
        fr_stats fr' = bump ev (fr_stats fr) /\
        length (objectiveCalls ev) = length ev /\
        (length ev <= 3)%nat /\
        X (fr_loc fr') = evaluationPoint (fr_loc fr) xNext
  | Panic _ fr' =>
      fr_stats fr' = fr_stats fr /\ fr_hist fr' = fr_hist fr /\
      X (fr_loc fr') = evaluationPoint (fr_loc fr) xNext
  end.
Proof.
  destruct (evaluate funcInfo evalType xNext fr) as [[] fr'|p fr'] eqn:E.
  - apply evaluate_counts with (1 := E).
  - apply evaluate_panic_untouched with (1 := E).
Qed.

Lemma copy_length {A : Type} (dst src : list A) :
  length (Go.copy dst src) = length dst.
Proof.
  unfold Go.copy. rewrite length_app, length_firstn, length_skipn. lia.
Qed.

Section EvaluateRequests.

Variables (funcInfo : functionInfo) (xNext : list float64) (fr : Frame).

(** X3. At a point that differs from [loc.X], [evaluate] marks what the
    request leaves stale: a function evaluation marks the gradient and the
    Hessian; a bare gradient call marks [F] and the Hessian; a bare
    Hessian call marks [F] and the gradient; function and gradient, served
    by the combined or by the bare calls, mark the Hessian. The tracked
    gradient and Hessian are assumed to have a first component. *)
Theorem evaluate_marks_stale_fields :
  floats.Equal (X (fr_loc fr)) xNext = false ->
  gradientHasFirst (fr_loc fr) ->
  hessianHasFirstCell (fr_loc fr) ->
  (exists fr',
      evaluate funcInfo FuncEvaluation xNext fr = Val tt fr' /\
      gradientMarked (fr_loc fr') /\ hessianMarked (fr_loc fr')) /\
  (IsGradient funcInfo = true ->
   exists fr',
     evaluate funcInfo GradEvaluation xNext fr = Val tt fr' /\
     math.IsNaN (F (fr_loc fr')) = true /\ hessianMarked (fr_loc fr')) /\
  (IsHessian funcInfo = true ->
   exists fr',
     evaluate funcInfo HessEvaluation xNext fr = Val tt fr' /\
     math.IsNaN (F (fr_loc fr')) = true /\ gradientMarked (fr_loc fr')) /\
  (IsFunctionGradient funcInfo || IsGradient funcInfo = true ->
   exists fr',
     evaluate funcInfo FuncGradEvaluation xNext fr = Val tt fr' /\
     hessianMarked (fr_loc fr')).
Proof.
  destruct fr as [[x f g hs] st h].
  unfold gradientHasFirst, hessianHasFirstCell, gradientMarked, hessianMarked.
  simpl. intros HE HG HH.
  destruct g as [[|g0 g]|]; try contradiction;
    destruct hs as [[|[|c r] rows]|]; try contradiction.
  all: repeat split.
  all: try (intros Hcap); unfold_evaluate; simpl; rewrite HE; simpl;
    try rewrite Hcap; simpl.
  all: try (eexists; repeat split; fail).
  all: try (destruct (IsFunctionGradient funcInfo); simpl in *;
            [|rewrite Hcap]; simpl;
            try destruct (functionGradient_FuncGrad funcInfo _ _ _);
            eexists; repeat split).
Qed.

(** X4. A function evaluation always succeeds (every objective has
    [Func]): one call of the function at the evaluation point, the
    function counter incremented, [F] set to the value returned. *)
Theorem evaluate_FuncEvaluation :
  gradientHasFirst (fr_loc fr) ->
  hessianMarkable (fr_loc fr) ->
  let x := evaluationPoint (fr_loc fr) xNext in
  exists fr',
    evaluate funcInfo FuncEvaluation xNext fr = Val tt fr' /\
    fr_hist fr' = fr_hist fr ++ [EvFunc x] /\
    fr_stats fr' = incr_FuncEvaluations (fr_stats fr) /\
    X (fr_loc fr') = x /\
    F (fr_loc fr') = function_Func funcInfo (fr_hist fr) x.
Proof.
  destruct fr as [[x0 f0 g0 hs] st h].
  unfold gradientHasFirst, hessianMarkable, evaluationPoint. simpl.
  intros HG HM.
  assert (S00 : match hs with
                | Some m => exists m', mat64.SetSym m 0 0 math.NaN = Some m'
                | None => True
                end).
  { destruct hs; [apply SetSym_first_cell; exact HM | exact I]. }
  unfold_evaluate. simpl.
  destruct (floats.Equal x0 xNext); simpl.
  - eexists. repeat split.
  - destruct g0 as [[|g1 g0]|]; try contradiction;
      (destruct hs as [m|]; [destruct S00 as [m' ->]|]); simpl;
      eexists; repeat split.
Qed.

(** X5. A request for the gradient alone is served, in this priority, by
    the bare gradient call; otherwise by the combined function+gradient
    call (which also sets [F]); otherwise by the combined triple call, on
    a Hessian newly allocated if none is tracked; otherwise [evaluate]
    panics without calling the objective or touching the counters. *)
Theorem evaluate_GradEvaluation_dispatch :
  hessianMarkable (fr_loc fr) ->
  let x := evaluationPoint (fr_loc fr) xNext in
  (IsGradient funcInfo = true ->
   exists fr',
     evaluate funcInfo GradEvaluation xNext fr = Val tt fr' /\
     fr_hist fr' = fr_hist fr ++ [EvGrad x] /\
     fr_stats fr' = incr_GradEvaluations (fr_stats fr) /\
     Gradient (fr_loc fr')
     = gradient_Grad funcInfo (fr_hist fr) x (Gradient (fr_loc fr))) /\
  (IsGradient funcInfo = false ->
   IsFunctionGradient funcInfo = true ->
   exists fr',
     evaluate funcInfo GradEvaluation xNext fr = Val tt fr' /\
     fr_hist fr' = fr_hist fr ++ [EvFuncGrad x] /\
     fr_stats fr' = incr_FuncGradEvaluations (fr_stats fr) /\
     (F (fr_loc fr'), Gradient (fr_loc fr'))
     = functionGradient_FuncGrad funcInfo (fr_hist fr) x
         (Gradient (fr_loc fr))) /\
  (IsGradient funcInfo = false ->
   IsFunctionGradient funcInfo = false ->
   IsFunctionGradientHessian funcInfo = true ->
   exists fr',
     evaluate funcInfo GradEvaluation xNext fr = Val tt fr' /\
     fr_hist fr' = fr_hist fr ++ [EvFuncGradHess x] /\
     fr_stats fr' = incr_FuncGradHessEvaluations (fr_stats fr) /\
     (F (fr_loc fr'), Gradient (fr_loc fr'), Hessian (fr_loc fr'))
     = functionGradientHessian_FuncGradHess funcInfo (fr_hist fr) x
         (Gradient (fr_loc fr)) (hessianOrNew (fr_loc fr))) /\
  (IsGradient funcInfo = false ->
   IsFunctionGradient funcInfo = false ->
   IsFunctionGradientHessian funcInfo = false ->
   exists fr',
     evaluate funcInfo GradEvaluation xNext fr
     = Panic (PanicUnsupported GradEvaluation) fr' /\
     fr_hist fr' = fr_hist fr /\
     fr_stats fr' = fr_stats fr).
Proof.
  destruct fr as [[x0 f0 g0 hs] st h].
  unfold hessianMarkable, evaluationPoint, hessianOrNew. simpl. intros HM.
  assert (S00 : match hs with
                | Some m => exists m', mat64.SetSym m 0 0 math.NaN = Some m'
                | None => True
                end).
  { destruct hs; [apply SetSym_first_cell; exact HM | exact I]. }
  repeat split.
  - intros G. unfold_evaluate. simpl. rewrite G.
    destruct (floats.Equal x0 xNext); simpl.
    + eexists. repeat split.
    + destruct hs as [m|]; [destruct S00 as [m' ->]|]; simpl;
        eexists; repeat split.
  - intros G FG. unfold_evaluate. simpl. rewrite G, FG.
    destruct (floats.Equal x0 xNext); simpl.
    + destruct (functionGradient_FuncGrad funcInfo h x0 g0).
      eexists. repeat split.
    + destruct hs as [m|]; [destruct S00 as [m' ->]|]; simpl;
        destruct (functionGradient_FuncGrad funcInfo h _ g0);
        eexists; repeat split.
  - intros G FG FGH. unfold_evaluate. simpl. rewrite G, FG, FGH.
    destruct (floats.Equal x0 xNext); simpl;
      destruct hs as [m|]; simpl; rewrite ?copy_length;
      destruct (functionGradientHessian_FuncGradHess funcInfo h _ g0 _)
        as [[? ?] ?];
      eexists; repeat split.
  - intros G FG FGH. unfold_evaluate. simpl. rewrite G, FG, FGH.
    destruct (floats.Equal x0 xNext); simpl; eexists; repeat split.
Qed.

(** X6. A request for the Hessian alone is served by the bare Hessian
    call; otherwise by the combined triple call, on a gradient newly
    allocated if none is tracked; otherwise [evaluate] panics without
    calling the objective or touching the counters. *)
Theorem evaluate_HessEvaluation_dispatch :
  gradientHasFirst (fr_loc fr) ->
  let x := evaluationPoint (fr_loc fr) xNext in
  (IsHessian funcInfo = true ->
   exists fr',
     evaluate funcInfo HessEvaluation xNext fr = Val tt fr' /\
     fr_hist fr' = fr_hist fr ++ [EvHess x] /\
     fr_stats fr' = incr_HessEvaluations (fr_stats fr) /\
     Hessian (fr_loc fr')
     = hessian_Hess funcInfo (fr_hist fr) x (Hessian (fr_loc fr))) /\
  (IsHessian funcInfo = false ->
   IsFunctionGradientHessian funcInfo = true ->
   exists fr',
     evaluate funcInfo HessEvaluation xNext fr = Val tt fr' /\
     fr_hist fr' = fr_hist fr ++ [EvFuncGradHess x] /\
     fr_stats fr' = incr_FuncGradHessEvaluations (fr_stats fr) /\
     (F (fr_loc fr'), Gradient (fr_loc fr'), Hessian (fr_loc fr'))
     = functionGradientHessian_FuncGradHess funcInfo (fr_hist fr) x
         (gradientOrNew (fr_loc fr)) (Hessian (fr_loc fr))) /\
  (IsHessian funcInfo = false ->
   IsFunctionGradientHessian funcInfo = false ->
   exists fr',
     evaluate funcInfo HessEvaluation xNext fr
     = Panic (PanicUnsupported HessEvaluation) fr' /\
     fr_hist fr' = fr_hist fr /\
     fr_stats fr' = fr_stats fr).
Proof.
  destruct fr as [[x0 f0 g0 hs] st h].
  unfold gradientHasFirst, evaluationPoint, gradientOrNew. simpl. intros HG.
  repeat split.
  - intros H. unfold_evaluate. simpl. rewrite H.
    destruct (floats.Equal x0 xNext); simpl.
    + eexists. repeat split.
    + destruct g0 as [[|g1 g0]|]; try contradiction; simpl;
        eexists; repeat split.
  - intros H FGH. unfold_evaluate. simpl. rewrite H, FGH.
    destruct (floats.Equal x0 xNext); simpl;
      destruct g0 as [g0|]; simpl; rewrite ?copy_length;
      destruct (functionGradientHessian_FuncGradHess funcInfo h _ _ hs)
        as [[? ?] ?];
      eexists; repeat split.
  - intros H FGH. unfold_evaluate. simpl. rewrite H, FGH.
    destruct (floats.Equal x0 xNext); simpl; eexists; repeat split.
Qed.

(** X7. A request for function, gradient and Hessian is served by the
    combined triple call; otherwise, when the objective has both the bare
    gradient and the bare Hessian, by the three bare calls in the order
    function, gradient, Hessian, each with its counter; otherwise
    [evaluate] panics without calling the objective or touching the
    counters. Nothing is marked stale, at a new point or not. *)
Theorem evaluate_FuncGradHessEvaluation_dispatch :
  let x := evaluationPoint (fr_loc fr) xNext in
  (IsFunctionGradientHessian funcInfo = true ->
   exists fr',
     evaluate funcInfo FuncGradHessEvaluation xNext fr = Val tt fr' /\
     fr_hist fr' = fr_hist fr ++ [EvFuncGradHess x] /\
     fr_stats fr' = incr_FuncGradHessEvaluations (fr_stats fr) /\
     (F (fr_loc fr'), Gradient (fr_loc fr'), Hessian (fr_loc fr'))
     = functionGradientHessian_FuncGradHess funcInfo (fr_hist fr) x
         (Gradient (fr_loc fr)) (Hessian (fr_loc fr))) /\
  (IsFunctionGradientHessian funcInfo = false ->
   IsGradient funcInfo && IsHessian funcInfo = true ->
   exists fr',
     evaluate funcInfo FuncGradHessEvaluation xNext fr = Val tt fr' /\
     fr_hist fr' = fr_hist fr ++ [EvFunc x; EvGrad x; EvHess x] /\
     fr_stats fr' =
       incr_HessEvaluations
         (incr_GradEvaluations (incr_FuncEvaluations (fr_stats fr)))) /\
  (IsFunctionGradientHessian funcInfo = false ->
   IsGradient funcInfo && IsHessian funcInfo = false ->
   exists fr',
     evaluate funcInfo FuncGradHessEvaluation xNext fr
     = Panic (PanicUnsupported FuncGradHessEvaluation) fr' /\
     fr_hist fr' = fr_hist fr /\
     fr_stats fr' = fr_stats fr).
Proof.
  destruct fr as [[x0 f0 g0 hs] st h]. unfold evaluationPoint. simpl.
  repeat split.
  - intros FGH. unfold_evaluate. simpl. rewrite FGH.
    destruct (floats.Equal x0 xNext); simpl;
      destruct (functionGradientHessian_FuncGradHess funcInfo h _ g0 hs)
        as [[? ?] ?];
      eexists; repeat split.
  - intros FGH GH. unfold_evaluate. simpl. rewrite FGH, GH.
    destruct (floats.Equal x0 xNext); simpl; eexists; repeat split;
      rewrite <- !app_assoc; reflexivity.
  - intros FGH GH. unfold_evaluate. simpl. rewrite FGH, GH.
    destruct (floats.Equal x0 xNext); simpl; eexists; repeat split.
Qed.

End EvaluateRequests.

(** ** copyLocation *)

Lemma NewSymDense_square n : isSquare n (mat64.NewSymDense n).
Proof.
  unfold isSquare, mat64.NewSymDense. split; [apply repeat_length|].
  apply Forall_forall. intros row Hin. apply repeat_spec in Hin. subst.
  apply repeat_length.
Qed.

Lemma CopySym_square n (dst src : mat64.SymDense) :
  isSquare n dst -> isSquare n src -> mat64.CopySym dst src = src.
Proof.
  intros [Ld Fd] [Ls Fs]. rewrite <- Ls in Ld. clear Ls.
  revert src Ld Fs. induction dst as [|d dst IH]; intros [|s src] Ld Fs;
    try discriminate; [reflexivity|].
  simpl. inversion Fd; subst. inversion Fs; subst. f_equal.
  - apply copy_same_length. congruence.
  - apply IH; auto.
Qed.

(** X8. [copyLocation] always gives the destination the point and the
    function value of the source; a source that tracks no Hessian leaves
    the destination's Hessian as it was; and when the source is well
    formed (gradient and Hessian of the dimension of the point) and the
    destination tracks nothing the source does not, the destination
    becomes equal to the source. *)
Theorem copyLocation_exact (dst src : Location) :
  (X (copyLocation dst src) = X src /\ F (copyLocation dst src) = F src) /\
  (Hessian src = None -> Hessian (copyLocation dst src) = Hessian dst) /\
  (wellFormedLocation src -> fits dst src -> copyLocation dst src = src).
Proof.
  split; [split; [apply copyLocation_X | reflexivity]|].
  split.
  - intros H. unfold copyLocation. simpl. rewrite H. reflexivity.
  - intros [WG WH] (FG & FH & FS).
    destruct src as [sx sf sg sh], dst as [dx df dg dh]. simpl in *.
    unfold copyLocation. simpl. f_equal.
    + apply copy_same_length, resize_length.
    + destruct sg as [g|].
      * destruct (WG g eq_refl) as [Lg Ng].
        unfold resize_nilable, copy_nilable. simpl.
        destruct (Nat.ltb_spec (Go.len dg) (length g)).
        -- f_equal. apply copy_same_length, repeat_length.
        -- destruct dg as [d|]; simpl in *.
           ++ f_equal. apply copy_same_length. rewrite length_firstn. lia.
           ++ destruct g; [congruence | simpl in *; lia].
      * rewrite (FG eq_refl). reflexivity.
    + destruct sh as [m|].
      * f_equal. pose proof (WH m eq_refl) as Sq.
        apply CopySym_square with (n := length sx); [|exact Sq].
        destruct dh as [hd|]; [|apply NewSymDense_square].
        unfold mat64.Symmetric.
        destruct (Nat.eqb_spec (length hd) (length sx)) as [E|E]; simpl.
        -- rewrite <- E. apply FS. reflexivity.
        -- apply NewSymDense_square.
      * apply FH. reflexivity.
Qed.

(** ** checkConvergence: the limits *)

Section Limits.

Variables (loc : Location) (iterType : IterationType).
Variables (stats : Stats.t) (settings : Settings.t).

Lemma reached_spec cap total :
  (0 <? cap)%Z && (cap <=? total)%Z = true <-> reached cap total.
Proof. unfold reached. rewrite andb_true_iff, Z.ltb_lt, Z.leb_le. tauto. Qed.

Lemma checkConvergence_limitStatus :
  noThreshold loc iterType settings ->
  checkConvergence loc iterType stats settings
  = limitStatus loc iterType stats settings.
Proof.
  intros NT. unfold checkConvergence.
  destruct (IterationType_eqb iterType MajorIteration
            || IterationType_eqb iterType InitIteration) eqn:E;
    [|reflexivity].
  assert (G : gated iterType).
  { unfold gated. destruct iterType; simpl in E; auto; discriminate. }
  destruct (NT G) as [NG NF].
  unfold thresholdStatus.
  destruct (Gradient loc) as [g|] eqn:EG.
  - destruct (math.lt (floats.Norm g (math.Inf 1))
                (Settings.GradientAbsTol settings)) eqn:EL.
    + exfalso. apply NG. exists g. auto.
    + rewrite NF. reflexivity.
  - rewrite NF. reflexivity.
Qed.

(** X9. When no threshold rule fires and [F] is not negative infinity,
    the limits are checked in the order function evaluations, gradient
    evaluations, Hessian evaluations, runtime, major iterations, and the
    first one that is set (positive) and reached decides: the combined
    calls count towards every total they feed, the iteration limit is
    looked at on major iterations only, and [NotTerminated] is returned
    exactly when no limit is set and reached. *)
Theorem checkConvergence_limits :
  noThreshold loc iterType settings ->
  math.IsInf (F loc) (-1) = false ->
  let rF := reached (Settings.FuncEvaluations settings) (funcTotal stats) in
  let rG := reached (Settings.GradEvaluations settings) (gradTotal stats) in
  let rH := reached (Settings.HessEvaluations settings) (hessTotal stats) in
  let rT := reached (Settings.Runtime settings) (Stats.Runtime stats) in
  let rI :=
    iterType = MajorIteration /\
    reached (Settings.MajorIterations settings)
      (Stats.MajorIterations stats) in
  let status := checkConvergence loc iterType stats settings in
  (status = FunctionEvaluationLimit <-> rF) /\
  (status = GradientEvaluationLimit <-> ~ rF /\ rG) /\
  (status = HessianEvaluationLimit <-> ~ rF /\ ~ rG /\ rH) /\
  (status = RuntimeLimit <-> ~ rF /\ ~ rG /\ ~ rH /\ rT) /\
  (status = IterationLimit <-> ~ rF /\ ~ rG /\ ~ rH /\ ~ rT /\ rI) /\
  (status = NotTerminated <-> ~ rF /\ ~ rG /\ ~ rH /\ ~ rT /\ ~ rI).
Proof.
  intros NT NI. cbv zeta. rewrite (checkConvergence_limitStatus NT).
  unfold limitStatus. rewrite NI.
  fold (funcTotal stats) (gradTotal stats) (hessTotal stats).
  pose proof (reached_spec (Settings.FuncEvaluations settings)
                (funcTotal stats)) as SF.
  pose proof (reached_spec (Settings.GradEvaluations settings)
                (gradTotal stats)) as SG.
  pose proof (reached_spec (Settings.HessEvaluations settings)
                (hessTotal stats)) as SH.
  pose proof (reached_spec (Settings.Runtime settings)
                (Stats.Runtime stats)) as ST.
  pose proof (reached_spec (Settings.MajorIterations settings)
                (Stats.MajorIterations stats)) as SI.
  assert (SM : IterationType_eqb iterType MajorIteration = true
               <-> iterType = MajorIteration).
  { destruct iterType; simpl; split; intros; try discriminate; reflexivity. }
  rewrite <- andb_assoc.
  destruct ((0 <? Settings.FuncEvaluations settings)%Z
            && (Settings.FuncEvaluations settings <=? funcTotal stats)%Z);
    [intuition (try discriminate; try congruence)|].
  destruct ((0 <? Settings.GradEvaluations settings)%Z
            && (Settings.GradEvaluations settings <=? gradTotal stats)%Z);
    [intuition (try discriminate; try congruence)|].
  destruct ((0 <? Settings.HessEvaluations settings)%Z
            && (Settings.HessEvaluations settings <=? hessTotal stats)%Z);
    [intuition (try discriminate; try congruence)|].
  destruct ((0 <? Settings.Runtime settings)%Z
            && (Settings.Runtime settings <=? Stats.Runtime stats)%Z);
    [intuition (try discriminate; try congruence)|].
  destruct (IterationType_eqb iterType MajorIteration);
    destruct ((0 <? Settings.MajorIterations settings)%Z
              && (Settings.MajorIterations settings
                  <=? Stats.MajorIterations stats)%Z);
    simpl; intuition (try discriminate; try congruence).
Qed.

(** X10. A function value of negative infinity always ends the run:
    whatever the iteration kind, the statistics and the limits,
    [checkConvergence] returns one of the two threshold statuses or
    [FunctionNegativeInfinity], never [NotTerminated] and never a limit
    status. *)
Theorem checkConvergence_negative_infinity_terminal :
  math.IsInf (F loc) (-1) = true ->
  checkConvergence loc iterType stats settings = GradientThreshhold \/
  checkConvergence loc iterType stats settings = FunctionThreshhold \/
  checkConvergence loc iterType stats settings = FunctionNegativeInfinity.
Proof.
  intros H. unfold checkConvergence, thresholdStatus, limitStatus. rewrite H.
  repeat match goal with
         | |- context [if ?b then _ else _] => destruct b
         | |- context [match ?x with _ => _ end] => destruct x
         end; auto.
Qed.

End Limits.

(** ** The evaluation counters through the run *)

Lemma bump_app a b s : bump (a ++ b) s = bump b (bump a s).
Proof. apply fold_left_app. Qed.

Lemma bump_reportEvents recorder loc evalType iterType stats s :
  bump (reportEvents recorder loc evalType iterType stats) s = s.
Proof. destruct recorder; reflexivity. Qed.

Lemma sameCounters_refl s : sameCounters s s.
Proof. repeat split. Qed.

Lemma sameCounters_trans a b c :
  sameCounters a b -> sameCounters b c -> sameCounters a c.
Proof. unfold sameCounters. intuition congruence. Qed.

Lemma sameCounters_bump ev : forall a b,
  sameCounters a b -> sameCounters (bump ev a) (bump ev b).
Proof.
  induction ev as [|e ev IH]; intros a b H; [exact H|].
  simpl. apply IH. unfold sameCounters in *.
  destruct e; simpl; intuition congruence.
Qed.

Lemma sameCounters_Runtime r s : sameCounters (with_Runtime r s) s.
Proof. repeat split. Qed.

Lemma sameCounters_Major s : sameCounters (incr_MajorIterations s) s.
Proof. repeat split. Qed.

Lemma run_evaluate_counts funcInfo evalType xNext loc stats h loc' stats' h' :
  run_evaluate funcInfo evalType xNext loc stats h = Val (loc', stats') h' ->
  exists ev,
    h' = h ++ ev /\ stats' = bump ev stats /\
    length (objectiveCalls ev) = length ev /\
    X loc' = evaluationPoint loc xNext.
Proof.
  unfold run_evaluate.
  destruct (evaluate funcInfo evalType xNext (mkFrame loc stats h))
    as [[] fr'|p fr'] eqn:E; [|discriminate].
  intros H. inversion H; subst.
  apply evaluate_counts in E. destruct E as (ev & E1 & E2 & E3 & _ & E4).
  exists ev. auto.
Qed.

(** ** getStartingLocation *)

Lemma copy_zeros_init (initX : list float64) :
  Go.copy (repeat math.zero (length initX)) initX = initX.
Proof. apply copy_same_length, repeat_length. Qed.

Lemma copy_self {A : Type} (x : list A) : Go.copy x x = x.
Proof. apply copy_same_length. reflexivity. Qed.

Lemma evaluationPoint_self loc : evaluationPoint loc (X loc) = X loc.
Proof.
  unfold evaluationPoint. destruct (floats.Equal (X loc) (X loc));
    [reflexivity | apply copy_self].
Qed.

Lemma startingError_None loc :
  startingError loc = None <-> startingFault loc = false.
Proof.
  unfold startingError, startingFault.
  destruct (math.IsNaN (F loc)); simpl; [split; discriminate|].
  destruct (math.IsInf (F loc) 1); simpl; [split; discriminate|].
  generalize (match Gradient loc with Some g => g | None => [] end).
  induction l as [|v l IH]; simpl; [tauto|].
  unfold badComponent at 1.
  destruct (math.IsInf v 0); simpl; [split; discriminate|].
  destruct (math.IsNaN v); simpl; [split; discriminate|]. exact IH.
Qed.

Lemma getStartingLocation_events funcInfo method initX stats settings h
    loc evalType err stats' h' :
  getStartingLocation funcInfo method initX stats settings h
  = Val (loc, evalType, err, stats') h' ->
  X loc = initX /\
  evalType = (if Settings.UseInitialData settings then NoEvaluation
              else if Needs_Gradient method then FuncGradEvaluation
              else FuncEvaluation) /\
  exists ev,
    h' = h ++ ev /\ stats' = bump ev stats /\
    length (objectiveCalls ev) = length ev /\
    (Settings.UseInitialData settings = true -> ev = []).
Proof.
  unfold getStartingLocation, bind, ret, panic.
  rewrite copy_zeros_init.
  destruct (Settings.UseInitialData settings).
  - destruct (Needs_Gradient method), (Needs_Hessian method); simpl;
      repeat match goal with
             | |- context [if ?b then _ else _] => destruct b
             end;
      intros H; inversion H; subst; simpl;
      (split; [reflexivity|]); (split; [reflexivity|]);
      exists []; rewrite app_nil_r; auto.
  - match goal with
    | |- context [run_evaluate funcInfo ?et ?x ?l stats h] =>
        destruct (run_evaluate funcInfo et x l stats h)
          as [[loc1 stats1] h1|p h1] eqn:E
    end; [|discriminate].
    intros H. inversion H; subst.
    apply run_evaluate_counts in E.
    destruct E as (ev & -> & -> & Hc & HX).
    split.
    { rewrite HX.
      destruct (Needs_Gradient method), (Needs_Hessian method); simpl;
        rewrite evaluationPoint_self; reflexivity. }
    split.
    { destruct (Needs_Gradient method), (Needs_Hessian method); reflexivity. }
    exists ev. repeat split; auto. discriminate.
Qed.

(** X11. What [getStartingLocation] returns, when it returns: the
    location is at [initX]; the evaluation type reported is
    [NoEvaluation] when the initial data of the settings were used, and
    otherwise [FuncGradEvaluation] or [FuncEvaluation] as the method needs
    the gradient or not; the error is nil exactly when the function value
    is neither NaN nor +Inf and no gradient component is NaN or infinite
    (so a value of -Inf is accepted); the only calls made are objective
    calls, each counted in the statistics, and none at all with initial
    data. *)
Theorem getStartingLocation_result funcInfo method initX stats settings h
    loc evalType err stats' h' :
  getStartingLocation funcInfo method initX stats settings h
  = Val (loc, evalType, err, stats') h' ->
  X loc = initX /\
  evalType = (if Settings.UseInitialData settings then NoEvaluation
              else if Needs_Gradient method then FuncGradEvaluation
              else FuncEvaluation) /\
  (err = None <-> startingFault loc = false) /\
  exists ev,
    h' = h ++ ev /\ stats' = bump ev stats /\
    length (objectiveCalls ev) = length ev /\
    (Settings.UseInitialData settings = true -> ev = []).
Proof.
  intros H.
  pose proof (getStartingLocation_err _ _ _ _ _ _ H) as He.
  apply getStartingLocation_events in H. destruct H as (HX & Ht & Hev).
  repeat split; try assumption; rewrite He; apply startingError_None.
Qed.

(** X12. With [UseInitialData], the starting location is built from the
    settings alone, without any call: [F] is the initial function value;
    when the method needs the gradient, the initial gradient must have the
    dimension of [initX], else [getStartingLocation] panics, and it is
    copied; a Hessian, when the method needs one, is the zero matrix. *)
Theorem getStartingLocation_initial_data funcInfo method initX stats settings h :
  Settings.UseInitialData settings = true ->
  let dim := length initX in
  let initG := Settings.InitialGradient settings in
  if Needs_Gradient method && negb (Go.len initG =? dim)%nat
  then getStartingLocation funcInfo method initX stats settings h
       = Panic (PanicString "optimize: initial location size mismatch") h
  else
    exists loc,
      getStartingLocation funcInfo method initX stats settings h
      = Val (loc, NoEvaluation, startingError loc, stats) h /\
      X loc = initX /\
      F loc = Settings.InitialFunctionValue settings /\
      Gradient loc
      = (if Needs_Gradient method
         then Some match initG with Some g => g | None => [] end
         else None) /\
      Hessian loc
      = (if Needs_Hessian method then Some (mat64.NewSymDense dim) else None).
Proof.
  intros U dim initG.
  unfold getStartingLocation, bind, ret, panic. rewrite U, copy_zeros_init.
  fold dim. fold initG.
  destruct (Needs_Gradient method); simpl.
  - destruct (Needs_Hessian method); simpl.
    all: destruct (Go.len initG =? dim)%nat eqn:E; simpl; [|reflexivity].
    all: eexists; split; [reflexivity|]; simpl; repeat split.
    all: apply Nat.eqb_eq in E; f_equal.
    all: destruct initG as [g|]; simpl in *.
    all: unfold Go.copy; rewrite repeat_length.
    all: try (rewrite <- E, firstn_all, skipn_all2;
              [apply app_nil_r | rewrite repeat_length; lia]).
    all: rewrite <- E; reflexivity.
  - destruct (Needs_Hessian method); simpl;
      eexists; split; try reflexivity; simpl; repeat split.
Qed.

(** ** minimize and Local *)

Section Run.

Context {Function : Type} (pkg : Package Function).

Lemma minimize_body_counts settings method funcInfo st h step h' :
  minimize_body pkg settings method funcInfo st h = Val step h' ->
  exists ev,
    h' = h ++ ev /\
    sameCounters (ls_stats (step_state step)) (bump ev (ls_stats st)).
Proof.
  unfold minimize_body, bind.
  match goal with
  | |- context [match ?m h with _ => _ end] =>
      assert (E1 : exists status err pre,
                 m h = Val (status, err) (h ++ pre) /\
                 forall s, bump pre s = s)
  end.
  { unfold call, ret. destruct (IsStatuser funcInfo).
    - destruct (statuser_Status funcInfo h) as [s e].
      exists s, e, [EvFunctionStatus]. split; reflexivity.
    - exists NotTerminated, None, []. rewrite app_nil_r. split; reflexivity. }
  destruct E1 as (status & err & pre & E1 & Npre). rewrite E1. clear E1.
  destruct (isSome err || negb (Status_eqb status NotTerminated)).
  { intros H. inversion H; subst. exists pre. split; [reflexivity|].
    simpl. rewrite Npre. apply sameCounters_refl. }
  destruct (run_evaluate funcInfo (ls_evalType st) (ls_xNext st) (ls_loc st)
              (ls_stats st) (h ++ pre)) as [[loc stats] h2|p h2] eqn:E;
    [|discriminate].
  apply run_evaluate_counts in E. destruct E as (ev0 & -> & -> & _ & _).
  rewrite update_eq. unfold run_checkConvergence, run_Record, call, ret.
  cbv beta iota.
  set (optLoc := if math.le (F loc) (F (ls_optLoc st)) then _ else _).
  set (stats' := with_Runtime _ _).
  assert (SC : sameCounters stats' (bump ev0 (ls_stats st))).
  { subst stats'. eapply sameCounters_trans; [apply sameCounters_Runtime|].
    destruct (IterationType_eqb (ls_iterType st) MajorIteration);
      [apply sameCounters_Major | apply sameCounters_refl]. }
  clearbody stats' optLoc.
  assert (L : forall step0 (hist : History) tail,
             hist = h ++ pre ++ ev0 ++ tail ->
             (forall s, bump tail s = s) ->
             ls_stats (step_state step0) = stats' ->
             exists ev,
               hist = h ++ ev /\
               sameCounters (ls_stats (step_state step0))
                 (bump ev (ls_stats st))).
  { intros step0 hist tail -> Nt Es. eexists. split; [reflexivity|].
    rewrite Es, !bump_app, Nt, Npre. exact SC. }
  destruct_innermost; intros H; inversion H; subst;
    (eapply L;
     [ rewrite <- !app_assoc; simpl; reflexivity
     | intros ?; reflexivity
     | reflexivity ]).
Qed.

Lemma minimize_loop_counts fuel settings method funcInfo :
  forall st h r h',
    minimize_loop fuel pkg settings method funcInfo st h = Val (Some r) h' ->
    exists ev,
      h' = h ++ ev /\
      sameCounters (ls_stats (snd r)) (bump ev (ls_stats st)).
Proof.
  induction fuel as [|fuel IH]; intros st h r h'; simpl; [discriminate|].
  unfold bind.
  destruct (minimize_body pkg settings method funcInfo st h)
    as [[s e st1|st1] h1|p h1] eqn:E; try discriminate.
  - intros H. inversion H; subst. simpl.
    apply minimize_body_counts in E. exact E.
  - intros H. apply minimize_body_counts in E.
    destruct E as (ev1 & -> & S1).
    destruct (IH _ _ _ _ H) as (ev2 & -> & S2).
    exists (ev1 ++ ev2). split; [symmetry; apply app_assoc|].
    rewrite bump_app. eapply sameCounters_trans; [exact S2|].
    apply sameCounters_bump. exact S1.
Qed.

Lemma minimize_counts fuel settings method funcInfo stats optLoc h
    status err optLoc' stats' h' :
  minimize fuel pkg settings method funcInfo stats optLoc h
  = Val (Some (status, err, optLoc', stats')) h' ->
  exists ev, h' = h ++ ev /\ sameCounters stats' (bump ev stats).
Proof.
  unfold minimize, bind, call, ret.
  destruct (Method_Init method h _ funcInfo _) as [[[et it] e] xn].
  destruct e as [e|].
  - intros H. inversion H; subst. eexists. split; [reflexivity|].
    apply sameCounters_refl.
  - match goal with
    | |- context [minimize_loop fuel pkg settings method funcInfo ?st ?h1] =>
        destruct (minimize_loop fuel pkg settings method funcInfo st h1)
          as [[[[s e] st']|] h2|p h2] eqn:E
    end; try discriminate.
    intros H. inversion H; subst.
    apply minimize_loop_counts in E. destruct E as (ev & -> & SC).
    eexists. split; [rewrite <- app_assoc; reflexivity|].
    rewrite bump_app. exact SC.
Qed.

Lemma Local_setup_hist f initX settings method h r h1 :
  Local_setup pkg f initX settings method h = Val r h1 ->
  exists ev, h1 = h ++ ev /\ forall s, bump ev s = s.
Proof.
  unfold Local_setup, getDefaultMethod, bind, ret, panic, call.
  assert (L : forall (h0 hist : History) tail,
             hist = h0 ++ tail -> (forall s, bump tail s = s) ->
             exists ev, hist = h0 ++ ev /\ forall s, bump ev s = s).
  { intros h0 hist tail -> ?. exists tail. auto. }
  destruct_innermost; intros H; inversion H; subst;
    (eapply L;
     [ rewrite <- ?app_assoc; simpl;
       try (symmetry; apply app_nil_r); reflexivity
     | intros ?; reflexivity ]).
Qed.

Lemma minimize_body_terminal settings method funcInfo st h status err st' h' :
  minimize_body pkg settings method funcInfo st h
  = Val (Return status err st') h' ->
  terminal status err = true.
Proof.
  unfold minimize_body, bind, terminal.
  match goal with
  | |- context [match ?m h with _ => _ end] =>
      destruct (m h) as [[status0 err0] h1|p h1]
  end; [|discriminate].
  destruct (isSome err0 || negb (Status_eqb status0 NotTerminated)) eqn:E0.
  { intros H. inversion H; subst. exact E0. }
  destruct (run_evaluate funcInfo (ls_evalType st) (ls_xNext st) (ls_loc st)
              (ls_stats st) h1) as [[loc stats] h2|p h2]; [|discriminate].
  rewrite update_eq. unfold run_checkConvergence, run_Record, call, ret.
  cbv beta iota.
  set (optLoc := if math.le (F loc) (F (ls_optLoc st)) then _ else _).
  clearbody optLoc.
  set (goal := isSome err || negb (Status_eqb status NotTerminated) = true).
  repeat (cbv beta iota;
          match goal with
          | |- context [match ?x with _ => _ end] =>
              lazymatch x with
              | context [match _ with _ => _ end] => fail
              | _ => destruct x eqn:?
              end
          end);
    intros H; inversion H; subst; subst goal; simpl; auto;
    try congruence.
Qed.

Lemma minimize_loop_terminal fuel settings method funcInfo :
  forall st h status err st' h',
    minimize_loop fuel pkg settings method funcInfo st h
    = Val (Some (status, err, st')) h' ->
    terminal status err = true.
Proof.
  induction fuel as [|fuel IH]; intros st h status err st' h'; simpl;
    [discriminate|].
  unfold bind.
  destruct (minimize_body pkg settings method funcInfo st h)
    as [[s e st1|st1] h1|p h1] eqn:E; try discriminate.
  - intros H. inversion H; subst. eapply minimize_body_terminal, E.
  - apply IH.
Qed.

Lemma minimize_returns_terminal fuel settings method funcInfo stats optLoc h
    status err optLoc' stats' h' :
  minimize fuel pkg settings method funcInfo stats optLoc h
  = Val (Some (status, err, optLoc', stats')) h' ->
  terminal status err = true.
Proof.
  unfold minimize, bind, call, ret.
  destruct (Method_Init method h _ funcInfo _) as [[[et it] e] xn].
  destruct e as [e|].
  - intros H. inversion H; subst. reflexivity.
  - match goal with
    | |- context [minimize_loop fuel pkg settings method funcInfo ?st ?h1] =>
        destruct (minimize_loop fuel pkg settings method funcInfo st h1)
          as [[[[s e] st']|] h2|p h2] eqn:E
    end; try discriminate.
    intros H. inversion H; subst. eapply minimize_loop_terminal, E.
Qed.

(** X13. [minimize] returns before any evaluation, leaving [*optLoc] and
    [*stats] untouched, when the method's [Init] fails (status [Failure]
    with that error, after the one call of [Init]), and when the first
    probe of the objective's status reports an error or a status other
    than [NotTerminated] (that status and error, after the calls of
    [Init] and [Status]). *)
Theorem minimize_early_exit fuel settings method (funcInfo : functionInfo)
    stats optLoc h evalType iterType err xNext :
  let loc := copyLocation emptyLocation optLoc in
  let h1 := h ++ [EvMethodInit loc (repeat math.zero (length (X loc)))] in
  Method_Init method h loc funcInfo (repeat math.zero (length (X loc)))
  = (evalType, iterType, err, xNext) ->
  (forall e,
      err = Some e ->
      minimize fuel pkg settings method funcInfo stats optLoc h
      = Val (Some (Failure, Some e, optLoc, stats)) h1) /\
  (forall status e,
      err = None ->
      IsStatuser funcInfo = true ->
      statuser_Status funcInfo h1 = (status, e) ->
      terminal status e = true ->
      minimize (S fuel) pkg settings method funcInfo stats optLoc h
      = Val (Some (status, e, optLoc, stats)) (h1 ++ [EvFunctionStatus])).
Proof.
  intros loc h1 Hinit. split.
  - intros e ->. unfold minimize, bind, call, ret. fold loc.
    rewrite Hinit. reflexivity.
  - intros status e -> Hs Hstat Ht.
    unfold minimize, bind, call, ret. fold loc. rewrite Hinit.
    cbn [minimize_loop]. unfold bind, minimize_body, bind, call, ret.
    rewrite Hs. fold h1. rewrite Hstat. unfold terminal in Ht. rewrite Ht.
    reflexivity.
Qed.

(** X14. [minimize] never returns [NotTerminated] together with a nil
    error: whenever it returns, there is an error or the status says why
    the run stopped. *)
Theorem minimize_terminal fuel settings method funcInfo stats optLoc h
    status err optLoc' stats' h' :
  minimize fuel pkg settings method funcInfo stats optLoc h
  = Val (Some (status, err, optLoc', stats')) h' ->
  ~ (status = NotTerminated /\ err = None).
Proof.
  intros H [-> ->]. apply minimize_returns_terminal in H. discriminate H.
Qed.

(** [Local] taken apart: what a call that returns a result went
    through. *)
Lemma Local_inv fuel f initX settings method h res err h' :
  Local fuel pkg f initX settings method h = Val (Some (Some res, err)) h' ->
  exists funcInfo method' settings' h1 loc evalType stats0 h2,
    Local_setup pkg f initX settings method h
    = Val (inr (funcInfo, method', settings')) h1 /\
    getStartingLocation funcInfo method' initX Stats.empty settings' h1
    = Val (loc, evalType, None, stats0) h2 /\
    let recorder := Settings.Recorder settings' in
    let stats1 := with_Runtime (time_Since pkg h2) stats0 in
    let h3 := h2 ++ [EvSince] in
    let err0 :=
      match recorder with
      | Some r => Recorder_Record r h3 loc evalType InitIteration stats1
      | None => None
      end in
    let h4 :=
      (h3 ++ reportEvents recorder loc evalType InitIteration stats1)
        ++ [EvCheckConvergence loc InitIteration stats1] in
    let status0 := checkConvergence loc InitIteration stats1 settings' in
    exists status err1 optLoc stats2 h5,
      (if Status_eqb status0 NotTerminated && negb (isSome err0)
       then minimize fuel pkg settings' method' funcInfo stats1 loc h4
       else Val (Some (status0, err0, loc, stats1)) h4)
      = Val (Some (status, err1, optLoc, stats2)) h5 /\
      let final :=
        match err1 with
        | None =>
            reportEvents recorder optLoc NoEvaluation PostIteration stats2
        | Some _ => []
        end in
      err = match recorder, err1 with
            | Some r, None =>
                Recorder_Record r h5 optLoc NoEvaluation PostIteration stats2
            | _, _ => err1
            end /\
      h' = (h5 ++ final) ++ [EvSince] /\
      res = Result.mk optLoc
              (with_Runtime (time_Since pkg (h5 ++ final)) stats2) status.
Proof.
  unfold Local, bind.
  destruct (Local_setup pkg f initX settings method h)
    as [[e|[[funcInfo method'] settings']] h1|p h1] eqn:E1; try discriminate.
  destruct (getStartingLocation funcInfo method' initX Stats.empty settings' h1)
    as [[[[loc evalType] [e|]] stats0] h2|p h2] eqn:E2; try discriminate.
  unfold run_Record, run_checkConvergence, call, ret, reportEvents.
  cbv beta iota. intros H.
  exists funcInfo, method', settings', h1, loc, evalType, stats0, h2.
  split; [reflexivity|]. split; [exact E2|]. clear E1 E2.
  revert H. cbv beta iota zeta.
  destruct (Settings.Recorder settings') as [r|]; cbv beta iota;
    rewrite ?app_nil_r.
  all: match goal with
       | |- context [Status_eqb ?a NotTerminated && negb (isSome ?b)] =>
           destruct (Status_eqb a NotTerminated && negb (isSome b))
       end; cbv beta iota.
  all: try match goal with
           | |- context [minimize ?a ?b ?c ?d ?e ?f ?g ?hh] =>
               destruct (minimize a b c d e f g hh)
                 as [[[[[status err1] optLoc] stats2]|] h5|p h5]
           end; cbv beta iota; try discriminate.
  all: try match goal with
           | |- context [match ?x with Some _ => _ | None => _ end] =>
               destruct x
           end; cbv beta iota.
  all: intros H; inversion H; subst; do 5 eexists;
    (split; [reflexivity|]); cbv beta iota zeta; rewrite ?app_nil_r;
    repeat split.
  all: destruct err; rewrite ?app_nil_r; reflexivity.
Qed.

(** X15. The early exits of [Local], with a method given or not: an
    empty [initX] panics before anything is called; given no method, an
    objective for which there is no default method panics as well; and,
    for the method in use (the one given or the default), an objective
    that does not satisfy it, a failing probe of the objective's status
    and a failing initialization of the recorder each make [Local] return
    that error with a nil result, the history showing that the objective
    was never evaluated. *)
Theorem Local_early_returns fuel f initX settings method h :
  let funcInfo := newFunctionInfo pkg f in
  let settings' :=
    match settings with
    | Some s => s
    | None => DefaultSettings pkg
    end in
  (initX = [] ->
   Local fuel pkg f initX settings method h
   = Panic (PanicString "optimize: initial X has zero length") h) /\
  (initX <> [] ->
   (methodInUse pkg funcInfo method = None ->
    Local fuel pkg f initX settings method h
    = Panic (PanicString "optimize: gradient-free methods not yet coded") h)
   /\
   (forall m,
       methodInUse pkg funcInfo method = Some m ->
       (forall e,
           satisfies pkg funcInfo m = Some e ->
           Local fuel pkg f initX settings method h
           = Val (Some (None, Some e)) h) /\
       (forall status e,
           satisfies pkg funcInfo m = None ->
           IsStatuser funcInfo = true ->
           statuser_Status funcInfo h = (status, Some e) ->
           Local fuel pkg f initX settings method h
           = Val (Some (None, Some e)) (h ++ [EvFunctionStatus])) /\
       (forall r e,
           satisfies pkg funcInfo m = None ->
           (IsStatuser funcInfo = true ->
            snd (statuser_Status funcInfo h) = None) ->
           Settings.Recorder settings' = Some r ->
           Recorder_Init r (h ++ probeEvents funcInfo) = Some e ->
           Local fuel pkg f initX settings method h
           = Val (Some (None, Some e))
               ((h ++ probeEvents funcInfo) ++ [EvRecorderInit])))).
Proof.
  intros funcInfo settings'. split.
  - intros ->. reflexivity.
  - intros Hx.
    assert (Hl : (length initX =? 0)%nat = false).
    { destruct initX; [congruence | reflexivity]. }
    assert (Hm : forall m,
               methodInUse pkg funcInfo method = Some m ->
               match method with
               | Some m0 => ret m0
               | None => getDefaultMethod pkg funcInfo
               end h = Val m h).
    { intros m. unfold methodInUse, getDefaultMethod, ret.
      destruct method as [m0|].
      - intros H. inversion H. reflexivity.
      - destruct (IsGradient funcInfo || IsFunctionGradient funcInfo);
          intros H; inversion H. reflexivity. }
    unfold Local, Local_setup, bind. rewrite Hl. fold funcInfo.
    split.
    + unfold methodInUse, getDefaultMethod, panic.
      destruct method as [m0|]; [discriminate|].
      destruct (IsGradient funcInfo || IsFunctionGradient funcInfo);
        [discriminate | reflexivity].
    + intros m Hin. rewrite (Hm m Hin). unfold ret, call. cbv beta iota.
      repeat split.
      * intros e ->. reflexivity.
      * intros status e -> -> Hst. rewrite Hst. reflexivity.
      * intros r e -> Hst Hr Hi. unfold probeEvents in *. fold settings'.
        destruct (IsStatuser funcInfo).
        -- specialize (Hst eq_refl).
           destruct (statuser_Status funcInfo h) as [s e0]. simpl in Hst.
           subst e0. rewrite Hr. rewrite Hi. reflexivity.
        -- rewrite Hr. rewrite app_nil_r in *. rewrite Hi. reflexivity.
Qed.

(** X16. What [Local] returns is never silent about why it stopped: a nil
    result always comes with an error, and a result whose status is
    [NotTerminated] always comes with an error. *)
Theorem Local_terminal fuel f initX settings method h res err h' :
  Local fuel pkg f initX settings method h = Val (Some (res, err)) h' ->
  match res with
  | Some r => terminal (Result.Status r) err = true
  | None => isSome err = true
  end.
Proof.
  destruct res as [res|].
  - intros H. apply Local_inv in H.
    destruct H as (funcInfo & method' & settings' & h1 & loc & evalType
                   & stats0 & h2 & _ & _ & H).
    cbv zeta in H.
    destruct H as (status & err1 & optLoc & stats2 & h5 & Hrun & -> & _ & ->).
    assert (T : terminal status err1 = true).
    { revert Hrun.
      match goal with
      | |- (if ?c then _ else _) = _ -> _ => destruct c eqn:Ec
      end.
      - apply minimize_returns_terminal.
      - intros Hrun. inversion Hrun; subst. unfold terminal.
        revert Ec.
        match goal with
        | |- Status_eqb ?s _ && negb (isSome ?e) = false -> _ =>
            destruct (Status_eqb s NotTerminated), (isSome e)
        end; simpl; congruence. }
    simpl. unfold terminal in *.
    destruct err1 as [e1|].
    + destruct (Settings.Recorder settings'); reflexivity.
    + simpl in T. rewrite T. apply orb_true_r.
  - unfold Local, bind, ret.
    destruct (Local_setup pkg f initX settings method h)
      as [[e|[[funcInfo method'] settings']] h1|p h1]; try discriminate.
    { intros H. inversion H. reflexivity. }
    destruct (getStartingLocation funcInfo method' initX Stats.empty settings' h1)
      as [[[[loc evalType] [e|]] stats0] h2|p h2]; try discriminate.
    { intros H. inversion H. reflexivity. }
    unfold run_Record, run_checkConvergence, call.
    destruct_innermost; discriminate.
Qed.

(** X17. The evaluation counters of the statistics [Local] returns are
    exactly the objective calls of the run: each call made between entry
    and return, at the start or inside the loop, incremented the counter
    of its kind once, and nothing else touched the counters. *)
Theorem Local_counts fuel f initX settings method h res err h' :
  Local fuel pkg f initX settings method h = Val (Some (Some res, err)) h' ->
  exists ev,
    h' = h ++ ev /\ sameCounters (Result.Stats res) (bump ev Stats.empty).
Proof.
  intros H. apply Local_inv in H.
  destruct H as (funcInfo & method' & settings' & h1 & loc & evalType & stats0
                 & h2 & Hsetup & Hstart & H).
  cbv zeta in H.
  destruct H as (status & err1 & optLoc & stats2 & h5 & Hrun & _ & -> & ->).
  apply Local_setup_hist in Hsetup. destruct Hsetup as (ev0 & -> & N0).
  apply getStartingLocation_events in Hstart.
  destruct Hstart as (_ & _ & ev1 & -> & -> & _ & _).
  set (recorder := Settings.Recorder settings') in *.
  set (stats1 := with_Runtime _ (bump ev1 Stats.empty)) in *.
  assert (Hm : exists ev2,
             h5 = (h ++ ev0) ++ ev1 ++ [EvSince]
                    ++ reportEvents recorder loc evalType InitIteration stats1
                    ++ [EvCheckConvergence loc InitIteration stats1] ++ ev2 /\
             sameCounters stats2 (bump ev2 stats1)).
  { revert Hrun.
    match goal with |- (if ?c then _ else _) = _ -> _ => destruct c end.
    - intros Hrun. apply minimize_counts in Hrun.
      destruct Hrun as (ev2 & -> & SC). exists ev2. split; [|exact SC].
      rewrite <- !app_assoc. reflexivity.
    - intros Hrun. inversion Hrun; subst. exists []. split.
      + rewrite <- !app_assoc. rewrite app_nil_r. reflexivity.
      + apply sameCounters_refl. }
  destruct Hm as (ev2 & -> & SC).
  eexists. split; [rewrite <- !app_assoc; reflexivity|].
  assert (B1 : forall s, bump [EvSince] s = s) by reflexivity.
  assert (B2 : forall l i st s, bump [EvCheckConvergence l i st] s = s)
    by reflexivity.
  assert (B3 : forall s,
             bump match err1 with
                  | Some _ => []
                  | None =>
                      reportEvents recorder optLoc NoEvaluation PostIteration
                        stats2
                  end s = s).
  { intros s. destruct err1; [reflexivity | apply bump_reportEvents]. }
  rewrite !bump_app, N0, !B1, B2, B3, bump_reportEvents.
  cbn [Result.Stats].
  eapply sameCounters_trans; [apply sameCounters_Runtime|].
  eapply sameCounters_trans; [exact SC|].
  apply sameCounters_bump. apply sameCounters_Runtime.
Qed.

(** X18. The location [Local] returns is never worse than the starting
    one: its function value is not NaN and is [<=] the function value of
    the starting location (which is itself neither NaN nor +Inf). *)
Theorem Local_best_le_start fuel f initX settings method h res err h'
    funcInfo method' settings' h1 loc evalType err0 stats0 h2 :
  Local_setup pkg f initX settings method h
  = Val (inr (funcInfo, method', settings')) h1 ->
  getStartingLocation funcInfo method' initX Stats.empty settings' h1
  = Val (loc, evalType, err0, stats0) h2 ->
  Local fuel pkg f initX settings method h = Val (Some (Some res, err)) h' ->
  math.IsNaN (F (Result.Location res)) = false /\
  math.IsInf (F loc) 1 = false /\
  math.le (F (Result.Location res)) (F loc) = true.
Proof.
  intros Hsetup Hstart H. apply Local_inv in H.
  destruct H as (funcInfo1 & method1 & settings1 & h1' & loc1 & evalType1
                 & stats1 & h2' & Hsetup' & Hstart' & H).
  rewrite Hsetup in Hsetup'. inversion Hsetup'; subst. clear Hsetup'.
  rewrite Hstart in Hstart'. inversion Hstart'; subst. clear Hstart'.
  cbv zeta in H.
  destruct H as (status & err1 & optLoc & stats2 & h5 & Hrun & _ & _ & ->).
  simpl.
  pose proof (getStartingLocation_F _ _ _ _ _ _ Hstart) as Hn.
  assert (Hi : math.IsInf (F loc1) 1 = false).
  { apply getStartingLocation_err in Hstart. unfold startingError in Hstart.
    rewrite Hn in Hstart.
    destruct (math.IsInf (F loc1) 1); [discriminate | reflexivity]. }
  assert (L : math.le (F optLoc) (F loc1) = true).
  { revert Hrun.
    match goal with |- (if ?c then _ else _) = _ -> _ => destruct c end.
    - apply minimize_best_le. exact Hn.
    - intros Hrun. inversion Hrun; subst. apply le_refl, Hn. }
  repeat split; auto.
  apply le_key in L. tauto.
Qed.

(** X19. When [Local] returns a result with a nil error, the last thing
    it did before reading the clock for [Runtime] was to send the returned
    location to the recorder, if there is one, as [PostIteration] with
    [NoEvaluation]; the statistics returned are those reported but for the
    runtime, read after the report. *)
Theorem Local_final_report fuel f initX settings method h res h'
    funcInfo method' settings' h1 :
  Local_setup pkg f initX settings method h
  = Val (inr (funcInfo, method', settings')) h1 ->
  Local fuel pkg f initX settings method h = Val (Some (Some res, None)) h' ->
  exists before stats,
    let report :=
      reportEvents (Settings.Recorder settings') (Result.Location res)
        NoEvaluation PostIteration stats in
    h' = (before ++ report) ++ [EvSince] /\
    Result.Stats res = with_Runtime (time_Since pkg (before ++ report)) stats.
Proof.
  intros Hsetup H. apply Local_inv in H.
  destruct H as (funcInfo1 & method1 & settings1 & h1' & loc1 & evalType1
                 & stats1 & h2' & Hsetup' & Hstart' & H).
  rewrite Hsetup in Hsetup'. inversion Hsetup'; subst. clear Hsetup'.
  cbv zeta in H.
  destruct H as (status & err1 & optLoc & stats2 & h5 & _ & He & -> & ->).
  exists h5, stats2. simpl.
  destruct err1 as [e1|].
  - destruct (Settings.Recorder settings1); discriminate.
  - split; reflexivity.
Qed.

End Run.

(** * The properties at concrete inputs *)

Section Instances.

Import Fixtures.

(** ** C1 *)

(** With a bare gradient and the combined triple but no combined
    function+gradient, the specification's order gives the triple call;
    [evaluate] calls the bare function and the bare gradient. *)
Lemma FuncGrad_dispatch_counterexample :
  specFuncGradDispatch caps_gradient_triple = [CombinedFuncGradHess] /\
  evaluate (objective caps_gradient_triple) FuncGradEvaluation [f64_two]
    (mkFrame loc_one Stats.empty [])
  = Val tt (mkFrame loc_two stats_evaluated
              [EvFunc [f64_two]; EvGrad [f64_two]]) /\
  objectiveCalls [EvFunc [f64_two]; EvGrad [f64_two]]
  = [BareFunction; BareGradient].
Proof. repeat split. Qed.

Lemma evaluate_FuncGradEvaluation_dispatch_witness :
  hessianMarkable loc_one /\
  exists fr',
    evaluate (objective caps_gradient_triple) FuncGradEvaluation [f64_two]
      (mkFrame loc_one Stats.empty [])
    = Val tt fr' /\
    fr_hist fr' = [] ++ [EvFunc [f64_two]; EvGrad [f64_two]] /\
    fr_stats fr' = incr_GradEvaluations (incr_FuncEvaluations Stats.empty).
Proof.
  split; [exact I|].
  apply (proj1 (proj2 (evaluate_FuncGradEvaluation_dispatch
                         (objective caps_gradient_triple) [f64_two]
                         (mkFrame loc_one Stats.empty []) I)));
    reflexivity.
Defined.

(** ** C2 *)

(** On a major iteration with a function tolerance of 0, a function value
    of negative infinity is reported as [FunctionThreshhold]. *)
Lemma negative_infinity_counterexample :
  math.IsInf (F loc_neg_inf) (-1) = true /\
  checkConvergence loc_neg_inf MajorIteration Stats.empty
    (settings_with math.zero 0%Z None)
  = FunctionThreshhold.
Proof. split; reflexivity. Qed.

Lemma checkConvergence_negative_infinity_witness :
  math.IsInf (F loc_neg_inf) (-1) = true /\
  checkConvergence loc_neg_inf MinorIteration Stats.empty
    (settings_with math.zero 0%Z None)
  = FunctionNegativeInfinity.
Proof.
  split; [reflexivity|].
  apply checkConvergence_negative_infinity; [reflexivity|].
  left. intros [H | H]; discriminate H.
Defined.

(** ** C3 *)

Lemma checkConvergence_threshold_rules_witness :
  checkConvergence loc_one InitIteration Stats.empty
    (Settings.mk false math.zero None f64_two (math.Inf (-1))
       0%Z 0%Z 0%Z 0%Z 0%Z None)
  = GradientThreshhold.
Proof.
  apply (proj1 (checkConvergence_threshold_rules loc_one InitIteration
                  Stats.empty _)).
  split; [left; reflexivity|].
  exists [f64_one]. split; reflexivity.
Defined.

(** ** C4 *)

(** The method asks for the gradient alone at a new point: [evaluate]
    leaves NaN in the working [F], the best-known [F] stays 1, and
    [1 <= NaN] is false. *)
Lemma best_known_counterexample :
  exists st' h',
    minimize_body pkg settings_plain method_probe (objective caps_gradient)
      st_probe []
    = Val (Continue st') h' /\
    F (ls_loc st') = math.NaN /\
    F (ls_optLoc st') = f64_one /\
    math.le (F (ls_optLoc st')) (F (ls_loc st')) = false.
Proof.
  do 2 eexists. split; [cbv; reflexivity|]. repeat split; reflexivity.
Qed.

Lemma best_known_invariant_witness :
  bestBelowWorking st_major /\
  passes pkg settings_plain method_probe (objective caps_gradient)
    st_major [] [st_major_next] /\
  math.le (F (ls_optLoc (last [st_major_next] st_major)))
    (F (ls_optLoc st_major)) = true /\
  forall s,
    In s [st_major_next] ->
    math.IsNaN (F (ls_loc s)) = false ->
    math.le (F (ls_optLoc (last [st_major_next] st_major))) (F (ls_loc s))
    = true.
Proof.
  assert (I0 : bestBelowWorking st_major).
  { split; [reflexivity | intros _; reflexivity]. }
  assert (P0 : passes pkg settings_plain method_probe
                 (objective caps_gradient) st_major [] [st_major_next]).
  { eapply passes_continue; [cbv; reflexivity | apply passes_none]. }
  split; [exact I0|]. split; [exact P0|].
  exact (proj2 (best_known_invariant pkg) _ _ _ _ _ _ I0 P0).
Defined.

(** ** C5 *)

(** The objective is NaN at the starting point: [Local] returns the
    sentinel with a nil result, not with a result. *)
Lemma starting_fault_counterexample :
  Local 0 pkg (objective_NaN caps_gradient) [f64_one] None
    (Some method_probe) []
  = Val (Some (None, Some ErrNaN)) [EvFunc [f64_one]; EvGrad [f64_one]].
Proof. reflexivity. Qed.

Lemma Local_starting_fault_witness :
  startingFault loc_start_NaN = true /\
  exists e,
    Some ErrNaN = Some e /\ sentinelFor loc_start_NaN e /\
    Local 0 pkg (objective_NaN caps_gradient) [f64_one] None
      (Some method_probe) []
    = Val (Some (None, Some e)) [EvFunc [f64_one]; EvGrad [f64_one]].
Proof.
  split; [reflexivity|].
  apply (Local_starting_fault pkg 0 (objective_NaN caps_gradient) [f64_one]
           None (Some method_probe) []
           (funcInfo := objective_NaN caps_gradient)
           (method' := method_probe) (settings' := settings_plain)
           (h1 := []) (evalType := FuncGradEvaluation)
           (stats := stats_evaluated));
    reflexivity.
Defined.

(** ** C6 *)

Lemma minimize_Record_failure_witness :
  reaches pkg (settings_reporting recorder_failing_late) method_probe
    (objective caps_gradient) 1 st_entered
    (history_started ++ [EvMethodInit loc_one [math.zero]])
    st_round history_round /\
  exists status',
    minimize 2 pkg (settings_reporting recorder_failing_late) method_probe
      (objective caps_gradient) stats_started loc_one history_started
    = Val (Some (status', Some (ErrOther "recorder: write failed"), loc_one,
                 stats_failed))
        history_failed /\
    (checkConvergence loc_one MinorIteration stats_failed
       (settings_reporting recorder_failing_late) = NotTerminated ->
     status' = Failure) /\
    (checkConvergence loc_one MinorIteration stats_failed
       (settings_reporting recorder_failing_late) <> NotTerminated ->
     status' = checkConvergence loc_one MinorIteration stats_failed
                 (settings_reporting recorder_failing_late)) /\
    Local 2 pkg (objective caps_gradient) [f64_one]
      (Some (settings_reporting recorder_failing_late)) (Some method_probe)
      []
    = Val (Some (Some (Result.mk loc_one (with_Runtime 16%Z stats_failed)
                         status'),
                 Some (ErrOther "recorder: write failed")))
        (history_failed ++ [EvSince]).
Proof.
  assert (R : reaches pkg (settings_reporting recorder_failing_late)
                method_probe (objective caps_gradient) 1 st_entered
                (history_started ++ [EvMethodInit loc_one [math.zero]])
                st_round history_round).
  { eapply reaches_round; [cbv; reflexivity | apply reaches_here]. }
  assert (Hs : IsStatuser (objective caps_gradient) = true ->
               statuser_Status (objective caps_gradient) history_round
               = (NotTerminated, None)).
  { intros H. discriminate H. }
  split; [exact R|].
  destruct (@minimize_Record_failure functionInfo pkg
              (settings_reporting recorder_failing_late) method_probe
              (objective caps_gradient) stats_started loc_one history_started
              GradEvaluation MinorIteration [f64_two] 1 st_round history_round
              recorder_failing_late loc_probed
              (Stats.mk 0%Z 1%Z 3%Z 0%Z 0%Z 0%Z 8%Z)
              (history_round ++ [EvGrad [f64_two]])
              loc_one stats_failed
              (history_round ++ [EvGrad [f64_two]; EvSince])
              (ErrOther "recorder: write failed") 0
              eq_refl eq_refl R Hs eq_refl eq_refl eq_refl)
    as (status' & Hmin & HF & HS & HL).
  exists status'. split; [exact Hmin|]. split; [exact HF|].
  split; [exact HS|].
  apply (HL (objective caps_gradient) [f64_one]
           (Some (settings_reporting recorder_failing_late))
           (Some method_probe) [] [EvRecorderInit] FuncGradEvaluation
           stats_evaluated
           [EvRecorderInit; EvFunc [f64_one]; EvGrad [f64_one]]);
    reflexivity.
Defined.

(** ** C7 *)

Lemma evaluate_NoEvaluation_witness :
  floats.Equal (X loc_one) [f64_two] = false /\
  evaluate (objective caps_gradient) NoEvaluation [f64_two]
    (mkFrame loc_one stats_evaluated [])
  = Panic (PanicString "optimize: no evaluation requested at new location")
      (mkFrame (with_X [f64_two] loc_one) stats_evaluated []).
Proof.
  split; [reflexivity|].
  apply (proj1 (evaluate_NoEvaluation (objective caps_gradient) [f64_two]
                  (mkFrame loc_one stats_evaluated []))).
  reflexivity.
Defined.

(** ** C8 *)


(** ** C9 *)

(** In a run with a recorder, the first event among reports and checks is
    the report of the starting location. *)
Lemma report_order_counterexample :
  find (fun e => isRecord e || isCheck e)
    (state_of (Local 1 pkg (objective caps_gradient) [f64_one]
                 (Some (settings_capped recorder_ok)) (Some method_probe) []))
  = Some (EvRecord loc_one FuncGradEvaluation InitIteration
            (Stats.mk 0%Z 1%Z 1%Z 0%Z 0%Z 0%Z 3%Z)).
Proof. reflexivity. Qed.

Lemma progress_report_order_witness :
  exists rest,
    state_of (Local 1 pkg (objective caps_gradient) [f64_one]
                (Some (settings_capped recorder_ok)) (Some method_probe) [])
    = [EvRecorderInit; EvFunc [f64_one]; EvGrad [f64_one]]
        ++ [EvSince;
            EvRecord loc_one FuncGradEvaluation InitIteration
              (with_Runtime 3%Z stats_evaluated);
            EvCheckConvergence loc_one InitIteration
              (with_Runtime 3%Z stats_evaluated)] ++ rest.
Proof.
  apply (proj1 (proj2 (progress_report_order pkg)) 1
           (objective caps_gradient) [f64_one]
           (Some (settings_capped recorder_ok)) (Some method_probe) []
           (objective caps_gradient) method_probe
           (settings_capped recorder_ok) [EvRecorderInit] loc_one
           FuncGradEvaluation stats_evaluated
           [EvRecorderInit; EvFunc [f64_one]; EvGrad [f64_one]] recorder_ok);
    reflexivity.
Defined.

(** ** C10 *)

Lemma update_NaN_keeps_optLoc_witness :
  math.IsNaN (F (loc_with_F math.NaN)) = true /\
  exists stats',
    update pkg (loc_with_F math.NaN) loc_one Stats.empty MajorIteration []
    = Val (loc_one, stats') ([] ++ [EvSince]).
Proof.
  split; [reflexivity|].
  apply (proj1 (update_NaN_keeps_optLoc pkg)). reflexivity.
Defined.

End Instances.

(** * The further properties at concrete inputs *)

Section MoreInstances.

Import Fixtures.
Import MoreFixtures.

Lemma evaluate_marks_stale_fields_witness :
  floats.Equal (X loc_full) [f64_two] = false /\
  exists fr',
    evaluate (objective caps_gradient) FuncEvaluation [f64_two]
      (mkFrame loc_full Stats.empty [])
    = Val tt fr' /\
    gradientMarked (fr_loc fr') /\ hessianMarked (fr_loc fr').
Proof.
  split; [reflexivity|].
  exact (proj1 (@evaluate_marks_stale_fields (objective caps_gradient)
                  [f64_two] (mkFrame loc_full Stats.empty [])
                  eq_refl I I)).
Defined.

Lemma evaluate_FuncEvaluation_witness :
  hessianMarkable loc_full /\
  exists fr',
    evaluate (objective caps_none) FuncEvaluation [f64_two]
      (mkFrame loc_full Stats.empty [])
    = Val tt fr' /\
    fr_hist fr' = [] ++ [EvFunc [f64_two]] /\
    fr_stats fr' = incr_FuncEvaluations Stats.empty /\
    X (fr_loc fr') = [f64_two] /\
    F (fr_loc fr') = f64_two.
Proof.
  split; [exact (le_n 1)|].
  exact (@evaluate_FuncEvaluation (objective caps_none) [f64_two]
           (mkFrame loc_full Stats.empty []) I (le_n 1)).
Defined.

Lemma evaluate_GradEvaluation_dispatch_witness :
  hessianMarkable loc_one /\
  exists fr',
    evaluate (objective caps_triple) GradEvaluation [f64_two]
      (mkFrame loc_one Stats.empty [])
    = Val tt fr' /\
    fr_hist fr' = [] ++ [EvFuncGradHess [f64_two]] /\
    fr_stats fr' = incr_FuncGradHessEvaluations Stats.empty /\
    (F (fr_loc fr'), Gradient (fr_loc fr'), Hessian (fr_loc fr'))
    = (f64_two, Some [f64_one], Some (mat64.NewSymDense 1)).
Proof.
  split; [exact I|].
  apply (proj1 (proj2 (proj2 (@evaluate_GradEvaluation_dispatch
                                (objective caps_triple) [f64_two]
                                (mkFrame loc_one Stats.empty []) I))));
    reflexivity.
Defined.

Lemma evaluate_HessEvaluation_dispatch_witness :
  gradientHasFirst loc_full /\
  exists fr',
    evaluate (objective caps_hessian) HessEvaluation [f64_two]
      (mkFrame loc_full Stats.empty [])
    = Val tt fr' /\
    fr_hist fr' = [] ++ [EvHess [f64_two]] /\
    fr_stats fr' = incr_HessEvaluations Stats.empty /\
    Hessian (fr_loc fr') = Some (mat64.NewSymDense 1).
Proof.
  split; [exact I|].
  apply (proj1 (@evaluate_HessEvaluation_dispatch
                  (objective caps_hessian) [f64_two]
                  (mkFrame loc_full Stats.empty []) I));
    reflexivity.
Defined.

Lemma checkConvergence_limits_witness :
  noThreshold loc_one MajorIteration (settings_capped recorder_ok) /\
  reached (Settings.FuncEvaluations (settings_capped recorder_ok))
    (funcTotal stats_updated) /\
  checkConvergence loc_one MajorIteration stats_updated
    (settings_capped recorder_ok)
  = FunctionEvaluationLimit.
Proof.
  assert (NT : noThreshold loc_one MajorIteration
                 (settings_capped recorder_ok)).
  { intros _. split; [|reflexivity].
    intros (g & Hg & Hlt). inversion Hg; subst. discriminate Hlt. }
  assert (R : reached (Settings.FuncEvaluations (settings_capped recorder_ok))
                (funcTotal stats_updated)).
  { split; [reflexivity | intros H; discriminate H]. }
  split; [exact NT|]. split; [exact R|].
  exact (proj2 (proj1 (@checkConvergence_limits loc_one MajorIteration
                         stats_updated (settings_capped recorder_ok)
                         NT eq_refl)) R).
Defined.

Lemma checkConvergence_negative_infinity_terminal_witness :
  math.IsInf (F loc_neg_inf) (-1) = true /\
  (checkConvergence loc_neg_inf MajorIteration stats_updated
     (settings_capped recorder_ok) = GradientThreshhold \/
   checkConvergence loc_neg_inf MajorIteration stats_updated
     (settings_capped recorder_ok) = FunctionThreshhold \/
   checkConvergence loc_neg_inf MajorIteration stats_updated
     (settings_capped recorder_ok) = FunctionNegativeInfinity).
Proof.
  split; [reflexivity|].
  exact (@checkConvergence_negative_infinity_terminal loc_neg_inf
           MajorIteration stats_updated (settings_capped recorder_ok)
           eq_refl).
Defined.

Lemma getStartingLocation_result_witness :
  X loc_one = [f64_one] /\
  FuncGradEvaluation
  = (if Settings.UseInitialData settings_plain then NoEvaluation
     else if Needs_Gradient method_probe then FuncGradEvaluation
     else FuncEvaluation) /\
  (@None error = None <-> startingFault loc_one = false) /\
  exists ev,
    [EvFunc [f64_one]; EvGrad [f64_one]] = [] ++ ev /\
    stats_evaluated = bump ev Stats.empty /\
    length (objectiveCalls ev) = length ev /\
    (Settings.UseInitialData settings_plain = true -> ev = []).
Proof.
  apply (@getStartingLocation_result (objective caps_gradient) method_probe
           [f64_one] Stats.empty settings_plain [] loc_one
           FuncGradEvaluation None stats_evaluated
           [EvFunc [f64_one]; EvGrad [f64_one]]).
  reflexivity.
Defined.

Lemma getStartingLocation_initial_data_witness :
  exists loc,
    getStartingLocation (objective caps_gradient) method_probe [f64_one]
      Stats.empty settings_initial []
    = Val (loc, NoEvaluation, startingError loc, Stats.empty) [] /\
    X loc = [f64_one] /\
    F loc = f64_two /\
    Gradient loc = Some [f64_one] /\
    Hessian loc = None.
Proof.
  exact (@getStartingLocation_initial_data (objective caps_gradient)
           method_probe [f64_one] Stats.empty settings_initial []
           eq_refl).
Defined.

Lemma minimize_early_exit_witness :
  minimize 1 pkg settings_plain method_failing (objective caps_gradient)
    stats_evaluated loc_one []
  = Val (Some (Failure, Some (ErrOther "method: init failed"), loc_one,
               stats_evaluated))
      ([] ++ [EvMethodInit loc_one [math.zero]]).
Proof.
  apply (proj1 (@minimize_early_exit functionInfo pkg 1 settings_plain
                  method_failing (objective caps_gradient) stats_evaluated
                  loc_one [] NoEvaluation MajorIteration
                  (Some (ErrOther "method: init failed")) [math.zero]
                  eq_refl)).
  reflexivity.
Defined.

Lemma minimize_terminal_witness :
  minimize_run []
  = Val (Some (GradientEvaluationLimit, None, loc_one,
               Stats.mk 0%Z 1%Z 2%Z 0%Z 0%Z 0%Z 2%Z))
      (state_of (minimize_run [])) /\
  ~ (GradientEvaluationLimit = NotTerminated /\ @None error = None).
Proof.
  assert (H : minimize_run []
              = Val (Some (GradientEvaluationLimit, None, loc_one,
                           Stats.mk 0%Z 1%Z 2%Z 0%Z 0%Z 0%Z 2%Z))
                  (state_of (minimize_run []))) by reflexivity.
  split; [exact H|].
  exact (@minimize_terminal functionInfo pkg 1 (settings_grad_capped None)
           method_probe (objective caps_gradient) stats_evaluated loc_one []
           _ _ _ _ _ H).
Defined.

Lemma Local_terminal_witness :
  local_run [] = Val (Some (Some result_run, None)) (state_of (local_run []))
  /\ terminal (Result.Status result_run) None = true.
Proof.
  assert (H : local_run []
              = Val (Some (Some result_run, None)) (state_of (local_run [])))
    by reflexivity.
  split; [exact H|].
  exact (@Local_terminal functionInfo pkg 1 (objective caps_gradient)
           [f64_one] (Some (settings_grad_capped (Some recorder_ok)))
           (Some method_probe) [] (Some result_run) None _ H).
Defined.

Lemma Local_counts_witness :
  exists ev,
    state_of (local_run []) = [] ++ ev /\
    sameCounters (Result.Stats result_run) (bump ev Stats.empty).
Proof.
  apply (@Local_counts functionInfo pkg 1 (objective caps_gradient)
           [f64_one] (Some (settings_grad_capped (Some recorder_ok)))
           (Some method_probe) [] result_run None (state_of (local_run []))).
  reflexivity.
Defined.

Lemma Local_best_le_start_witness :
  math.IsNaN (F (Result.Location result_run)) = false /\
  math.IsInf (F loc_one) 1 = false /\
  math.le (F (Result.Location result_run)) (F loc_one) = true.
Proof.
  apply (@Local_best_le_start functionInfo pkg 1 (objective caps_gradient)
           [f64_one] (Some (settings_grad_capped (Some recorder_ok)))
           (Some method_probe) [] result_run None (state_of (local_run []))
           (objective caps_gradient) method_probe
           (settings_grad_capped (Some recorder_ok)) [EvRecorderInit]
           loc_one FuncGradEvaluation None stats_evaluated
           [EvRecorderInit; EvFunc [f64_one]; EvGrad [f64_one]]);
    reflexivity.
Defined.

Lemma Local_final_report_witness :
  exists before stats,
    state_of (local_run [])
    = (before
         ++ [EvRecord (Result.Location result_run) NoEvaluation PostIteration
               stats]) ++ [EvSince] /\
    Result.Stats result_run
    = with_Runtime
        (time_Since pkg
           (before
              ++ [EvRecord (Result.Location result_run) NoEvaluation
                    PostIteration stats]))
        stats.
Proof.
  apply (@Local_final_report functionInfo pkg 1 (objective caps_gradient)
           [f64_one] (Some (settings_grad_capped (Some recorder_ok)))
           (Some method_probe) [] result_run (state_of (local_run []))
           (objective caps_gradient) method_probe
           (settings_grad_capped (Some recorder_ok)) [EvRecorderInit]);
    reflexivity.
Defined.

Lemma Local_early_returns_witness :
  methodInUse pkg (objective caps_gradient) None = Some method_probe /\
  Local 1 pkg (objective caps_gradient) [f64_one]
    (Some (settings_reporting recorder_init_failing)) None []
  = Val (Some (None, Some (ErrOther "recorder: init failed")))
      (([] ++ probeEvents (objective caps_gradient)) ++ [EvRecorderInit]).
Proof.
  assert (Hne : [f64_one] <> []) by (intros H; discriminate H).
  assert (Hs : IsStatuser (objective caps_gradient) = true ->
               snd (statuser_Status (objective caps_gradient) []) = None).
  { intros _. reflexivity. }
  split; [reflexivity|].
  exact (proj2 (proj2 (proj2 (proj2 (@Local_early_returns functionInfo pkg 1
                                       (objective caps_gradient) [f64_one]
                                       (Some (settings_reporting
                                                recorder_init_failing))
                                       None [])
                                Hne)
                         method_probe eq_refl))
           recorder_init_failing (ErrOther "recorder: init failed")
           eq_refl Hs eq_refl eq_refl).
Defined.

End MoreInstances.
